(** * Routine-card PDF generator: layout selection, card rendering, pagination

    A shallow embedding of [apps/api/scripts/generate-card-pdf.py].

    Numbers.  Every coordinate the script computes is a sum, difference or
    product of small integer-valued floats ([inch] = 72.0, so [0.25*inch] = 18,
    [4.25*inch] = 306, [5.5*inch] = 396, [8.5*inch] = 612, [11*inch] = 792, and
    [SCALE_BOX_SIZE / 2] = 12); such float arithmetic is exact, so coordinates
    are modelled in [Z], in points.  The only fractional numbers are the
    literal line widths 0.5 and 1.5, kept in [Q].

    The drawing surface.  The reportlab canvas is an external object that the
    script only ever sends commands to.  It is modelled as the destination it
    was opened on together with the ordered list of commands received so far.

    Python dictionaries read from JSON are records of optional fields: [None]
    is an absent key, so [d['k']] raises [KeyError] and [d.get('k', v)]
    defaults.  Field values are taken at the types the script expects (text,
    integers, booleans). *)

From Stdlib Require Import ZArith List String Ascii Bool Lia QArith.
From Stdlib Require Import Permutation Sorted DecimalString.
Import ListNotations.
Local Open Scope string_scope.
Local Open Scope list_scope.
Local Open Scope Z_scope.

(** ** Python values and exceptions *)

Inductive Exn : Type :=
| KeyError (key : string)
| TypeError (msg : string).

Inductive Res (A : Type) : Type :=
| Ok (a : A)
| Raise (e : Exn).
Arguments Ok {A} a.
Arguments Raise {A} e.

(** [range(n)] and [range(a, b)] over integers. *)
Definition range (n : Z) : list Z := map Z.of_nat (seq 0 (Z.to_nat n)).
Definition range2 (a b : Z) : list Z :=
  map (fun k => a + Z.of_nat k) (seq 0 (Z.to_nat (b - a))).

(** [str(n)] for an integer. *)
Definition str (n : Z) : string := NilZero.string_of_int (Z.to_int n).

(** Truthiness of what [d.get(key)] returns: [None] (absent key) and the
    empty text are false, [False] is false. *)
Definition truthy_bool (v : option bool) : bool :=
  match v with
  | Some b => b
  | None => false
  end.

Definition truthy (v : option string) : bool :=
  match v with
  | Some s => negb (String.eqb s "")
  | None => false
  end.

(** ** State-and-exception monad

    A raised exception keeps the state reached so far: commands already sent
    to the canvas stay sent. *)

Definition M (S A : Type) : Type := S -> Res A * S.

Definition ret {S A} (a : A) : M S A := fun s => (Ok a, s).

Definition bind {S A B} (m : M S A) (f : A -> M S B) : M S B :=
  fun s =>
    match m s with
    | (Ok a, s') => f a s'
    | (Raise e, s') => (Raise e, s')
    end.

Definition raise {S A} (e : Exn) : M S A := fun s => (Raise e, s).
Definition gets {S A} (f : S -> A) : M S A := fun s => (Ok (f s), s).
Definition modify {S} (f : S -> S) : M S unit := fun s => (Ok tt, f s).

Notation "x <- m ;; k" := (bind m (fun x => k))
  (at level 61, m at next level, right associativity).
Notation "m ;; k" := (bind m (fun _ => k))
  (at level 61, right associativity).

(** [d[key]] on an optional field. *)
Definition getitem {S A} (key : string) (v : option A) : M S A :=
  match v with
  | Some a => ret a
  | None => raise (KeyError key)
  end.

(** [d.get(key, default)]. *)
Definition get_default {A} (v : option A) (default : A) : A :=
  match v with
  | Some a => a
  | None => default
  end.

(** [for a in l: body], where the body says whether it executed [break]. *)
Inductive LoopCtl : Type := Next | Break.

Fixpoint for_in {S A} (l : list A) (body : A -> M S LoopCtl) : M S unit :=
  match l with
  | [] => ret tt
  | a :: l' =>
      ctl <- body a ;;
      match ctl with
      | Break => ret tt
      | Next => for_in l' body
      end
  end.

(** A loop whose body has no [break]. *)
Definition for_each {S A} (l : list A) (body : A -> M S unit) : M S unit :=
  for_in l (fun a => body a ;; ret Next).

(** ** [sorted(l, key=...)]

    Python's [sorted] is a stable ascending sort.  It is modelled by a stable
    insertion sort; [sorted_perm], [sorted_ascending] and [sorted_stable] below
    show that this model has the three properties that define the result of
    a stable sort. *)

Section Sorted.
Context {A : Type} (key : A -> Z).

Fixpoint insert_by (a : A) (l : list A) : list A :=
  match l with
  | [] => [a]
  | b :: l' => if key a <=? key b then a :: b :: l' else b :: insert_by a l'
  end.

Fixpoint sorted (l : list A) : list A :=
  match l with
  | [] => []
  | a :: l' => insert_by a (sorted l')
  end.

Definition key_le (a b : A) : Prop := key a <= key b.
End Sorted.

(** ** The drawing surface *)

Inductive Color : Type := black | GRAY.

Inductive Op : Type :=
| setFillColor (col : Color)
| setStrokeColor (col : Color)
| setLineWidth (w : Q)
| setFont (face : string) (size : Z)
| setDash (pattern : list Z)
| circle (cx cy r : Z) (stroke fill : bool)
| rect (rx ry w h : Z) (stroke fill : bool)
| line (x1 y1 x2 y2 : Z)
| drawString (tx ty : Z) (text : string)
| drawCentredString (tx ty : Z) (text : string)
| drawRightString (tx ty : Z) (text : string)
| showPage
| save.

Inductive Dest : Type :=
| ToFile (path : string)
| ToBuffer.

Record Canvas : Type := mkCanvas {
  dest : Dest;
  code : list Op
}.

(** [canvas.Canvas(target, pagesize=letter)]: nothing drawn yet. *)
Definition new_canvas (d : Dest) : Canvas := mkCanvas d [].

Definition emit (op : Op) (cv : Canvas) : Canvas :=
  mkCanvas (dest cv) (code cv ++ [op]).

Definition emits (ops : list Op) (cv : Canvas) : Canvas :=
  mkCanvas (dest cv) (code cv ++ ops).

(** ** Constants *)

Definition inch : Z := 72.                               (* reportlab.lib.units *)
Definition PAGE_WIDTH : Z := 612.                        (* letter *)
Definition PAGE_HEIGHT : Z := 792.
Definition MARGIN : Z := Eval cbv in (inch / 4).         (* 0.25 * inch *)
Definition MARKER_RADIUS : Z := 4.

Record LayoutConfig : Type := mkLayout {
  cols : Z;
  rows : Z;
  lc_width : Z;
  lc_height : Z
}.

(** The [LAYOUTS] table; [None] is a key that is not in the dictionary. *)
Definition LAYOUTS (name : string) : option LayoutConfig :=
  if String.eqb name "quarter" then
    Some (mkLayout 2 2 (17 * inch / 4) (11 * inch / 2))  (* 4.25in x 5.5in *)
  else if String.eqb name "half" then
    Some (mkLayout 1 2 (17 * inch / 2) (11 * inch / 2))  (* 8.5in x 5.5in *)
  else if String.eqb name "full" then
    Some (mkLayout 1 1 (17 * inch / 2) (11 * inch))      (* 8.5in x 11in *)
  else None.

Definition CHECKBOX_SIZE : Z := 18.
Definition NUMBER_BOX_WIDTH : Z := 72.
Definition NUMBER_BOX_HEIGHT : Z := 24.
Definition SCALE_BOX_SIZE : Z := 24.
Definition LINE_HEIGHT : Z := 18.

(** ** Layout selector *)

Definition suggest_layout (item_count : Z) : string :=
  if item_count <=? 8 then "quarter"
  else if item_count <=? 15 then "half"
  else "full".

(** ** Input data *)

Record Item : Type := mkItem {
  item_type : option string;
  item_name : option string;
  item_order : option Z;
  item_unit : option string;
  item_hasNotes : option bool
}.

Record Routine : Type := mkRoutine {
  routine_name : option string;
  routine_items : option (list Item);
  routine_version : option Z
}.

(** The sort key [lambda x: x.get('order', 0)]. *)
Definition order_key (item : Item) : Z := get_default (item_order item) 0.

(** ** CardRenderer *)

Record CardRenderer : Type := mkCardRenderer {
  self_c : Canvas;
  self_x : Z;
  self_y : Z;
  self_width : Z;
  self_height : Z;
  self_routine : Routine;
  self_version : Z;
  self_current_y : Z
}.

Definition set_c (cv : Canvas) (self : CardRenderer) : CardRenderer :=
  mkCardRenderer cv (self_x self) (self_y self) (self_width self)
    (self_height self) (self_routine self) (self_version self)
    (self_current_y self).

Definition set_current_y (v : Z) (self : CardRenderer) : CardRenderer :=
  mkCardRenderer (self_c self) (self_x self) (self_y self) (self_width self)
    (self_height self) (self_routine self) (self_version self) v.

(** No method assigns [self.routine]; this setter only serves to compare
    the renderers of two routines. *)
Definition set_routine (routine : Routine) (self : CardRenderer)
    : CardRenderer :=
  mkCardRenderer (self_c self) (self_x self) (self_y self) (self_width self)
    (self_height self) routine (self_version self) (self_current_y self).

(** [CardRenderer.__init__]. *)
Definition CardRenderer_init (canvas : Canvas) (x y width height : Z)
    (routine : Routine) (version : Z) : CardRenderer :=
  mkCardRenderer canvas x y width height routine version (y + height - MARGIN).

(** A call [self.c.<op>(...)]. *)
Definition c_call (op : Op) : M CardRenderer unit :=
  modify (fun self => set_c (emit op (self_c self)) self).

(** [self.current_y -= d]. *)
Definition current_y_sub (d : Z) : M CardRenderer unit :=
  modify (fun self => set_current_y (self_current_y self - d) self).

Definition _draw_alignment_markers : M CardRenderer unit :=
  c_call (setFillColor black) ;;
  x <- gets self_x ;;
  y <- gets self_y ;;
  width <- gets self_width ;;
  height <- gets self_height ;;
  let positions :=
    [ (x + MARGIN, y + height - MARGIN);
      (x + width - MARGIN, y + height - MARGIN);
      (x + MARGIN, y + MARGIN);
      (x + width - MARGIN, y + MARGIN) ] in
  for_each positions (fun '(px, py) =>
    c_call (circle px py MARKER_RADIUS false true)).

Definition _draw_header : M CardRenderer unit :=
  c_call (setFont "Helvetica-Bold" 14) ;;
  c_call (setFillColor black) ;;
  x <- gets self_x ;;
  width <- gets self_width ;;
  let content_x := x + MARGIN + MARKER_RADIUS * 2 in
  current_y_sub 14 ;;
  current_y <- gets self_current_y ;;
  routine <- gets self_routine ;;
  name <- getitem "name" (routine_name routine) ;;
  c_call (drawString content_x current_y name) ;;
  c_call (setFont "Helvetica" 10) ;;
  let date_x := x + width - MARGIN - 80 in
  c_call (drawString date_x (current_y + 2) "___/___/___") ;;
  current_y_sub 10 ;;
  current_y <- gets self_current_y ;;
  c_call (setStrokeColor GRAY) ;;
  c_call (setLineWidth (1 # 2)) ;;
  c_call (line content_x current_y
            (x + width - MARGIN - MARKER_RADIUS * 2) current_y) ;;
  c_call (setStrokeColor black) ;;
  current_y_sub 15.

Definition _draw_checkbox_item (x : Z) (item : Item) : M CardRenderer unit :=
  c_call (setStrokeColor black) ;;
  c_call (setLineWidth (3 # 2)) ;;
  current_y <- gets self_current_y ;;
  c_call (rect x (current_y - CHECKBOX_SIZE + 4) CHECKBOX_SIZE CHECKBOX_SIZE
            true false) ;;
  c_call (setFont "Helvetica" 11) ;;
  c_call (setFillColor black) ;;
  name <- getitem "name" (item_name item) ;;
  c_call (drawString (x + CHECKBOX_SIZE + 8) (current_y - 8) name) ;;
  current_y_sub (CHECKBOX_SIZE + 8).

Definition _draw_number_item (x : Z) (item : Item) : M CardRenderer unit :=
  c_call (setFont "Helvetica" 11) ;;
  c_call (setFillColor black) ;;
  current_y <- gets self_current_y ;;
  name <- getitem "name" (item_name item) ;;
  c_call (drawString x (current_y - 8) name) ;;
  current_y_sub 18 ;;
  current_y <- gets self_current_y ;;
  c_call (setStrokeColor black) ;;
  c_call (setLineWidth 1) ;;
  c_call (rect x (current_y - NUMBER_BOX_HEIGHT) NUMBER_BOX_WIDTH
            NUMBER_BOX_HEIGHT true false) ;;
  let unit_ := item_unit item in
  (if truthy unit_ then
     c_call (setFont "Helvetica" 9) ;;
     c_call (setFillColor GRAY) ;;
     c_call (drawString (x + NUMBER_BOX_WIDTH + 6)
               (current_y - NUMBER_BOX_HEIGHT + 6) (get_default unit_ "")) ;;
     c_call (setFillColor black)
   else ret tt) ;;
  current_y_sub (NUMBER_BOX_HEIGHT + 12).

Definition _draw_scale_item (x content_width : Z) (item : Item)
    : M CardRenderer unit :=
  c_call (setFont "Helvetica" 11) ;;
  c_call (setFillColor black) ;;
  current_y <- gets self_current_y ;;
  name <- getitem "name" (item_name item) ;;
  c_call (drawString x (current_y - 8) name) ;;
  current_y_sub 22 ;;
  current_y <- gets self_current_y ;;
  c_call (setStrokeColor black) ;;
  c_call (setLineWidth 1) ;;
  c_call (setFont "Helvetica" 9) ;;
  for_each (range 5) (fun i =>
    let box_x := x + i * (SCALE_BOX_SIZE + 6) in
    c_call (rect box_x (current_y - SCALE_BOX_SIZE) SCALE_BOX_SIZE
              SCALE_BOX_SIZE true false) ;;
    c_call (setFillColor GRAY) ;;
    c_call (drawCentredString (box_x + SCALE_BOX_SIZE / 2) (current_y + 3)
              (str (i + 1))) ;;
    c_call (setFillColor black)) ;;
  current_y_sub (SCALE_BOX_SIZE + 8) ;;
  current_y <- gets self_current_y ;;
  if truthy_bool (item_hasNotes item) then
    c_call (setFont "Helvetica" 9) ;;
    c_call (setFillColor GRAY) ;;
    c_call (drawString x (current_y - 8) "Notes:") ;;
    c_call (setFillColor black) ;;
    c_call (setStrokeColor GRAY) ;;
    c_call (setLineWidth (1 # 2)) ;;
    c_call (line (x + 35) (current_y - 10) (x + content_width)
              (current_y - 10)) ;;
    c_call (setStrokeColor black) ;;
    current_y_sub 16
  else ret tt.

Definition _draw_text_item (x content_width : Z) (item : Item)
    : M CardRenderer unit :=
  c_call (setFont "Helvetica" 11) ;;
  c_call (setFillColor black) ;;
  current_y <- gets self_current_y ;;
  name <- getitem "name" (item_name item) ;;
  c_call (drawString x (current_y - 8) name) ;;
  current_y_sub 18 ;;
  c_call (setStrokeColor GRAY) ;;
  c_call (setLineWidth (1 # 2)) ;;
  for_each (range 2) (fun _ =>
    current_y <- gets self_current_y ;;
    c_call (line x (current_y - 4) (x + content_width) (current_y - 4)) ;;
    current_y_sub LINE_HEIGHT) ;;
  c_call (setStrokeColor black).

(** The [if / elif] chain on [item['type']]; it has no [else] branch. *)
Definition draw_item (content_x content_width : Z) (item : Item)
    : M CardRenderer unit :=
  item_type <- getitem "type" (item_type item) ;;
  if String.eqb item_type "checkbox" then _draw_checkbox_item content_x item
  else if String.eqb item_type "number" then _draw_number_item content_x item
  else if String.eqb item_type "scale" then
    _draw_scale_item content_x content_width item
  else if String.eqb item_type "text" then
    _draw_text_item content_x content_width item
  else ret tt.

(** The body of the loop of [_draw_items], for one [item]. *)
Definition _draw_items_body (content_x content_width min_y : Z) (item : Item)
    : M CardRenderer LoopCtl :=
  current_y <- gets self_current_y ;;
  if current_y <? min_y then ret Break
  else draw_item content_x content_width item ;; ret Next.

Definition _draw_items : M CardRenderer unit :=
  x <- gets self_x ;;
  y <- gets self_y ;;
  width <- gets self_width ;;
  routine <- gets self_routine ;;
  let content_x := x + MARGIN + MARKER_RADIUS * 2 in
  let content_width := width - (2 * MARGIN) - (MARKER_RADIUS * 4) in
  let min_y := y + MARGIN + 20 in
  for_in (sorted order_key (get_default (routine_items routine) []))
    (_draw_items_body content_x content_width min_y).

Definition _draw_version : M CardRenderer unit :=
  c_call (setFont "Helvetica" 8) ;;
  c_call (setFillColor GRAY) ;;
  version <- gets self_version ;;
  let version_text := String.append "v" (str version) in
  x <- gets self_x ;;
  y <- gets self_y ;;
  width <- gets self_width ;;
  c_call (drawRightString (x + width - MARGIN - MARKER_RADIUS * 2)
            (y + MARGIN + MARKER_RADIUS) version_text) ;;
  c_call (setFillColor black).

Definition draw : M CardRenderer unit :=
  _draw_alignment_markers ;;
  _draw_header ;;
  _draw_items ;;
  _draw_version.

(** ** Page compositor and pagination driver *)

(** A call [c.<op>(...)] on a canvas held directly. *)
Definition cv_call (op : Op) : M Canvas unit := modify (emit op).

Definition draw_cut_guides (layout_config : LayoutConfig) : M Canvas unit :=
  cv_call (setStrokeColor GRAY) ;;
  cv_call (setLineWidth (1 # 2)) ;;
  cv_call (setDash [6; 3]) ;;
  for_each (range2 1 (cols layout_config)) (fun col =>
    let x := col * lc_width layout_config in
    cv_call (line x 0 x PAGE_HEIGHT)) ;;
  for_each (range2 1 (rows layout_config)) (fun row =>
    let y := PAGE_HEIGHT - row * lc_height layout_config in
    cv_call (line 0 y PAGE_WIDTH y)) ;;
  cv_call (setDash []).

(** The local state of [generate_pdf]: the canvas [c] and [card_index]. *)
Record GenState : Type := mkGen {
  gen_c : Canvas;
  card_index : Z
}.

Definition on_canvas {A} (m : M Canvas A) : M GenState A :=
  fun g =>
    let (r, cv) := m (gen_c g) in
    (r, mkGen cv (card_index g)).

(** [CardRenderer(c, x, y, width, height, routine, version).draw()]: the
    renderer holds the very canvas of [generate_pdf], so what it draws stays
    on that canvas afterwards, also when it raises. *)
Definition render_card (x y : Z) (layout_config : LayoutConfig)
    (routine : Routine) : M GenState unit :=
  fun g =>
    let renderer :=
      CardRenderer_init (gen_c g) x y (lc_width layout_config)
        (lc_height layout_config) routine
        (get_default (routine_version routine) 1) in
    let (r, renderer') := draw renderer in
    (r, mkGen (self_c renderer') (card_index g)).

(** The body of the inner loop of [generate_pdf], for the cell at [row],
    [col]. *)
Definition draw_cell (routine : Routine) (layout_config : LayoutConfig)
    (quantity : Z) (row col : Z) : M GenState LoopCtl :=
  i <- gets card_index ;;
  if quantity <=? i then ret Break
  else
    let x := col * lc_width layout_config in
    let y := PAGE_HEIGHT - (row + 1) * lc_height layout_config in
    render_card x y layout_config routine ;;
    modify (fun g => mkGen (gen_c g) (card_index g + 1)) ;;
    ret Next.

Definition draw_cards (routine : Routine) (layout_config : LayoutConfig)
    (quantity : Z) : M GenState unit :=
  for_each (range (rows layout_config)) (fun row =>
    for_in (range (cols layout_config))
      (draw_cell routine layout_config quantity row)).

Definition draw_page (routine : Routine) (layout_config : LayoutConfig)
    (quantity : Z) (page : Z) : M GenState unit :=
  (if 0 <? page then on_canvas (cv_call showPage) else ret tt) ;;
  on_canvas (draw_cut_guides layout_config) ;;
  draw_cards routine layout_config quantity.

Definition draw_pages (routine : Routine) (layout_config : LayoutConfig)
    (quantity total_pages : Z) : M GenState unit :=
  for_each (range total_pages) (draw_page routine layout_config quantity).

Inductive GenResult : Type :=
| PdfBytes (document : list Op)
| Summary (layout : string) (cards_per_page pages_generated cards_generated : Z).

(** [generate_pdf] returns its result, or the exception it raised, together
    with the canvas it created, as that canvas was left ([None]: no canvas
    was created).  The bytes of [buffer.getvalue()] are whatever the canvas
    wrote, so they are represented by the command list. *)
Definition generate_pdf (routine : Routine) (layout : string) (quantity : Z)
    (output_path : option string) : Res GenResult * option Canvas :=
  match LAYOUTS layout with
  | None => (Raise (KeyError layout), None)
  | Some layout_config =>
      let cards_per_page := cols layout_config * rows layout_config in
      let total_pages := (quantity + cards_per_page - 1) / cards_per_page in
      let c :=
        if truthy output_path
        then new_canvas (ToFile (get_default output_path ""))
        else new_canvas ToBuffer in
      let body :=
        draw_pages routine layout_config quantity total_pages ;;
        on_canvas (cv_call save) in
      match body (mkGen c 0) with
      | (Raise e, g) => (Raise e, Some (gen_c g))
      | (Ok _, g) =>
          if negb (truthy output_path)
          then (Ok (PdfBytes (code (gen_c g))), Some (gen_c g))
          else (Ok (Summary layout cards_per_page total_pages quantity),
                Some (gen_c g))
      end
  end.

(** ** Command-line entry point

    Reading and decoding the input file is outside the model: [main] starts
    from the decoded object.  Like [generate_pdf] it is given with the canvas
    it leaves behind; its result is what it prints, [json.dumps] raising
    [TypeError] on bytes. *)

Record Data : Type := mkData {
  data_name : option string;
  data_items : option (list Item);
  data_version : option Z;
  data_quantity : option Z
}.

Record Args : Type := mkArgs {
  args_output : string;
  args_layout : string
}.

Definition main (args : Args) (data : Data) : Res GenResult * option Canvas :=
  match data_name data with
  | None => (Raise (KeyError "name"), None)
  | Some routine_name =>
      match data_items data with
      | None => (Raise (KeyError "items"), None)
      | Some items =>
          let version := get_default (data_version data) 1 in
          let quantity := get_default (data_quantity data) 1 in
          let layout :=
            if String.eqb (args_layout args) "auto"
            then suggest_layout (Z.of_nat (List.length items))
            else args_layout args in
          let routine :=
            mkRoutine (Some routine_name) (Some items) (Some version) in
          match generate_pdf routine layout quantity (Some (args_output args)) with
          | (Ok (Summary l n p k), cv) => (Ok (Summary l n p k), cv)
          | (Ok (PdfBytes _), cv) =>
              (Raise (TypeError "Object of type bytes is not JSON serializable"), cv)
          | (Raise e, cv) => (Raise e, cv)
          end
      end
  end.

(** * Vocabulary of the properties *)

(** ** Items and routines *)

(** The four kinds of item the renderer has a drawing rule for. *)
Definition recognized_kind (t : string) : bool :=
  String.eqb t "checkbox" || String.eqb t "number" || String.eqb t "scale"
  || String.eqb t "text".

(** An item whose [type] is present but is none of the four kinds. *)
Definition unknown_item (item : Item) : bool :=
  match item_type item with
  | Some t => negb (recognized_kind t)
  | None => false
  end.

(** A routine without its items of unknown kind. *)
Definition keep_recognized (routine : Routine) : Routine :=
  mkRoutine (routine_name routine)
    (option_map (filter (fun item => negb (unknown_item item)))
       (routine_items routine))
    (routine_version routine).

(** An item with the two required fields of the data model. *)
Definition well_formed_item (item : Item) : bool :=
  match item_type item, item_name item with
  | Some _, Some _ => true
  | _, _ => false
  end.

(** A routine that has its name and only well-formed items. *)
Definition well_formed (routine : Routine) : Prop :=
  routine_name routine <> None /\
  Forall (fun item => well_formed_item item = true)
    (get_default (routine_items routine) []).

(** The vertical advance of an item: by how much drawing it lowers the
    cursor ([draw_item_advance] proves that it does). *)
Definition item_advance (item : Item) : Z :=
  match item_type item with
  | Some t =>
      if String.eqb t "checkbox" then 26
      else if String.eqb t "number" then 54
      else if String.eqb t "scale" then
        (if truthy_bool (item_hasNotes item) then 70 else 54)
      else if String.eqb t "text" then 54
      else 0
  | None => 0
  end.

Definition total_advance (items : list Item) : Z :=
  fold_right (fun item acc => item_advance item + acc) 0 items.

(** ** The renderer *)

(** The fields of a renderer that no method assigns after [__init__]. *)
Definition same_card (s s' : CardRenderer) : Prop :=
  self_x s' = self_x s /\ self_y s' = self_y s /\
  self_width s' = self_width s /\ self_height s' = self_height s /\
  self_routine s' = self_routine s /\ self_version s' = self_version s.

(** The locals of [_draw_items], as functions of the renderer. *)
Definition content_x_of (self : CardRenderer) : Z :=
  self_x self + MARGIN + MARKER_RADIUS * 2.

Definition content_width_of (self : CardRenderer) : Z :=
  self_width self - (2 * MARGIN) - (MARKER_RADIUS * 4).

Definition min_y_of (self : CardRenderer) : Z := self_y self + MARGIN + 20.

(** The input items of a renderer's routine, as [routine.get('items', [])]. *)
Definition items_of (self : CardRenderer) : list Item :=
  get_default (routine_items (self_routine self)) [].

(** Drawing a list of items one after the other, with no floor check. *)
Definition draw_seq (content_x content_width : Z) (items : list Item)
    : M CardRenderer unit :=
  for_each items (draw_item content_x content_width).

(** What one card sends to the canvas and how its rendering ends, read off a
    run on an empty canvas; [draw_card_run] shows that the same commands are
    appended to whatever canvas the card is really drawn on. *)
Definition card_run (x y width height : Z) (routine : Routine) (version : Z)
    : Res unit * list Op :=
  let (r, self') :=
    draw (CardRenderer_init (new_canvas ToBuffer) x y width height routine
            version) in
  (r, code (self_c self')).

(** ** Commands on the canvas *)

(** A computation over a state that holds a canvas (reached through [setc])
    is _emitting_ when all it does to the canvas is append commands, and
    neither those commands, nor its result, nor the rest of its final state
    depend on the canvas it was started on.  [okop] bounds the commands. *)
Definition Emitting {S A : Type} (setc : Canvas -> S -> S) (okop : Op -> bool)
    (m : M S A) : Prop :=
  forall s, exists r ops s',
    Forall (fun op => okop op = true) ops /\
    forall cv, m (setc cv s) = (r, setc (emits ops cv) s').

(** The canvas of [generate_pdf]'s state, replaced. *)
Definition set_gen_c (cv : Canvas) (g : GenState) : GenState :=
  mkGen cv (card_index g).

Definition any_op (_ : Op) : bool := true.

(** Right-aligned text: only the version stamp of a card uses it. *)
Definition is_stamp (op : Op) : bool :=
  match op with
  | drawRightString _ _ _ => true
  | _ => false
  end.

Definition is_showPage (op : Op) : bool :=
  match op with
  | showPage => true
  | _ => false
  end.

(** Switching a dash pattern on: what [draw_cut_guides] does once a page. *)
Definition is_dash_on (op : Op) : bool :=
  match op with
  | setDash (_ :: _) => true
  | _ => false
  end.

Definition is_rect (op : Op) : bool :=
  match op with
  | rect _ _ _ _ _ _ => true
  | _ => false
  end.

Definition is_line (op : Op) : bool :=
  match op with
  | line _ _ _ _ => true
  | _ => false
  end.

(** Page and document control: issued by the pagination driver only. *)
Definition is_page_control (op : Op) : bool :=
  match op with
  | showPage | save | setDash _ => true
  | _ => false
  end.

(** What the markers, header and items of a card may send. *)
Definition body_op (op : Op) : bool :=
  negb (is_stamp op) && negb (is_page_control op).

(** What a whole card may send. *)
Definition card_op (op : Op) : bool := negb (is_page_control op).

Definition count_op (p : Op -> bool) (ops : list Op) : Z :=
  Z.of_nat (List.length (filter p ops)).

(** ** Style state of the canvas

    The colour a fill or a stroke would use after a run of commands: the
    last colour set, where [showPage] starts the next page in the default
    state (black), as reportlab does. *)
Definition fill_after (init : Color) (ops : list Op) : Color :=
  fold_left (fun col op =>
               match op with
               | setFillColor col' => col'
               | showPage => black
               | _ => col
               end) ops init.

Definition stroke_after (init : Color) (ops : list Op) : Color :=
  fold_left (fun col op =>
               match op with
               | setStrokeColor col' => col'
               | showPage => black
               | _ => col
               end) ops init.

(** Both colours in effect on a canvas are black; a new canvas is in the
    default state. *)
Definition ink_black (cv : Canvas) : Prop :=
  fill_after black (code cv) = black /\ stroke_after black (code cv) = black.

(** ** Cut guides *)

(** The guide along the column boundary [col]: top to bottom of the page. *)
Definition vertical_guide (layout_config : LayoutConfig) (col : Z) : Op :=
  line (col * lc_width layout_config) 0 (col * lc_width layout_config)
    PAGE_HEIGHT.

(** The guide along the row boundary [row]: left to right of the page. *)
Definition horizontal_guide (layout_config : LayoutConfig) (row : Z) : Op :=
  line 0 (PAGE_HEIGHT - row * lc_height layout_config) PAGE_WIDTH
    (PAGE_HEIGHT - row * lc_height layout_config).

(** The lines of [ops] that are drawn while a dash pattern is in effect,
    starting from the pattern [dash] ([[]] is solid). *)
Fixpoint dashed_lines (dash : list Z) (ops : list Op) : list Op :=
  match ops with
  | [] => []
  | setDash pattern :: ops' => dashed_lines pattern ops'
  | showPage :: ops' => dashed_lines [] ops'
  | line x1 y1 x2 y2 :: ops' =>
      match dash with
      | [] => dashed_lines dash ops'
      | _ :: _ => line x1 y1 x2 y2 :: dashed_lines dash ops'
      end
  | _ :: ops' => dashed_lines dash ops'
  end.

(** ** Pagination *)

(** The card counter after offering [cells] more cells to a run that is at
    card [i] of [quantity]: it moves on by one per cell until it reaches
    [quantity]. *)
Definition advance_index (i cells quantity : Z) : Z :=
  Z.min (i + cells) (Z.max i quantity).

(** Number of page breaks a list of page indices causes. *)
Definition count_breaks (pages : list Z) : Z :=
  Z.of_nat (List.length (filter (fun page => 0 <? page) pages)).

(** ** Frame of the renderer and marks of a card *)

(** A method is _framed_ when it leaves alone the fields of the renderer that
    [__init__] set: origin, size, routine and version. *)
Definition Framed {A : Type} (m : M CardRenderer A) : Prop :=
  forall s r s', m s = (r, s') -> same_card s s'.

Definition is_circle (op : Op) : bool :=
  match op with
  | circle _ _ _ _ _ => true
  | _ => false
  end.

Definition no_circle (op : Op) : bool := negb (is_circle op).

(** The version stamp of a card at [x], [y] of width [width]. *)
Definition version_stamp (x y width version : Z) : Op :=
  drawRightString (x + width - MARGIN - MARKER_RADIUS * 2)
    (y + MARGIN + MARKER_RADIUS) (String.append "v" (str version)).

(** ** Saving *)

Definition is_save (op : Op) : bool :=
  match op with
  | save => true
  | _ => false
  end.

Definition no_save (op : Op) : bool := negb (is_save op).

(** ** Cells of the page grid *)

(** The origin of the cell that card number [k] (counted from 0 over the
    whole document) is drawn in: cells are filled row by row, left to right,
    the first row at the top of the page. *)
Definition cell_x (layout_config : LayoutConfig) (k : Z) : Z :=
  (k mod cols layout_config) * lc_width layout_config.

Definition cell_y (layout_config : LayoutConfig) (k : Z) : Z :=
  PAGE_HEIGHT
  - ((k / cols layout_config) mod rows layout_config + 1)
    * lc_height layout_config.

(** The commands of card number [k]. *)
Definition card_ops (routine : Routine) (layout_config : LayoutConfig)
    (k : Z) : list Op :=
  snd (card_run (cell_x layout_config k) (cell_y layout_config k)
         (lc_width layout_config) (lc_height layout_config) routine
         (get_default (routine_version routine) 1)).

(** The commands of the cut guides of a page. *)
Definition guide_ops (layout_config : LayoutConfig) : list Op :=
  [setStrokeColor GRAY; setLineWidth (1 # 2); setDash [6; 3]]
  ++ map (vertical_guide layout_config) (range2 1 (cols layout_config))
  ++ map (horizontal_guide layout_config) (range2 1 (rows layout_config))
  ++ [setDash []].

(** The commands of page [page] of a document of [quantity] cards: the page
    break (not before the first page), the guides, then the cards the page
    holds. *)
Definition page_ops (routine : Routine) (layout_config : LayoutConfig)
    (quantity page : Z) : list Op :=
  let cards_per_page := cols layout_config * rows layout_config in
  (if 0 <? page then [showPage] else [])
  ++ guide_ops layout_config
  ++ flat_map (card_ops routine layout_config)
       (range2 (Z.min quantity (page * cards_per_page))
          (Z.min quantity ((page + 1) * cards_per_page))).

(** ** Moving a card *)

(** A command moved by [(dx, dy)] on the page. *)
Definition shift_op (dx dy : Z) (op : Op) : Op :=
  match op with
  | circle cx cy r stroke fill => circle (cx + dx) (cy + dy) r stroke fill
  | rect rx ry w h stroke fill => rect (rx + dx) (ry + dy) w h stroke fill
  | line x1 y1 x2 y2 => line (x1 + dx) (y1 + dy) (x2 + dx) (y2 + dy)
  | drawString tx ty text => drawString (tx + dx) (ty + dy) text
  | drawCentredString tx ty text => drawCentredString (tx + dx) (ty + dy) text
  | drawRightString tx ty text => drawRightString (tx + dx) (ty + dy) text
  | _ => op
  end.

(** A renderer moved by [(dx, dy)]: its origin, its cursor and all it has
    drawn so far. *)
Definition shift_card (dx dy : Z) (self : CardRenderer) : CardRenderer :=
  mkCardRenderer
    (mkCanvas (dest (self_c self)) (map (shift_op dx dy) (code (self_c self))))
    (self_x self + dx) (self_y self + dy) (self_width self)
    (self_height self) (self_routine self) (self_version self)
    (self_current_y self + dy).

(** [m'] does on a moved renderer what [m] does on the renderer, moved. *)
Definition Shifts {A} (dx dy : Z) (m m' : M CardRenderer A) : Prop :=
  forall self,
    m' (shift_card dx dy self) =
    (fst (m self), shift_card dx dy (snd (m self))).

(** ** Horizontal extent of a command *)

(** Whether a command stays between the verticals [lo] and [hi]: a dot with
    its radius, a box with its width, a rule with both ends (left end
    first), a text with its anchor (where a text ends depends on the font
    metrics, which are not modelled). *)
Definition in_span (lo hi : Z) (op : Op) : bool :=
  match op with
  | circle cx _ r _ _ => (lo <=? cx - r) && (cx + r <=? hi)
  | rect rx _ w _ _ _ => (lo <=? rx) && (rx + w <=? hi)
  | line x1 _ x2 _ => (lo <=? x1) && (x1 <=? x2) && (x2 <=? hi)
  | drawString tx _ _ => (lo <=? tx) && (tx <=? hi)
  | drawCentredString tx _ _ => (lo <=? tx) && (tx <=? hi)
  | drawRightString tx _ _ => (lo <=? tx) && (tx <=? hi)
  | _ => true
  end.

(** ** Vertical extent of a command *)

(** Whether a command stays between the horizontals [lo] and [hi]: a dot
    with its radius, a box with its height, a rule with both ends, a text
    with its baseline. *)
Definition in_band (lo hi : Z) (op : Op) : bool :=
  match op with
  | circle _ cy r _ _ => (lo <=? cy - r) && (cy + r <=? hi)
  | rect _ ry _ h _ _ => (lo <=? ry) && (ry + h <=? hi)
  | line _ y1 _ y2 =>
      (lo <=? y1) && (y1 <=? hi) && (lo <=? y2) && (y2 <=? hi)
  | drawString _ ty _ => (lo <=? ty) && (ty <=? hi)
  | drawCentredString _ ty _ => (lo <=? ty) && (ty <=? hi)
  | drawRightString _ ty _ => (lo <=? ty) && (ty <=? hi)
  | _ => true
  end.

(** ** Names on the canvas *)

(** The texts written left-aligned while the font size is 11.  The renderer
    sets size 11 for the name of an item and for nothing else: the header
    uses 14 and 10, unit labels, scale digits and the notes label 9, the
    version stamp 8. *)
Fixpoint names_written (size : Z) (ops : list Op) : list string :=
  match ops with
  | [] => []
  | setFont _ size' :: ops' => names_written size' ops'
  | drawString _ _ text :: ops' =>
      if size =? 11 then text :: names_written size ops'
      else names_written size ops'
  | _ :: ops' => names_written size ops'
  end.

(** The names of the items of a list that are of a recognized kind, in the
    order of the list. *)
Definition item_names (items : list Item) : list string :=
  flat_map (fun item =>
              match item_type item, item_name item with
              | Some t, Some name => if recognized_kind t then [name] else []
              | _, _ => []
              end) items.

(** ** The head of a card *)

(** The commands of the four alignment markers of a card. *)
Definition marker_ops (x y width height : Z) : list Op :=
  [ setFillColor black;
    circle (x + MARGIN) (y + height - MARGIN) MARKER_RADIUS false true;
    circle (x + width - MARGIN) (y + height - MARGIN) MARKER_RADIUS false true;
    circle (x + MARGIN) (y + MARGIN) MARKER_RADIUS false true;
    circle (x + width - MARGIN) (y + MARGIN) MARKER_RADIUS false true ].

(** The commands of the header of a card whose routine is called [name]:
    the name, the date field, the rule. *)
Definition header_ops (x y width height : Z) (name : string) : list Op :=
  let content_x := x + MARGIN + MARKER_RADIUS * 2 in
  let y1 := y + height - MARGIN - 14 in
  [ setFont "Helvetica-Bold" 14; setFillColor black;
    drawString content_x y1 name;
    setFont "Helvetica" 10;
    drawString (x + width - MARGIN - 80) (y1 + 2) "___/___/___";
    setStrokeColor GRAY; setLineWidth (1 # 2);
    line content_x (y1 - 10) (x + width - MARGIN - MARKER_RADIUS * 2)
      (y1 - 10);
    setStrokeColor black ].

(** The renderer as the header leaves it, with nothing on its canvas: the
    cursor is 39 points under its start. *)
Definition below_header (x y width height : Z) (routine : Routine)
    (version : Z) : CardRenderer :=
  mkCardRenderer (new_canvas ToBuffer) x y width height routine version
    (y + height - MARGIN - 14 - 10 - 15).

(** ** Sample inputs *)

Definition checkbox_item (name : string) (order : Z) : Item :=
  mkItem (Some "checkbox") (Some name) (Some order) None None.

Definition weight_item : Item :=
  mkItem (Some "number") (Some "Weight") (Some 1) (Some "kg") None.

(** An item of a kind the renderer does not know. *)
Definition mystery_item : Item :=
  mkItem (Some "slider") (Some "Mood") (Some 1) None None.

(** An item without its [type]. *)
Definition untyped_item : Item :=
  mkItem None (Some "Pushups") (Some 0) None None.

Definition untyped_input : Data :=
  mkData (Some "Day") (Some [untyped_item]) None None.

(** The routine of the end-to-end scenario: four cards, version 2. *)
Definition workout : Data :=
  mkData (Some "Workout")
    (Some [checkbox_item "Pushups" 0; weight_item]) (Some 2) (Some 4).

(** Twelve checkboxes: 12 * 26 = 312 points of items. *)
Definition twelve_checkboxes : Routine :=
  mkRoutine (Some "Chores") (Some (map (checkbox_item "task") (range 12)))
    (Some 1).

(** A quarter-page card (306 x 396) at the top left of the page. *)
Definition quarter_card (routine : Routine) : CardRenderer :=
  CardRenderer_init (new_canvas ToBuffer) 0 396 306 396 routine 1.

(** A short card (100 points high) after its header, with two checkboxes:
    5 points of room are left above the floor. *)
Definition short_card : CardRenderer :=
  mkCardRenderer (new_canvas ToBuffer) 0 0 306 100
    (mkRoutine (Some "Chores")
       (Some [checkbox_item "a" 0; checkbox_item "b" 1]) (Some 1))
    1 43.

(** Four items listed out of order, two pairs with equal [order]; the last
    has no [order] and counts as 0. *)
Definition shuffled_chores : Routine :=
  mkRoutine (Some "Chores")
    (Some [ checkbox_item "b" 1; checkbox_item "a" 0; checkbox_item "c" 1;
            mkItem (Some "number") (Some "d") None None None ])
    (Some 1).

(** A routine whose second item in drawing order has no [type]. *)
Definition day_with_untyped : Routine :=
  mkRoutine (Some "Day")
    (Some [ mkItem None (Some "Pushups") (Some 1) None None;
            checkbox_item "Stretch" 0 ])
    None.

(** * Properties *)

(** ** Layout selector *)

(** C1: the layout selector answers "quarter" exactly for counts up to 8,
    "half" exactly for counts from 9 to 15 and "full" exactly for counts
    above 15.  It is a total function: every count gets one of the three
    names and there is no error case. *)
Theorem suggest_layout_thresholds : forall n : Z,
  (suggest_layout n = "quarter" <-> n <= 8) /\
  (suggest_layout n = "half" <-> 9 <= n <= 15) /\
  (suggest_layout n = "full" <-> n > 15).
Proof.
  intros n. unfold suggest_layout.
  destruct (Z.leb_spec n 8); destruct (Z.leb_spec n 15);
    repeat split; intros; try lia; try reflexivity; discriminate.
Qed.

(** ** The scenarios of the specification, run *)

Example workout_four_cards :
  exists cv,
    main (mkArgs "out.pdf" "auto") workout
      = (Ok (Summary "quarter" 4 1 4), Some cv) /\
    count_op (fun op =>
                match op with
                | drawRightString _ _ text => String.eqb text "v2"
                | _ => false
                end) (code cv) = 4.
Proof. eexists. split; vm_compute; reflexivity. Qed.

Example five_quarter_cards_two_pages :
  exists cv,
    generate_pdf twelve_checkboxes "quarter" 5 (Some "out.pdf")
      = (Ok (Summary "quarter" 4 2 5), Some cv) /\
    count_op is_showPage (code cv) = 1 /\
    count_op is_stamp (code cv) = 5.
Proof. eexists. split; [|split]; vm_compute; reflexivity. Qed.

(** ** The sort *)

Section SortedFacts.
Context {A : Type} (key : A -> Z).

Lemma insert_by_perm (a : A) (l : list A) :
  Permutation (a :: l) (insert_by key a l).
Proof.
  induction l as [|b l IH]; simpl.
  - apply Permutation_refl.
  - destruct (key a <=? key b).
    + apply Permutation_refl.
    + eapply perm_trans; [apply perm_swap|].
      apply perm_skip, IH.
Qed.

Lemma sorted_perm (l : list A) : Permutation l (sorted key l).
Proof.
  induction l as [|a l IH]; simpl.
  - apply perm_nil.
  - eapply perm_trans; [apply perm_skip, IH|apply insert_by_perm].
Qed.

Lemma insert_by_Forall (P : A -> Prop) (a : A) (l : list A) :
  P a -> Forall P l -> Forall P (insert_by key a l).
Proof.
  intros Ha Hl.
  eapply Permutation_Forall; [apply insert_by_perm|].
  constructor; assumption.
Qed.

Lemma insert_by_ascending (a : A) (l : list A) :
  StronglySorted (key_le key) l -> StronglySorted (key_le key) (insert_by key a l).
Proof.
  induction 1 as [|b l Hs IH Hb]; simpl.
  - repeat constructor.
  - destruct (Z.leb_spec (key a) (key b)) as [Hab|Hab].
    + constructor; [constructor; assumption|].
      constructor; [exact Hab|].
      eapply Forall_impl; [|exact Hb].
      unfold key_le; intros c Hc; lia.
    + constructor; [exact IH|].
      apply insert_by_Forall; [unfold key_le; lia|exact Hb].
Qed.

Lemma sorted_ascending (l : list A) : StronglySorted (key_le key) (sorted key l).
Proof.
  induction l as [|a l IH]; simpl.
  - constructor.
  - apply insert_by_ascending, IH.
Qed.

Lemma insert_by_filter_key (k : Z) (a : A) (l : list A) :
  filter (fun b => key b =? k) (insert_by key a l) =
  filter (fun b => key b =? k) (a :: l).
Proof.
  induction l as [|b l IH]; simpl.
  - reflexivity.
  - destruct (Z.leb_spec (key a) (key b)) as [Hab|Hab].
    + reflexivity.
    + simpl. rewrite IH. simpl.
      destruct (Z.eqb_spec (key a) k), (Z.eqb_spec (key b) k);
        try reflexivity; lia.
Qed.

(** Stability: the elements with any one key keep their input order. *)
Lemma sorted_stable (k : Z) (l : list A) :
  filter (fun b => key b =? k) (sorted key l) =
  filter (fun b => key b =? k) l.
Proof.
  induction l as [|a l IH]; simpl.
  - reflexivity.
  - rewrite insert_by_filter_key. simpl. rewrite IH. reflexivity.
Qed.

Lemma insert_by_head (a : A) (l : list A) :
  Forall (key_le key a) l -> insert_by key a l = a :: l.
Proof.
  destruct 1 as [|b l Hb _]; simpl.
  - reflexivity.
  - unfold key_le in Hb.
    destruct (Z.leb_spec (key a) (key b)); [reflexivity|lia].
Qed.

Lemma insert_by_filter (p : A -> bool) (a : A) (l : list A) :
  StronglySorted (key_le key) l ->
  filter p (insert_by key a l) =
  if p a then insert_by key a (filter p l) else filter p l.
Proof.
  induction 1 as [|b l Hs IH Hb]; simpl.
  - destruct (p a); reflexivity.
  - destruct (Z.leb_spec (key a) (key b)) as [Hab|Hab]; simpl.
    + destruct (p a) eqn:Hpa; [|reflexivity].
      destruct (p b) eqn:Hpb; simpl.
      * destruct (Z.leb_spec (key a) (key b)); [reflexivity|lia].
      * symmetry. apply insert_by_head.
        assert (Hall : Forall (key_le key a) l).
        { eapply Forall_impl; [|exact Hb]. unfold key_le; intros; lia. }
        clear -Hall. induction Hall as [|c l Hc _ IHl]; simpl.
        -- constructor.
        -- destruct (p c); [constructor; assumption|assumption].
    + rewrite IH. destruct (p a) eqn:Hpa; destruct (p b) eqn:Hpb; simpl;
        try reflexivity.
      destruct (Z.leb_spec (key a) (key b)); [lia|reflexivity].
Qed.

(** Sorting and filtering commute: dropping elements from the input drops
    exactly them from the sorted sequence. *)
Lemma sorted_filter (p : A -> bool) (l : list A) :
  sorted key (filter p l) = filter p (sorted key l).
Proof.
  induction l as [|a l IH]; simpl.
  - reflexivity.
  - rewrite insert_by_filter by apply sorted_ascending.
    destruct (p a); simpl; rewrite IH; reflexivity.
Qed.
(** With pairwise distinct keys, the sorted sequence does not depend on the
    order of the input at all. *)
Lemma ascending_perm_unique (l1 l2 : list A) :
  StronglySorted (key_le key) l1 -> StronglySorted (key_le key) l2 ->
  Permutation l1 l2 -> NoDup (map key l1) -> l1 = l2.
Proof.
  intros Hs1. revert l2.
  induction Hs1 as [|a l1 Hs1 IH Ha]; intros l2 Hs2 Hperm Hnodup.
  - apply Permutation_nil in Hperm. congruence.
  - destruct Hs2 as [|b l2 Hs2 Hb].
    + apply Permutation_sym, Permutation_nil in Hperm. discriminate.
    + inversion Hnodup as [|k ks Hnotin Hnodup']; subst.
      assert (Hab : a = b).
      { assert (Hb1 : In b (a :: l1)).
        { eapply Permutation_in; [apply Permutation_sym, Hperm|left; reflexivity]. }
        destruct Hb1 as [Heq|Hb1]; [exact Heq|].
        assert (Ha2 : In a (b :: l2)).
        { eapply Permutation_in; [exact Hperm|left; reflexivity]. }
        destruct Ha2 as [Heq|Ha2]; [symmetry; exact Heq|].
        exfalso. apply Hnotin.
        rewrite Forall_forall in Ha, Hb.
        specialize (Ha b Hb1). specialize (Hb a Ha2). unfold key_le in *.
        replace (key a) with (key b) by lia.
        apply in_map, Hb1. }
      subst b. f_equal. apply IH.
      * exact Hs2.
      * eapply Permutation_cons_inv, Hperm.
      * exact Hnodup'.
Qed.

Lemma sorted_input_order_irrelevant (l l' : list A) :
  Permutation l l' -> NoDup (map key l) -> sorted key l' = sorted key l.
Proof.
  intros Hperm Hnodup. symmetry. apply ascending_perm_unique.
  - apply sorted_ascending.
  - apply sorted_ascending.
  - eapply perm_trans; [apply Permutation_sym, sorted_perm|].
    eapply perm_trans; [exact Hperm|apply sorted_perm].
  - eapply Permutation_NoDup; [|exact Hnodup].
    apply Permutation_map, sorted_perm.
Qed.
End SortedFacts.

(** ** Running a sequence *)

Lemma bind_run {S A B} (m : M S A) (f : A -> M S B) (s : S) :
  bind m f s =
  match m s with
  | (Ok a, s') => f a s'
  | (Raise e, s') => (Raise e, s')
  end.
Proof. reflexivity. Qed.

(** ** Canvas discipline: commands are only ever appended *)

Lemma emits_nil (cv : Canvas) : emits [] cv = cv.
Proof. destruct cv; unfold emits; simpl. rewrite app_nil_r. reflexivity. Qed.

Lemma emits_emits (ops1 ops2 : list Op) (cv : Canvas) :
  emits ops2 (emits ops1 cv) = emits (ops1 ++ ops2) cv.
Proof. unfold emits; simpl. rewrite app_assoc. reflexivity. Qed.

Lemma emit_emits (op : Op) (cv : Canvas) : emit op cv = emits [op] cv.
Proof. reflexivity. Qed.

Section EmittingRules.
Context {S : Type} (setc : Canvas -> S -> S) (okop : Op -> bool).

Lemma Emitting_ret {A} (a : A) : Emitting setc okop (ret a).
Proof.
  intros s. exists (Ok a), [], s. split; [constructor|].
  intros cv. rewrite emits_nil. reflexivity.
Qed.

Lemma Emitting_raise {A} (e : Exn) : Emitting setc okop (@raise S A e).
Proof.
  intros s. exists (Raise e), [], s. split; [constructor|].
  intros cv. rewrite emits_nil. reflexivity.
Qed.

Lemma Emitting_bind {A B} (m : M S A) (f : A -> M S B) :
  Emitting setc okop m -> (forall a, Emitting setc okop (f a)) ->
  Emitting setc okop (bind m f).
Proof.
  intros Hm Hf s.
  destruct (Hm s) as (r & ops & s' & Hops & Hrun).
  destruct r as [a|e].
  - destruct (Hf a s') as (r2 & ops2 & s2 & Hops2 & Hrun2).
    exists r2, (ops ++ ops2), s2. split.
    + apply Forall_app; split; assumption.
    + intros cv. unfold bind. rewrite Hrun, Hrun2, emits_emits. reflexivity.
  - exists (Raise e), ops, s'. split; [assumption|].
    intros cv. unfold bind. rewrite Hrun. reflexivity.
Qed.

Lemma Emitting_gets {A} (f : S -> A) :
  (forall cv s, f (setc cv s) = f s) -> Emitting setc okop (gets f).
Proof.
  intros Hf s. exists (Ok (f s)), [], s. split; [constructor|].
  intros cv. unfold gets. rewrite Hf, emits_nil. reflexivity.
Qed.

Lemma Emitting_getitem {A} (key : string) (v : option A) :
  Emitting setc okop (getitem key v).
Proof.
  destruct v; simpl; [apply Emitting_ret|apply Emitting_raise].
Qed.

Lemma Emitting_for_in {A} (l : list A) (body : A -> M S LoopCtl) :
  (forall a, Emitting setc okop (body a)) ->
  Emitting setc okop (for_in l body).
Proof.
  intros Hbody. induction l as [|a l IH]; simpl.
  - apply Emitting_ret.
  - apply Emitting_bind; [apply Hbody|].
    intros [|]; [exact IH|apply Emitting_ret].
Qed.

Lemma Emitting_for_each {A} (l : list A) (body : A -> M S unit) :
  (forall a, Emitting setc okop (body a)) ->
  Emitting setc okop (for_each l body).
Proof.
  intros Hbody. apply Emitting_for_in. intros a.
  apply Emitting_bind; [apply Hbody|intros _; apply Emitting_ret].
Qed.
End EmittingRules.

Lemma Emitting_weaken {S A} (setc : Canvas -> S -> S) (p q : Op -> bool)
    (m : M S A) :
  (forall op, p op = true -> q op = true) ->
  Emitting setc p m -> Emitting setc q m.
Proof.
  intros Hpq Hm s. destruct (Hm s) as (r & ops & s' & Hops & Hrun).
  exists r, ops, s'. split; [|exact Hrun].
  eapply Forall_impl; [|exact Hops]. exact Hpq.
Qed.

Lemma Emitting_c_call (okop : Op -> bool) (op : Op) :
  okop op = true -> Emitting set_c okop (c_call op).
Proof.
  intros Hop s. exists (Ok tt), [op], s. split.
  - constructor; [exact Hop|constructor].
  - intros cv. reflexivity.
Qed.

Lemma Emitting_current_y_sub (okop : Op -> bool) (d : Z) :
  Emitting set_c okop (current_y_sub d).
Proof.
  intros s. exists (Ok tt), [], (set_current_y (self_current_y s - d) s).
  split; [constructor|].
  intros cv. rewrite emits_nil. reflexivity.
Qed.

Lemma Emitting_cv_call (okop : Op -> bool) (op : Op) :
  okop op = true -> Emitting (fun cv _ => cv) okop (cv_call op).
Proof.
  intros Hop s. exists (Ok tt), [op], s. split.
  - constructor; [exact Hop|constructor].
  - intros cv. reflexivity.
Qed.

(** Applies the rules above along the structure of a method body. *)
Ltac emitting :=
  repeat first
    [ apply Emitting_bind; [|intros ?]
    | apply Emitting_ret
    | apply Emitting_raise
    | apply Emitting_getitem
    | apply Emitting_c_call; reflexivity
    | apply Emitting_cv_call; reflexivity
    | apply Emitting_current_y_sub
    | apply Emitting_gets; reflexivity
    | apply Emitting_for_each; intros ?
    | apply Emitting_for_in; intros ?
    | match goal with
      | |- Emitting _ _ (if ?b then _ else _) => destruct b
      | |- Emitting _ _ (let '(_, _) := ?p in _) => destruct p
      end
    | progress cbv zeta ].

Lemma _draw_alignment_markers_emitting :
  Emitting set_c body_op _draw_alignment_markers.
Proof. unfold _draw_alignment_markers. emitting. Qed.

Lemma _draw_header_emitting : Emitting set_c body_op _draw_header.
Proof. unfold _draw_header. emitting. Qed.

Lemma draw_item_emitting (content_x content_width : Z) (item : Item) :
  Emitting set_c body_op (draw_item content_x content_width item).
Proof.
  unfold draw_item, _draw_checkbox_item, _draw_number_item, _draw_scale_item,
    _draw_text_item.
  emitting.
Qed.

Lemma _draw_items_emitting : Emitting set_c body_op _draw_items.
Proof.
  unfold _draw_items.
  do 4 (apply Emitting_bind; [apply Emitting_gets; reflexivity|intros ?]).
  cbv zeta. apply Emitting_for_in. intros item. unfold _draw_items_body.
  apply Emitting_bind; [apply Emitting_gets; reflexivity|intros ?].
  destruct (_ <? _); [apply Emitting_ret|].
  apply Emitting_bind; [apply draw_item_emitting|intros _; apply Emitting_ret].
Qed.

Lemma _draw_version_run (self : CardRenderer) :
  _draw_version self =
  (Ok tt,
   set_c (emits [ setFont "Helvetica" 8; setFillColor GRAY;
                  drawRightString
                    (self_x self + self_width self - MARGIN - MARKER_RADIUS * 2)
                    (self_y self + MARGIN + MARKER_RADIUS)
                    (String.append "v" (str (self_version self)));
                  setFillColor black ] (self_c self)) self).
Proof.
  destruct self as [[d ops] x y w h r v cy].
  unfold _draw_version, bind, c_call, gets, modify, set_c, emits, emit; simpl.
  rewrite <- !app_assoc. reflexivity.
Qed.

(** ** What one item does to the renderer *)

#[local] Arguments String.eqb : simpl never.

Lemma range_5 : range 5 = [0; 1; 2; 3; 4].
Proof. reflexivity. Qed.

Lemma range_2 : range 2 = [0; 1].
Proof. reflexivity. Qed.

(** Runs a method body on a renderer given by its fields. *)
Ltac run_card :=
  unfold draw_item, _draw_checkbox_item, _draw_number_item, _draw_scale_item,
    _draw_text_item, _draw_alignment_markers, _draw_header, _draw_version;
  rewrite ?range_5, ?range_2;
  cbv beta iota zeta delta
    [for_each for_in c_call current_y_sub getitem bind ret gets modify raise
     set_c set_current_y set_routine emit dest code
     self_c self_x self_y self_width self_height self_routine self_version
     self_current_y item_type item_name item_order item_unit item_hasNotes].

Ltac points :=
  unfold MARGIN, MARKER_RADIUS, CHECKBOX_SIZE, NUMBER_BOX_WIDTH,
    NUMBER_BOX_HEIGHT, SCALE_BOX_SIZE, LINE_HEIGHT, PAGE_WIDTH, PAGE_HEIGHT
    in *.

Ltac kind_cases t :=
  destruct (String.eqb t "checkbox") eqn:?;
  [|destruct (String.eqb t "number") eqn:?;
    [|destruct (String.eqb t "scale") eqn:?;
      [|destruct (String.eqb t "text") eqn:?]]].

(** An item of unknown kind is a no-op: no command, no cursor movement. *)
Lemma draw_item_unknown (content_x content_width : Z) (item : Item)
    (self : CardRenderer) :
  unknown_item item = true ->
  draw_item content_x content_width item self = (Ok tt, self).
Proof.
  unfold unknown_item, recognized_kind, draw_item.
  destruct (item_type item) as [t|]; [|discriminate].
  intros H. unfold bind; simpl.
  kind_cases t; simpl in H; try discriminate. reflexivity.
Qed.

(** A well-formed item draws without error, lowers the cursor by exactly its
    advance and touches nothing else but the canvas. *)
Lemma draw_item_advance (content_x content_width : Z) (item : Item)
    (self : CardRenderer) :
  well_formed_item item = true ->
  exists self',
    draw_item content_x content_width item self = (Ok tt, self') /\
    self_current_y self' = self_current_y self - item_advance item /\
    same_card self self'.
Proof.
  unfold well_formed_item, item_advance.
  destruct item as [[t|] [n|] o u hn]; cbn; try discriminate. intros _.
  destruct self as [cv x y w h r v cy].
  kind_cases t.
  - eexists; split; [run_card; reflexivity|].
    cbn; points; split; [lia|repeat split].
  - destruct (truthy u) eqn:Hu;
      (eexists; split; [run_card; rewrite Hu; reflexivity|]);
      cbn; points; (split; [lia|repeat split]).
  - destruct (truthy_bool hn) eqn:Hn;
      (eexists; split; [run_card; rewrite ?Hn; reflexivity|]);
      cbn; points; (split; [lia|repeat split]).
  - eexists; split; [run_card; reflexivity|].
    cbn; points; split; [lia|repeat split].
  - eexists; split; [reflexivity|].
    cbn; split; [lia|repeat split].
Qed.

(** ** The item loop *)

Lemma _draw_items_loop (self : CardRenderer) :
  _draw_items self =
  for_in (sorted order_key (items_of self))
    (_draw_items_body (content_x_of self) (content_width_of self)
       (min_y_of self)) self.
Proof. reflexivity. Qed.

(** Whatever the loop does, it is what drawing some initial segment of the
    list, item after item, does: a [break] or an exception cuts the list
    short, nothing is reordered or inserted. *)
Lemma for_in_items_prefix (cx cw min_y : Z) (l : list Item)
    (self : CardRenderer) :
  exists n, (n <= List.length l)%nat /\
    for_in l (_draw_items_body cx cw min_y) self =
    draw_seq cx cw (firstn n l) self.
Proof.
  revert self. induction l as [|item l IH]; intros self.
  - exists 0%nat. split; [apply Nat.le_refl|reflexivity].
  - destruct (self_current_y self <? min_y) eqn:Hfloor.
    + exists 0%nat. split; [apply Nat.le_0_l|].
      simpl. unfold _draw_items_body, bind, gets. rewrite Hfloor. reflexivity.
    + destruct (draw_item cx cw item self) as [[[]|e] self1] eqn:Hitem.
      * destruct (IH self1) as (n & Hn & Hrun).
        exists (S n). split; [simpl; lia|].
        simpl. unfold draw_seq, for_each in *. simpl.
        unfold _draw_items_body, bind, gets, ret in *.
        rewrite Hfloor, Hitem. exact Hrun.
      * exists 1%nat. split; [simpl; lia|].
        simpl. unfold draw_seq, for_each. simpl.
        unfold _draw_items_body, bind, gets, ret.
        rewrite Hfloor, Hitem. reflexivity.
Qed.


(** On well-formed items the loop never raises.  It draws the first [n]
    items, where [n] is the first position at which the advances of the
    items before it already exceed the room between the cursor and the
    floor [min_y]; if there is no such position it draws them all. *)
Lemma for_in_items_truncate (cx cw min_y : Z) (l : list Item) :
  Forall (fun item => well_formed_item item = true) l ->
  forall self : CardRenderer,
  exists n self',
    (n <= List.length l)%nat /\
    for_in l (_draw_items_body cx cw min_y) self = (Ok tt, self') /\
    draw_seq cx cw (firstn n l) self = (Ok tt, self') /\
    self_current_y self' = self_current_y self - total_advance (firstn n l) /\
    same_card self self' /\
    (forall m, (m < n)%nat ->
       total_advance (firstn m l) <= self_current_y self - min_y) /\
    ((n < List.length l)%nat ->
       total_advance (firstn n l) > self_current_y self - min_y).
Proof.
  induction 1 as [|item l Hitem _ IH]; intros self.
  - exists 0%nat, self. simpl. repeat split; try reflexivity; try lia.
  - destruct (Z.ltb_spec (self_current_y self) min_y) as [Hlow|Hroom].
    + exists 0%nat, self. simpl.
      unfold _draw_items_body, bind, gets.
      destruct (Z.ltb_spec (self_current_y self) min_y); [|lia].
      repeat split; try reflexivity; try lia.
    + destruct (draw_item_advance cx cw item self Hitem)
        as (self1 & Hrun & Hy & Hsame).
      destruct (IH self1) as (n & self' & Hn & Hloop & Hseq & Hy' & Hsame' & Hle & Hgt).
      exists (S n), self'. simpl.
      unfold draw_seq, for_each in *. simpl.
      unfold _draw_items_body, bind, gets, ret in *.
      destruct (Z.ltb_spec (self_current_y self) min_y); [lia|].
      rewrite Hrun.
      split; [lia|]. split; [exact Hloop|]. split; [exact Hseq|].
      split; [lia|].
      split; [unfold same_card in *; intuition congruence|].
      split.
      * intros [|m] Hm; simpl; [lia|].
        specialize (Hle m ltac:(lia)). lia.
      * intros Hlt. specialize (Hgt ltac:(lia)). lia.
Qed.

(** C4, as the code has it: when the advances of the items _before some
    item_ of the draw order already exceed the room between the cursor and
    the floor (card bottom + margin + 20), the loop draws strictly fewer
    items than there are and raises nothing.  It draws the first [n] items,
    each of which started at or above the floor, and stops at the first item
    that would start below it, leaving that item and all later ones out. *)
Theorem draw_items_overflow_truncates : forall self : CardRenderer,
  let drawn := sorted order_key (items_of self) in
  let room := self_current_y self - min_y_of self in
  Forall (fun item => well_formed_item item = true) (items_of self) ->
  (exists k, (k < List.length drawn)%nat /\
     total_advance (firstn k drawn) > room) ->
  exists n self',
    (n < List.length drawn)%nat /\
    _draw_items self = (Ok tt, self') /\
    draw_seq (content_x_of self) (content_width_of self) (firstn n drawn) self
      = (Ok tt, self') /\
    (forall m, (m < n)%nat -> total_advance (firstn m drawn) <= room) /\
    total_advance (firstn n drawn) > room /\
    self_current_y self' < min_y_of self.
Proof.
  intros self drawn room Hwf (k & Hk & Hover).
  assert (Hwf' : Forall (fun item => well_formed_item item = true) drawn).
  { eapply Permutation_Forall; [apply sorted_perm|exact Hwf]. }
  destruct (for_in_items_truncate (content_x_of self) (content_width_of self)
              (min_y_of self) drawn Hwf' self)
    as (n & self' & Hn & Hloop & Hseq & Hy & _ & Hle & Hgt).
  assert (Hlt : (n < List.length drawn)%nat).
  { destruct (Nat.lt_ge_cases n (List.length drawn)) as [|Hge]; [assumption|].
    specialize (Hle k ltac:(lia)). unfold room in Hover. lia. }
  exists n, self'. specialize (Hgt Hlt).
  split; [exact Hlt|].
  split; [rewrite _draw_items_loop; exact Hloop|].
  split; [exact Hseq|].
  split; [exact Hle|].
  split; [exact Hgt|].
  unfold room in *. lia.
Qed.

Lemma draw_items_overflow_truncates_witness :
  exists n self',
    (n < 2)%nat /\
    _draw_items short_card = (Ok tt, self') /\
    self_current_y self' < min_y_of short_card.
Proof.
  destruct (draw_items_overflow_truncates short_card) as
    (n & self' & Hn & Hrun & _ & _ & _ & Hy).
  - repeat constructor.
  - exists 1%nat. split; [simpl; lia|reflexivity].
  - exists n, self'. repeat split; assumption.
Defined.

(** C4 as stated fails: twelve checkboxes advance 312 points, more than the
    301 points between the cursor after the header of a quarter card and its
    floor, yet the twelfth starts above the floor and all twelve are drawn:
    the card shows twelve boxes, and the loop's outcome is not that of any
    shorter prefix. *)
Lemma overflow_by_last_item_draws_all :
  exists self1,
    (_draw_alignment_markers ;; _draw_header) (quarter_card twelve_checkboxes)
      = (Ok tt, self1) /\
    List.length (items_of self1) = 12%nat /\
    total_advance (items_of self1) = 312 /\
    self_current_y self1 - min_y_of self1 = 301 /\
    (exists self2,
       _draw_items self1 = (Ok tt, self2) /\
       count_op is_rect (code (self_c self2)) = 12) /\
    ~ (exists n self',
         (n < List.length (items_of self1))%nat /\
         _draw_items self1 = (Ok tt, self') /\
         draw_seq (content_x_of self1) (content_width_of self1)
           (firstn n (sorted order_key (items_of self1))) self1
           = (Ok tt, self')).
Proof.
  eexists. split; [vm_compute; reflexivity|].
  split; [reflexivity|].
  split; [vm_compute; reflexivity|].
  split; [vm_compute; reflexivity|].
  split; [eexists; split; vm_compute; reflexivity|].
  intros (n & self' & Hn & Hloop & Hseq).
  rewrite <- Hloop in Hseq. clear Hloop.
  do 12 (destruct n as [|n]; [vm_compute in Hseq; discriminate Hseq|]).
  vm_compute in Hn. lia.
Qed.

(** ** Items of unknown kind *)

Lemma draw_item_typed (cx cw : Z) (item : Item) (t : string) :
  item_type item = Some t ->
  draw_item cx cw item =
  if String.eqb t "checkbox" then _draw_checkbox_item cx item
  else if String.eqb t "number" then _draw_number_item cx item
  else if String.eqb t "scale" then _draw_scale_item cx cw item
  else if String.eqb t "text" then _draw_text_item cx cw item
  else ret tt.
Proof. intros H. unfold draw_item. rewrite H. reflexivity. Qed.

Lemma draw_item_untyped (cx cw : Z) (item : Item) (self : CardRenderer) :
  item_type item = None ->
  draw_item cx cw item self = (Raise (KeyError "type"), self).
Proof. intros H. unfold draw_item. rewrite H. reflexivity. Qed.

(** No drawing rule reads the routine: the renderer's [routine] field only
    matters to the header (its name) and to the choice of the item list. *)
Lemma draw_item_set_routine (cx cw : Z) (item : Item) (routine : Routine)
    (self : CardRenderer) :
  draw_item cx cw item (set_routine routine self) =
  let '(r, self') := draw_item cx cw item self in
  (r, set_routine routine self').
Proof.
  destruct item as [[t|] n o u hn]; [|reflexivity].
  destruct self as [cv x y w h r v cy].
  rewrite !(draw_item_typed cx cw (mkItem (Some t) n o u hn) t eq_refl).
  kind_cases t.
  - destruct n; run_card; reflexivity.
  - destruct n; [destruct (truthy u) eqn:Hu|]; run_card; rewrite ?Hu;
      reflexivity.
  - destruct n; [destruct (truthy_bool hn) eqn:Hn|]; run_card; rewrite ?Hn;
      reflexivity.
  - destruct n; run_card; reflexivity.
  - reflexivity.
Qed.

Lemma for_in_items_set_routine (cx cw min_y : Z) (l : list Item)
    (routine : Routine) (self : CardRenderer) :
  for_in l (_draw_items_body cx cw min_y) (set_routine routine self) =
  let '(r, self') := for_in l (_draw_items_body cx cw min_y) self in
  (r, set_routine routine self').
Proof.
  revert self. induction l as [|item l IH]; intros self; [reflexivity|].
  simpl. unfold _draw_items_body, bind, gets, ret.
  change (self_current_y (set_routine routine self))
    with (self_current_y self).
  destruct (self_current_y self <? min_y); [reflexivity|].
  rewrite draw_item_set_routine.
  destruct (draw_item cx cw item self) as [[[]|e] self1]; [|reflexivity].
  apply IH.
Qed.

Lemma for_in_items_below_floor (cx cw min_y : Z) (l : list Item)
    (self : CardRenderer) :
  self_current_y self < min_y ->
  for_in l (_draw_items_body cx cw min_y) self = (Ok tt, self).
Proof.
  intros Hlow. destruct l as [|item l]; [reflexivity|].
  simpl. unfold _draw_items_body, bind, gets.
  destruct (Z.ltb_spec (self_current_y self) min_y); [reflexivity|lia].
Qed.

(** The loop cannot tell a list from the same list without its items of
    unknown kind. *)
Lemma for_in_items_skip_unknown (cx cw min_y : Z) (l : list Item)
    (self : CardRenderer) :
  for_in (filter (fun item => negb (unknown_item item)) l)
    (_draw_items_body cx cw min_y) self =
  for_in l (_draw_items_body cx cw min_y) self.
Proof.
  revert self. induction l as [|item l IH]; intros self; [reflexivity|].
  simpl filter. destruct (unknown_item item) eqn:Hunk; simpl negb; cbv iota.
  - rewrite IH. simpl for_in at 2. unfold _draw_items_body at 2.
    unfold bind, gets, ret.
    destruct (Z.ltb_spec (self_current_y self) min_y) as [Hlow|_].
    + apply for_in_items_below_floor, Hlow.
    + rewrite (draw_item_unknown _ _ _ _ Hunk). reflexivity.
  - simpl. unfold _draw_items_body at 1 3. unfold bind, gets, ret.
    destruct (self_current_y self <? min_y); [reflexivity|].
    destruct (draw_item cx cw item self) as [[[]|e] self1]; [|reflexivity].
    apply IH.
Qed.

(** ** Markers and header, in closed form *)

Lemma _draw_alignment_markers_run (self : CardRenderer) :
  _draw_alignment_markers self =
  (Ok tt,
   set_c (emits
     [ setFillColor black;
       circle (self_x self + MARGIN) (self_y self + self_height self - MARGIN)
         MARKER_RADIUS false true;
       circle (self_x self + self_width self - MARGIN)
         (self_y self + self_height self - MARGIN) MARKER_RADIUS false true;
       circle (self_x self + MARGIN) (self_y self + MARGIN)
         MARKER_RADIUS false true;
       circle (self_x self + self_width self - MARGIN) (self_y self + MARGIN)
         MARKER_RADIUS false true ] (self_c self)) self).
Proof.
  destruct self as [[d ops] x y w h r v cy].
  run_card. unfold emits; cbn [dest code]. rewrite <- !app_assoc. reflexivity.
Qed.

Lemma _draw_header_run (self : CardRenderer) :
  _draw_header self =
  let content_x := self_x self + MARGIN + MARKER_RADIUS * 2 in
  let y1 := self_current_y self - 14 in
  match routine_name (self_routine self) with
  | Some name =>
      (Ok tt,
       set_current_y (self_current_y self - 14 - 10 - 15)
         (set_c (emits
            [ setFont "Helvetica-Bold" 14; setFillColor black;
              drawString content_x y1 name;
              setFont "Helvetica" 10;
              drawString (self_x self + self_width self - MARGIN - 80)
                (y1 + 2) "___/___/___";
              setStrokeColor GRAY; setLineWidth (1 # 2);
              line content_x (y1 - 10)
                (self_x self + self_width self - MARGIN - MARKER_RADIUS * 2)
                (y1 - 10);
              setStrokeColor black ] (self_c self)) self))
  | None =>
      (Raise (KeyError "name"),
       set_current_y y1
         (set_c (emits [ setFont "Helvetica-Bold" 14; setFillColor black ]
                   (self_c self)) self))
  end.
Proof.
  destruct self as [[d ops] x y w h [[name|] items ver] v cy];
    run_card; unfold emits; cbn [dest code routine_name];
    rewrite <- !app_assoc; reflexivity.
Qed.

(** Two routines with the same name whose item lists the loop cannot tell
    apart are rendered alike. *)
Lemma draw_set_routine (routine' : Routine) (self : CardRenderer) :
  routine_name routine' = routine_name (self_routine self) ->
  (forall cx cw min_y st,
     for_in (sorted order_key (get_default (routine_items routine') []))
       (_draw_items_body cx cw min_y) st =
     for_in (sorted order_key (items_of self))
       (_draw_items_body cx cw min_y) st) ->
  draw (set_routine routine' self) =
  let '(r, self') := draw self in (r, set_routine routine' self').
Proof.
  intros Hname Hloop.
  destruct self as [cv x y w h R v cy]. unfold items_of in Hloop.
  cbn [self_routine] in *.
  unfold draw, bind.
  rewrite !_draw_alignment_markers_run, !_draw_header_run.
  cbn [self_routine self_c self_x self_y self_width self_height
       self_current_y set_c set_routine set_current_y].
  rewrite Hname. destruct (routine_name R) as [name|]; [|reflexivity].
  cbv zeta.
  match goal with
  | |- context [_draw_items ?st'] =>
      match goal with
      | |- context [match _draw_items ?st with _ => _ end] =>
          lazymatch st with
          | st' => fail
          | _ => change st' with (set_routine routine' st)
          end
      end
  end.
  rewrite !_draw_items_loop.
  match goal with
  | |- context [for_in _ _ (set_routine routine' ?st)] =>
      change (items_of (set_routine routine' st))
        with (get_default (routine_items routine') []);
      change (content_x_of (set_routine routine' st)) with (content_x_of st);
      change (content_width_of (set_routine routine' st))
        with (content_width_of st);
      change (min_y_of (set_routine routine' st)) with (min_y_of st);
      change (items_of st) with (get_default (routine_items R) [])
  end.
  rewrite Hloop, for_in_items_set_routine.
  match goal with
  | |- context [for_in ?l ?b ?st] => destruct (for_in l b st) as [[[]|e] s3]
  end; [|reflexivity].
  rewrite !_draw_version_run. destruct s3. reflexivity.
Qed.

(** ** One card on any canvas *)

Lemma draw_emitting : Emitting set_c card_op draw.
Proof.
  assert (Hweak : forall op, body_op op = true -> card_op op = true).
  { unfold body_op, card_op. intros op H.
    apply andb_true_iff in H. apply H. }
  unfold draw.
  apply Emitting_bind;
    [eapply Emitting_weaken;
       [exact Hweak|apply _draw_alignment_markers_emitting]|intros _].
  apply Emitting_bind;
    [eapply Emitting_weaken; [exact Hweak|apply _draw_header_emitting]
    |intros _].
  apply Emitting_bind;
    [eapply Emitting_weaken; [exact Hweak|apply _draw_items_emitting]
    |intros _].
  unfold _draw_version. emitting.
Qed.

(** A card sends the same commands, and ends the same way, on every canvas:
    those recorded by [card_run]. *)
Lemma draw_card_run (cv : Canvas) (x y width height : Z) (routine : Routine)
    (version : Z) :
  exists self',
    draw (CardRenderer_init cv x y width height routine version) =
      (fst (card_run x y width height routine version), self') /\
    self_c self' = emits (snd (card_run x y width height routine version)) cv.
Proof.
  destruct (draw_emitting
              (CardRenderer_init (new_canvas ToBuffer) x y width height
                 routine version)) as (r & ops & s' & _ & Hrun).
  unfold card_run.
  change (CardRenderer_init (new_canvas ToBuffer) x y width height routine
            version)
    with (set_c (new_canvas ToBuffer)
            (CardRenderer_init (new_canvas ToBuffer) x y width height routine
               version)).
  rewrite (Hrun (new_canvas ToBuffer)).
  change (CardRenderer_init cv x y width height routine version)
    with (set_c cv
            (CardRenderer_init (new_canvas ToBuffer) x y width height routine
               version)).
  rewrite (Hrun cv).
  eexists. split; [reflexivity|].
  destruct s'. reflexivity.
Qed.

Lemma card_run_card_op (x y width height : Z) (routine : Routine)
    (version : Z) :
  Forall (fun op => card_op op = true)
    (snd (card_run x y width height routine version)).
Proof.
  destruct (draw_emitting
              (CardRenderer_init (new_canvas ToBuffer) x y width height
                 routine version)) as (r & ops & s' & Hops & Hrun).
  unfold card_run.
  change (CardRenderer_init (new_canvas ToBuffer) x y width height routine
            version)
    with (set_c (new_canvas ToBuffer)
            (CardRenderer_init (new_canvas ToBuffer) x y width height routine
               version)).
  rewrite (Hrun (new_canvas ToBuffer)). destruct s'. exact Hops.
Qed.

Lemma render_card_run (x y : Z) (layout_config : LayoutConfig)
    (routine : Routine) (g : GenState) :
  let run :=
    card_run x y (lc_width layout_config) (lc_height layout_config) routine
      (get_default (routine_version routine) 1) in
  render_card x y layout_config routine g =
  (fst run, mkGen (emits (snd run) (gen_c g)) (card_index g)).
Proof.
  intros run. unfold render_card.
  destruct (draw_card_run (gen_c g) x y (lc_width layout_config)
              (lc_height layout_config) routine
              (get_default (routine_version routine) 1))
    as (self' & Hrun & Hc).
  rewrite Hrun, Hc. reflexivity.
Qed.

Lemma card_run_keep_recognized (x y width height : Z) (routine : Routine)
    (version : Z) :
  card_run x y width height (keep_recognized routine) version =
  card_run x y width height routine version.
Proof.
  unfold card_run.
  change (CardRenderer_init (new_canvas ToBuffer) x y width height
            (keep_recognized routine) version)
    with (set_routine (keep_recognized routine)
            (CardRenderer_init (new_canvas ToBuffer) x y width height routine
               version)).
  rewrite draw_set_routine.
  - destruct (draw _) as [r s']. destruct s'. reflexivity.
  - reflexivity.
  - intros cx cw min_y st. unfold items_of. cbn [self_routine CardRenderer_init].
    destruct routine as [name [items|] ver]; cbn; [|reflexivity].
    rewrite sorted_filter. apply for_in_items_skip_unknown.
Qed.



(** C10: drawing an item of unknown kind leaves the cursor and the canvas,
    and with it all style state, unchanged; hence a card of a routine with
    such an item is, command for command and in how it ends, the card of
    the routine with that item removed: every later item and the version
    stamp are drawn at the same places. *)
Theorem unknown_item_takes_no_space :
  forall item : Item, unknown_item item = true ->
  (forall cx cw self self' r,
     draw_item cx cw item self = (r, self') ->
     r = Ok tt /\ self_current_y self' = self_current_y self /\
     self_c self' = self_c self) /\
  (forall x y width height name before after ver version,
     card_run x y width height
       (mkRoutine name (Some (before ++ item :: after)) ver) version =
     card_run x y width height
       (mkRoutine name (Some (before ++ after)) ver) version).
Proof.
  intros item Hunk. split.
  - intros cx cw self self' r Hrun.
    rewrite (draw_item_unknown _ _ _ _ Hunk) in Hrun.
    inversion Hrun; subst. repeat split.
  - intros.
    rewrite <- (card_run_keep_recognized _ _ _ _
                  (mkRoutine name (Some (before ++ item :: after)) ver)).
    rewrite <- (card_run_keep_recognized _ _ _ _
                  (mkRoutine name (Some (before ++ after)) ver)).
    unfold keep_recognized. cbn [routine_name routine_items routine_version
                                 option_map].
    rewrite !filter_app. cbn [filter]. rewrite Hunk. reflexivity.
Qed.

Lemma unknown_item_takes_no_space_witness :
  card_run 0 396 306 396
    (mkRoutine (Some "Day")
       (Some ([checkbox_item "a" 0] ++ mystery_item :: [checkbox_item "b" 2]))
       None) 1 =
  card_run 0 396 306 396
    (mkRoutine (Some "Day")
       (Some ([checkbox_item "a" 0] ++ [checkbox_item "b" 2])) None) 1.
Proof.
  apply (unknown_item_takes_no_space mystery_item); reflexivity.
Defined.

(** ** Style isolation *)

Lemma ink_black_emits (ops : list Op) (cv : Canvas) :
  (forall col, fill_after col ops = black /\ stroke_after col ops = black) ->
  ink_black (emits ops cv).
Proof.
  intros H. unfold ink_black, emits, fill_after, stroke_after; cbn [code].
  rewrite !fold_left_app. split.
  - apply (H (fill_after black (code cv))).
  - apply (H (stroke_after black (code cv))).
Qed.

(** From [(Ok tt, state) = (Ok tt, self')], names the commands appended. *)
Ltac final_state :=
  let H := fresh in
  intros H; apply (f_equal snd) in H; cbn [snd] in H; subst;
  eexists; split;
    [unfold emits; cbn [self_c dest code]; rewrite <- !app_assoc; reflexivity|].

(** Every drawing rule ends with both colours set back to black, whatever
    they were when it started. *)
Lemma draw_item_resets_ink (cx cw : Z) (item : Item) (t : string)
    (self self' : CardRenderer) :
  item_type item = Some t -> recognized_kind t = true ->
  draw_item cx cw item self = (Ok tt, self') ->
  exists ops, self_c self' = emits ops (self_c self) /\
    forall col, fill_after col ops = black /\ stroke_after col ops = black.
Proof.
  intros Ht Hrec. rewrite (draw_item_typed _ _ _ _ Ht).
  destruct item as [ty [n|] o u hn]; destruct self as [[d ops0] x y w h r v cy];
    unfold recognized_kind in Hrec; kind_cases t; try discriminate Hrec;
    try (run_card; discriminate).
  - run_card. final_state. intros col; split; reflexivity.
  - destruct (truthy u) eqn:Hu; run_card; rewrite Hu; final_state;
      intros col; split; reflexivity.
  - destruct (truthy_bool hn) eqn:Hn; run_card; rewrite ?Hn; final_state;
      intros col; split; reflexivity.
  - run_card. final_state. intros col; split; reflexivity.
Qed.

Lemma draw_item_keeps_ink_black (cx cw : Z) (item : Item)
    (self self' : CardRenderer) :
  draw_item cx cw item self = (Ok tt, self') ->
  ink_black (self_c self) -> ink_black (self_c self').
Proof.
  intros Hrun Hblack.
  destruct (item_type item) as [t|] eqn:Ht.
  - destruct (recognized_kind t) eqn:Hrec.
    + destruct (draw_item_resets_ink _ _ _ _ _ _ Ht Hrec Hrun)
        as (ops & -> & Hops).
      apply ink_black_emits, Hops.
    + rewrite draw_item_unknown in Hrun.
      * apply (f_equal snd) in Hrun. cbn [snd] in Hrun. subst. exact Hblack.
      * unfold unknown_item. rewrite Ht, Hrec. reflexivity.
  - rewrite (draw_item_untyped _ _ _ _ Ht) in Hrun. discriminate.
Qed.

Lemma draw_seq_keeps_ink_black (cx cw : Z) (l : list Item) :
  forall self self' : CardRenderer,
  draw_seq cx cw l self = (Ok tt, self') ->
  ink_black (self_c self) -> ink_black (self_c self').
Proof.
  induction l as [|item l IH]; intros self self' Hrun Hblack.
  - apply (f_equal snd) in Hrun. cbn [snd] in Hrun. subst. exact Hblack.
  - unfold draw_seq, for_each in *. simpl in Hrun.
    unfold bind, ret in Hrun.
    destruct (draw_item cx cw item self) as [[[]|e] self1] eqn:Hitem;
      [|discriminate].
    eapply IH; [exact Hrun|].
    eapply draw_item_keeps_ink_black; eassumption.
Qed.

Lemma header_leaves_ink_black (self self' : CardRenderer) :
  (_draw_alignment_markers ;; _draw_header) self = (Ok tt, self') ->
  ink_black (self_c self') /\ same_card self self'.
Proof.
  unfold bind. rewrite _draw_alignment_markers_run, _draw_header_run.
  destruct self as [cv x y w h r v cy].
  cbn [self_routine set_c]. destruct (routine_name r); [|discriminate].
  cbv zeta. intros H. apply (f_equal snd) in H. cbn [snd] in H. subst. split.
  - cbn [self_c set_c set_current_y]. rewrite emits_emits.
    apply ink_black_emits. intros col; split; reflexivity.
  - repeat split.
Qed.

(** C5: gray ink never leaks across an item boundary.  Whatever colours are
    in effect when a recognized item starts, both the fill and the stroke
    colour are black when it has finished, gray accents included; so at
    every position of the item sequence, that is after the header and any
    number of items of the draw order, and when the version stamp starts
    after the item loop, both colours in effect are black. *)
Theorem gray_ink_never_leaks :
  (forall cx cw item t self self',
     item_type item = Some t -> recognized_kind t = true ->
     draw_item cx cw item self = (Ok tt, self') ->
     ink_black (self_c self')) /\
  (forall self n self',
     (_draw_alignment_markers ;; _draw_header ;;
      draw_seq (content_x_of self) (content_width_of self)
        (firstn n (sorted order_key (items_of self)))) self = (Ok tt, self') ->
     ink_black (self_c self')) /\
  (forall self self',
     (_draw_alignment_markers ;; _draw_header ;; _draw_items) self
       = (Ok tt, self') ->
     ink_black (self_c self')).
Proof.
  split; [|split].
  - intros cx cw item t self self' Ht Hrec Hrun.
    destruct (draw_item_resets_ink _ _ _ _ _ _ Ht Hrec Hrun)
      as (ops & -> & Hops).
    apply ink_black_emits, Hops.
  - intros self n self' Hrun. rewrite bind_run in Hrun.
    destruct (_draw_alignment_markers self) as [[[]|e1] s1] eqn:Hm;
      [|discriminate].
    rewrite bind_run in Hrun.
    destruct (_draw_header s1) as [[[]|e2] s2] eqn:Hh; [|discriminate].
    eapply draw_seq_keeps_ink_black; [exact Hrun|].
    apply (header_leaves_ink_black self). rewrite bind_run, Hm. exact Hh.
  - intros self self' Hrun. rewrite bind_run in Hrun.
    destruct (_draw_alignment_markers self) as [[[]|e1] s1] eqn:Hm;
      [|discriminate].
    rewrite bind_run in Hrun.
    destruct (_draw_header s1) as [[[]|e2] s2] eqn:Hh; [|discriminate].
    rewrite _draw_items_loop in Hrun.
    destruct (for_in_items_prefix (content_x_of s2) (content_width_of s2)
                (min_y_of s2) (sorted order_key (items_of s2)) s2)
      as (n & _ & Hpre).
    rewrite Hpre in Hrun.
    eapply draw_seq_keeps_ink_black; [exact Hrun|].
    apply (header_leaves_ink_black self). rewrite bind_run, Hm. exact Hh.
Qed.

Lemma gray_ink_never_leaks_witness :
  ink_black (self_c (snd (draw_item 26 254 weight_item short_card))).
Proof.
  apply (proj1 gray_ink_never_leaks 26 254 weight_item "number" short_card);
    [reflexivity|reflexivity|vm_compute; reflexivity].
Defined.

(** ** The pagination driver appends only *)

Lemma Emitting_on_canvas {A} (okop : Op -> bool) (m : M Canvas A) :
  Emitting (fun cv _ => cv) okop m -> Emitting set_gen_c okop (on_canvas m).
Proof.
  intros Hm g. destruct (Hm (gen_c g)) as (r & ops & cv' & Hops & Hrun).
  exists r, ops, g. split; [exact Hops|].
  intros cv. unfold on_canvas, set_gen_c; cbn [gen_c card_index].
  rewrite (Hrun cv). reflexivity.
Qed.

Lemma Emitting_render_card (okop : Op -> bool) (x y : Z)
    (layout_config : LayoutConfig) (routine : Routine) :
  (forall op, card_op op = true -> okop op = true) ->
  Emitting set_gen_c okop (render_card x y layout_config routine).
Proof.
  intros Hweak g.
  exists (fst (card_run x y (lc_width layout_config) (lc_height layout_config)
                 routine (get_default (routine_version routine) 1))),
         (snd (card_run x y (lc_width layout_config) (lc_height layout_config)
                 routine (get_default (routine_version routine) 1))), g.
  split.
  - eapply Forall_impl; [exact Hweak|apply card_run_card_op].
  - intros cv. rewrite render_card_run. reflexivity.
Qed.

Lemma Emitting_next_card (okop : Op -> bool) :
  Emitting set_gen_c okop
    (modify (fun g => mkGen (gen_c g) (card_index g + 1))).
Proof.
  intros g. exists (Ok tt), [], (mkGen (gen_c g) (card_index g + 1)).
  split; [constructor|]. intros cv. rewrite emits_nil. reflexivity.
Qed.

Lemma draw_cards_emitting (okop : Op -> bool) (routine : Routine)
    (layout_config : LayoutConfig) (quantity : Z) :
  (forall op, card_op op = true -> okop op = true) ->
  Emitting set_gen_c okop (draw_cards routine layout_config quantity).
Proof.
  intros Hweak. unfold draw_cards.
  apply Emitting_for_each. intros row.
  apply Emitting_for_in. intros col. unfold draw_cell.
  apply Emitting_bind; [apply Emitting_gets; reflexivity|intros i].
  destruct (quantity <=? i); [apply Emitting_ret|].
  cbv zeta.
  apply Emitting_bind; [apply Emitting_render_card, Hweak|intros _].
  apply Emitting_bind; [apply Emitting_next_card|intros _].
  apply Emitting_ret.
Qed.

Lemma draw_cut_guides_emitting (layout_config : LayoutConfig) :
  Emitting (fun cv _ => cv) any_op (draw_cut_guides layout_config).
Proof. unfold draw_cut_guides. emitting. Qed.

Lemma draw_pages_emitting (routine : Routine) (layout_config : LayoutConfig)
    (quantity total_pages : Z) :
  Emitting set_gen_c any_op
    (draw_pages routine layout_config quantity total_pages ;;
     on_canvas (cv_call save)).
Proof.
  apply Emitting_bind.
  - unfold draw_pages. apply Emitting_for_each. intros page.
    unfold draw_page.
    apply Emitting_bind.
    + destruct (0 <? page); [|apply Emitting_ret].
      apply Emitting_on_canvas, Emitting_cv_call. reflexivity.
    + intros _. apply Emitting_bind.
      * apply Emitting_on_canvas, draw_cut_guides_emitting.
      * intros _. apply draw_cards_emitting. reflexivity.
  - intros _. apply Emitting_on_canvas, Emitting_cv_call. reflexivity.
Qed.

(** ** The two output modes *)

(** C9: with a destination path (a file is written and a summary returned)
    and without one (the document bytes are returned), generation sends the
    identical sequence of commands to the drawing surface and ends the same
    way: both raise the same exception, or both succeed, and then the bytes
    returned in the one mode are the document written in the other. *)
Theorem output_modes_same_commands :
  forall (routine : Routine) (layout : string) (quantity : Z) (path : string),
  truthy (Some path) = true ->
  match generate_pdf routine layout quantity (Some path),
        generate_pdf routine layout quantity None with
  | (r_file, cv_file), (r_bytes, cv_bytes) =>
      option_map code cv_file = option_map code cv_bytes /\
      option_map dest cv_file = option_map (fun _ => ToFile path) cv_bytes /\
      option_map dest cv_bytes = option_map (fun _ => ToBuffer) cv_file /\
      match r_file, r_bytes with
      | Ok (Summary l n p k), Ok (PdfBytes document) =>
          Some document = option_map code cv_file /\
          l = layout /\ k = quantity
      | Raise e_file, Raise e_bytes => e_file = e_bytes
      | _, _ => False
      end
  end.
Proof.
  intros routine layout quantity path Hpath.
  unfold generate_pdf. rewrite Hpath. cbn [truthy negb get_default].
  destruct (LAYOUTS layout) as [layout_config|]; [|repeat split].
  cbv zeta.
  destruct (draw_pages_emitting routine layout_config quantity
              ((quantity + cols layout_config * rows layout_config - 1)
               / (cols layout_config * rows layout_config))
              (mkGen (new_canvas ToBuffer) 0))
    as (r & ops & g' & _ & Hrun).
  change (mkGen (new_canvas (ToFile path)) 0)
    with (set_gen_c (new_canvas (ToFile path)) (mkGen (new_canvas ToBuffer) 0)).
  change (mkGen (new_canvas ToBuffer) 0)
    with (set_gen_c (new_canvas ToBuffer) (mkGen (new_canvas ToBuffer) 0))
    at 2.
  rewrite !Hrun.
  destruct r as [[]|e]; cbn; repeat split.
Qed.

Lemma output_modes_same_commands_witness :
  option_map code
    (snd (generate_pdf twelve_checkboxes "quarter" 5 (Some "cards.pdf"))) =
  option_map code (snd (generate_pdf twelve_checkboxes "quarter" 5 None)).
Proof.
  pose proof (output_modes_same_commands twelve_checkboxes "quarter" 5
                "cards.pdf" eq_refl) as H.
  destruct (generate_pdf twelve_checkboxes "quarter" 5 (Some "cards.pdf")).
  destruct (generate_pdf twelve_checkboxes "quarter" 5 None).
  exact (proj1 H).
Defined.

(** ** Cut guides *)

Lemma range2_length (a b : Z) :
  a <= b -> Z.of_nat (List.length (range2 a b)) = b - a.
Proof.
  intros H. unfold range2. rewrite length_map, length_seq. lia.
Qed.

Lemma range2_In (a b k : Z) : In k (range2 a b) <-> a <= k < b.
Proof.
  unfold range2. rewrite in_map_iff. split.
  - intros (i & <- & Hi). apply in_seq in Hi. lia.
  - intros Hk. exists (Z.to_nat (k - a)). split; [lia|].
    apply in_seq. lia.
Qed.

Lemma for_each_cv_call {A} (f : A -> Op) (l : list A) (cv : Canvas) :
  for_each l (fun a => cv_call (f a)) cv = (Ok tt, emits (map f l) cv).
Proof.
  revert cv. induction l as [|a l IH]; intros cv.
  - rewrite emits_nil. reflexivity.
  - unfold for_each in *. simpl. rewrite bind_run, bind_run.
    unfold cv_call at 1, modify. cbn [ret]. rewrite IH.
    rewrite emit_emits, emits_emits. reflexivity.
Qed.

Lemma draw_cut_guides_run (layout_config : LayoutConfig) (cv : Canvas) :
  draw_cut_guides layout_config cv =
  (Ok tt,
   emits ([setStrokeColor GRAY; setLineWidth (1 # 2); setDash [6; 3]]
          ++ map (vertical_guide layout_config)
               (range2 1 (cols layout_config))
          ++ map (horizontal_guide layout_config)
               (range2 1 (rows layout_config))
          ++ [setDash []]) cv).
Proof.
  change (draw_cut_guides layout_config)
    with (cv_call (setStrokeColor GRAY) ;;
          cv_call (setLineWidth (1 # 2)) ;;
          cv_call (setDash [6; 3]) ;;
          for_each (range2 1 (cols layout_config))
            (fun col => cv_call (vertical_guide layout_config col)) ;;
          for_each (range2 1 (rows layout_config))
            (fun row => cv_call (horizontal_guide layout_config row)) ;;
          cv_call (setDash [])).
  do 3 (rewrite bind_run; unfold cv_call at 1, modify at 1).
  rewrite bind_run, for_each_cv_call.
  rewrite bind_run, for_each_cv_call.
  unfold cv_call, modify.
  rewrite !emit_emits, !emits_emits. reflexivity.
Qed.

Lemma dashed_lines_guides (l : list Z) (f : Z -> Op) (rest : list Op) :
  (forall k, is_line (f k) = true) ->
  dashed_lines [6; 3] (map f l ++ rest) = map f l ++ dashed_lines [6; 3] rest.
Proof.
  intros Hf. induction l as [|k l IH]; [reflexivity|].
  simpl. specialize (Hf k). destruct (f k); try discriminate.
  rewrite IH. reflexivity.
Qed.

Lemma filter_is_line_guides (l : list Z) (f : Z -> Op) :
  (forall k, is_line (f k) = true) -> filter is_line (map f l) = map f l.
Proof.
  intros Hf. induction l as [|k l IH]; [reflexivity|].
  simpl. rewrite Hf, IH. reflexivity.
Qed.

Lemma LAYOUTS_grid (name : string) (layout_config : LayoutConfig) :
  LAYOUTS name = Some layout_config ->
  1 <= cols layout_config /\ 1 <= rows layout_config.
Proof.
  unfold LAYOUTS.
  destruct (String.eqb name "quarter");
    [|destruct (String.eqb name "half");
      [|destruct (String.eqb name "full"); [|discriminate]]];
    intros H; injection H as <-; cbn; lia.
Qed.

Lemma draw_page_run (routine : Routine) (layout_config : LayoutConfig)
    (quantity page : Z) (g : GenState) :
  draw_page routine layout_config quantity page g =
  draw_cards routine layout_config quantity
    (set_gen_c
       (emits ((if 0 <? page then [showPage] else [])
               ++ [setStrokeColor GRAY; setLineWidth (1 # 2); setDash [6; 3]]
               ++ map (vertical_guide layout_config)
                    (range2 1 (cols layout_config))
               ++ map (horizontal_guide layout_config)
                    (range2 1 (rows layout_config))
               ++ [setDash []]) (gen_c g)) g).
Proof.
  unfold draw_page. rewrite bind_run.
  destruct (0 <? page).
  - unfold on_canvas at 1, cv_call, modify. cbn [gen_c card_index].
    rewrite bind_run. unfold on_canvas. cbn [gen_c card_index].
    rewrite draw_cut_guides_run, emit_emits, emits_emits. reflexivity.
  - cbn [ret]. rewrite bind_run. unfold on_canvas.
    rewrite draw_cut_guides_run. reflexivity.
Qed.

(** C6: for each of the three layouts, the compositor draws on a page
    exactly one dashed line per internal column boundary, from the bottom
    to the top of the page at [x = col * width] for [col = 1 .. cols-1]
    (so [cols-1] of them), and one per internal row boundary, from the left
    to the right edge at [y = PAGE_HEIGHT - row * height] for
    [row = 1 .. rows-1] (so [rows-1] of them); these are all the lines it
    draws and every one is drawn under a dash pattern.  On every page the
    guides come first: what a page sends is the page break (after the first
    page), then the guides, then the commands of its cards. *)
Theorem cut_guides_before_cards :
  forall (name : string) (layout_config : LayoutConfig),
  LAYOUTS name = Some layout_config ->
  exists guides : list Op,
    (forall cv, draw_cut_guides layout_config cv = (Ok tt, emits guides cv)) /\
    filter is_line guides =
      map (vertical_guide layout_config) (range2 1 (cols layout_config)) ++
      map (horizontal_guide layout_config) (range2 1 (rows layout_config)) /\
    Z.of_nat (List.length (range2 1 (cols layout_config)))
      = cols layout_config - 1 /\
    Z.of_nat (List.length (range2 1 (rows layout_config)))
      = rows layout_config - 1 /\
    (forall k, In k (range2 1 (cols layout_config))
               <-> 1 <= k < cols layout_config) /\
    (forall k, In k (range2 1 (rows layout_config))
               <-> 1 <= k < rows layout_config) /\
    (forall dash, dashed_lines dash guides = filter is_line guides) /\
    (forall routine quantity page g, exists r cards g',
       Forall (fun op => card_op op = true) cards /\
       draw_page routine layout_config quantity page g = (r, g') /\
       gen_c g' =
         emits ((if 0 <? page then [showPage] else []) ++ guides ++ cards)
           (gen_c g)).
Proof.
  intros name layout_config Hlayout.
  destruct (LAYOUTS_grid _ _ Hlayout) as [Hcols Hrows].
  exists ([setStrokeColor GRAY; setLineWidth (1 # 2); setDash [6; 3]]
          ++ map (vertical_guide layout_config)
               (range2 1 (cols layout_config))
          ++ map (horizontal_guide layout_config)
               (range2 1 (rows layout_config))
          ++ [setDash []]).
  assert (Hlines :
    filter is_line
      ([setStrokeColor GRAY; setLineWidth (1 # 2); setDash [6; 3]]
       ++ map (vertical_guide layout_config) (range2 1 (cols layout_config))
       ++ map (horizontal_guide layout_config)
            (range2 1 (rows layout_config))
       ++ [setDash []]) =
    map (vertical_guide layout_config) (range2 1 (cols layout_config)) ++
    map (horizontal_guide layout_config) (range2 1 (rows layout_config))).
  { rewrite !filter_app.
    rewrite !filter_is_line_guides by reflexivity.
    cbn [filter is_line app]. rewrite app_nil_r. reflexivity. }
  split; [intros cv; apply draw_cut_guides_run|].
  split; [exact Hlines|].
  split; [apply range2_length; lia|].
  split; [apply range2_length; lia|].
  split; [intros k; apply range2_In|].
  split; [intros k; apply range2_In|].
  split.
  - intros dash. rewrite Hlines. cbn [app dashed_lines].
    rewrite dashed_lines_guides by reflexivity.
    rewrite dashed_lines_guides by reflexivity.
    cbn [dashed_lines]. rewrite app_nil_r. reflexivity.
  - intros routine quantity page g.
    destruct (draw_cards_emitting card_op routine layout_config quantity
                (fun op H => H) g) as (r & cards & g' & Hcards & Hrun).
    exists r, cards. eexists. split; [exact Hcards|].
    rewrite draw_page_run.
    match goal with
    | |- context [set_gen_c (emits ?ops (gen_c g)) g] =>
        rewrite (Hrun (emits ops (gen_c g)))
    end.
    split; [reflexivity|].
    unfold set_gen_c; cbn [gen_c]. rewrite emits_emits.
    rewrite <- !app_assoc. reflexivity.
Qed.

Lemma cut_guides_before_cards_witness :
  exists guides : list Op,
    forall cv,
      draw_cut_guides (mkLayout 2 2 306 396) cv = (Ok tt, emits guides cv).
Proof.
  destruct (cut_guides_before_cards "quarter" (mkLayout 2 2 306 396) eq_refl)
    as (guides & Hrun & _).
  exists guides. exact Hrun.
Defined.

(** ** Counting cards and pages *)

Lemma count_op_app (p : Op -> bool) (ops1 ops2 : list Op) :
  count_op p (ops1 ++ ops2) = count_op p ops1 + count_op p ops2.
Proof. unfold count_op. rewrite filter_app, length_app. lia. Qed.

Lemma count_op_none (p q : Op -> bool) (ops : list Op) :
  (forall op, q op = true -> p op = false) ->
  Forall (fun op => q op = true) ops -> count_op p ops = 0.
Proof.
  intros Hpq. induction 1 as [|op ops Hop _ IH]; [reflexivity|].
  unfold count_op in *. simpl. rewrite (Hpq op Hop). exact IH.
Qed.

Lemma body_op_no_stamp (op : Op) : body_op op = true -> is_stamp op = false.
Proof. destruct op; cbn; congruence. Qed.

Lemma card_op_no_showPage (op : Op) :
  card_op op = true -> is_showPage op = false.
Proof. destruct op; cbn; congruence. Qed.

Lemma card_op_no_dash (op : Op) : card_op op = true -> is_dash_on op = false.
Proof. destruct op as [| | | |[|]| | | | | | | |]; cbn; congruence. Qed.

(** A well-formed routine renders without error, and the card sends exactly
    one right-aligned text: its version stamp. *)
Lemma draw_well_formed (self : CardRenderer) :
  well_formed (self_routine self) ->
  exists ops self',
    draw self = (Ok tt, self') /\
    self_c self' = emits ops (self_c self) /\
    count_op is_stamp ops = 1.
Proof.
  intros [Hname Hitems].
  destruct self as [cv x y w h rt v cy]. cbn [self_routine] in *.
  unfold draw. rewrite bind_run, _draw_alignment_markers_run.
  rewrite bind_run, _draw_header_run.
  cbn [self_routine self_c self_x self_y self_width self_height
       self_current_y set_c set_current_y].
  destruct (routine_name rt) as [name|] eqn:Hn; [|congruence].
  cbv zeta. rewrite bind_run, emits_emits.
  match goal with
  | |- context [_draw_items ?st] => generalize (eq_refl st); generalize st at 2 3
  end.
  intros s2 Hs2.
  assert (Hwf : Forall (fun item => well_formed_item item = true)
                  (sorted order_key (items_of s2))).
  { eapply Permutation_Forall; [apply sorted_perm|].
    rewrite <- Hs2. exact Hitems. }
  destruct (for_in_items_truncate (content_x_of s2) (content_width_of s2)
              (min_y_of s2) _ Hwf s2) as (n & s3 & _ & Hloop & _).
  destruct (_draw_items_emitting s2) as (r & ops3 & s3' & Hops3 & Hrun3).
  rewrite _draw_items_loop, Hloop.
  assert (Hs3 : (Ok tt, s3) = (r, set_c (emits ops3 (self_c s2)) s3')).
  { rewrite <- Hloop, <- _draw_items_loop, <- Hrun3.
    destruct s2; reflexivity. }
  apply (f_equal snd) in Hs3. cbn [snd] in Hs3. subst s3 s2.
  destruct s3' as [cv' x' y' w' h' rt' v' cy'].
  rewrite _draw_version_run.
  cbn [self_c self_x self_y self_width self_height self_version set_c
       set_current_y].
  rewrite !emits_emits.
  eexists. eexists. split; [reflexivity|].
  split; [reflexivity|].
  rewrite !count_op_app.
  rewrite (count_op_none is_stamp body_op ops3 body_op_no_stamp Hops3).
  reflexivity.
Qed.

Lemma card_run_well_formed (x y width height : Z) (routine : Routine)
    (version : Z) :
  well_formed routine ->
  fst (card_run x y width height routine version) = Ok tt /\
  count_op is_stamp (snd (card_run x y width height routine version)) = 1.
Proof.
  intros Hwf. unfold card_run.
  destruct (draw_well_formed
              (CardRenderer_init (new_canvas ToBuffer) x y width height
                 routine version) Hwf) as (ops & self' & Hrun & Hc & Hcount).
  rewrite Hrun, Hc. cbn. split; [reflexivity|exact Hcount].
Qed.

Section Pagination.
Variables (routine : Routine) (layout_config : LayoutConfig) (quantity : Z).
Hypothesis routine_ok : well_formed routine.

Lemma draw_cell_row_run (row : Z) (cells : list Z) :
  forall g : GenState, exists ops,
    for_in cells (draw_cell routine layout_config quantity row) g =
      (Ok tt,
       mkGen (emits ops (gen_c g))
         (advance_index (card_index g) (Z.of_nat (List.length cells))
            quantity)) /\
    Forall (fun op => card_op op = true) ops /\
    count_op is_stamp ops =
      advance_index (card_index g) (Z.of_nat (List.length cells)) quantity
      - card_index g.
Proof.
  unfold advance_index.
  induction cells as [|col cells IH]; intros [cv i]; cbn [gen_c card_index].
  - exists []. rewrite emits_nil. cbn [for_in ret List.length].
    replace (Z.min (i + Z.of_nat 0) (Z.max i quantity)) with i by lia.
    split; [reflexivity|]. split; [constructor|]. cbn. lia.
  - cbn [for_in]. rewrite bind_run. unfold draw_cell at 1.
    rewrite bind_run. unfold gets at 1. cbn [card_index].
    destruct (Z.leb_spec quantity i) as [Hdone|Hmore].
    + exists []. rewrite emits_nil. cbn [ret].
      replace (Z.min (i + Z.of_nat (List.length (col :: cells)))
                 (Z.max i quantity)) with i by lia.
      split; [reflexivity|]. split; [constructor|]. cbn. lia.
    + cbv zeta. rewrite bind_run, render_card_run. cbv zeta.
      destruct (card_run_well_formed (col * lc_width layout_config)
                  (PAGE_HEIGHT - (row + 1) * lc_height layout_config)
                  (lc_width layout_config) (lc_height layout_config)
                  routine (get_default (routine_version routine) 1)
                  routine_ok) as [Hok Hstamp].
      pose proof (card_run_card_op (col * lc_width layout_config)
                  (PAGE_HEIGHT - (row + 1) * lc_height layout_config)
                  (lc_width layout_config) (lc_height layout_config)
                  routine (get_default (routine_version routine) 1))
        as Hops1.
      destruct (card_run _ _ _ _ _ _) as [r1 ops1].
      cbn [fst snd] in *. subst r1.
      rewrite bind_run. unfold modify at 1. cbn [gen_c card_index ret].
      destruct (IH (mkGen (emits ops1 cv) (i + 1))) as (ops2 & Hrun & Hops2 & Hcount).
      cbn [gen_c card_index] in *.
      exists (ops1 ++ ops2). rewrite Hrun, emits_emits.
      replace (Z.min (i + Z.of_nat (List.length (col :: cells)))
                 (Z.max i quantity))
        with (Z.min (i + 1 + Z.of_nat (List.length cells))
                (Z.max (i + 1) quantity)) by (cbn [List.length]; lia).
      split; [reflexivity|].
      split; [apply Forall_app; split; assumption|].
      rewrite count_op_app, Hstamp, Hcount. lia.
Qed.

Lemma advance_index_add (i a b : Z) :
  0 <= a -> 0 <= b ->
  advance_index (advance_index i a quantity) b quantity =
  advance_index i (a + b) quantity.
Proof. unfold advance_index. lia. Qed.

Lemma draw_cards_rows_run (rws : list Z) :
  let ncols := Z.of_nat (List.length (range (cols layout_config))) in
  forall g : GenState, exists ops,
    for_each rws
      (fun row =>
         for_in (range (cols layout_config))
           (draw_cell routine layout_config quantity row)) g =
      (Ok tt,
       mkGen (emits ops (gen_c g))
         (advance_index (card_index g)
            (Z.of_nat (List.length rws) * ncols) quantity)) /\
    Forall (fun op => card_op op = true) ops /\
    count_op is_stamp ops =
      advance_index (card_index g) (Z.of_nat (List.length rws) * ncols)
        quantity - card_index g.
Proof.
  intros ncols. unfold for_each.
  induction rws as [|row rws IH]; intros [cv i]; cbn [gen_c card_index].
  - exists []. rewrite emits_nil. cbn [for_in ret List.length].
    unfold advance_index.
    replace (Z.min (i + Z.of_nat 0 * ncols) (Z.max i quantity)) with i
      by lia.
    split; [reflexivity|]. split; [constructor|]. cbn. lia.
  - cbn [for_in]. rewrite bind_run, bind_run.
    destruct (draw_cell_row_run row (range (cols layout_config))
                (mkGen cv i)) as (ops1 & Hrun1 & Hops1 & Hcount1).
    rewrite Hrun1. cbn [ret gen_c card_index] in *. fold ncols in Hcount1.
    fold ncols.
    destruct (IH (mkGen (emits ops1 cv) (advance_index i ncols quantity)))
      as (ops2 & Hrun2 & Hops2 & Hcount2).
    cbn [gen_c card_index] in *.
    exists (ops1 ++ ops2). rewrite Hrun2, emits_emits.
    assert (Hn : 0 <= ncols) by (unfold ncols; lia).
    assert (Hm : 0 <= Z.of_nat (List.length rws) * ncols)
      by (apply Z.mul_nonneg_nonneg; lia).
    rewrite advance_index_add in Hcount2 |- * by assumption.
    replace (Z.of_nat (List.length (row :: rws)) * ncols)
      with (ncols + Z.of_nat (List.length rws) * ncols)
      by (cbn [List.length]; lia).
    split; [reflexivity|].
    split; [apply Forall_app; split; assumption|].
    rewrite count_op_app, Hcount1, Hcount2. lia.
Qed.

Lemma count_op_map_none (p : Op -> bool) (f : Z -> Op) (l : list Z) :
  (forall k, p (f k) = false) -> count_op p (map f l) = 0.
Proof.
  intros Hf. unfold count_op. induction l as [|k l IH]; [reflexivity|].
  simpl. rewrite Hf. exact IH.
Qed.

Lemma draw_pages_list_run (pages : list Z) :
  let cells :=
    Z.of_nat (List.length (range (rows layout_config)))
    * Z.of_nat (List.length (range (cols layout_config))) in
  forall g : GenState, exists ops,
    for_each pages (draw_page routine layout_config quantity) g =
      (Ok tt,
       mkGen (emits ops (gen_c g))
         (advance_index (card_index g)
            (Z.of_nat (List.length pages) * cells) quantity)) /\
    count_op is_stamp ops =
      advance_index (card_index g) (Z.of_nat (List.length pages) * cells)
        quantity - card_index g /\
    count_op is_showPage ops = count_breaks pages /\
    count_op is_dash_on ops = Z.of_nat (List.length pages).
Proof.
  intros cells. unfold for_each.
  assert (Hcells : 0 <= cells) by (apply Z.mul_nonneg_nonneg; lia).
  induction pages as [|page pages IH]; intros [cv i];
    cbn [gen_c card_index].
  - exists []. rewrite emits_nil. cbn [for_in ret List.length].
    unfold advance_index.
    replace (Z.min (i + Z.of_nat 0 * cells) (Z.max i quantity)) with i
      by lia.
    split; [reflexivity|]. repeat split. cbn. lia.
  - cbn [for_in]. rewrite bind_run, bind_run, draw_page_run.
    unfold draw_cards.
    match goal with
    | |- context [set_gen_c (emits ?pre _) _] => set (prefix := pre)
    end.
    destruct (draw_cards_rows_run (range (rows layout_config))
                (set_gen_c (emits prefix cv) (mkGen cv i)))
      as (ops1 & Hrun1 & Hops1 & Hcount1).
    cbn [gen_c card_index set_gen_c] in *. fold cells in Hrun1, Hcount1.
    rewrite Hrun1. cbn [ret].
    destruct (IH (mkGen (emits ops1 (emits prefix cv))
                    (advance_index i cells quantity)))
      as (ops2 & Hrun2 & Hcount2 & Hbreaks2 & Hdash2).
    cbn [gen_c card_index] in *.
    exists (prefix ++ ops1 ++ ops2).
    rewrite Hrun2, !emits_emits.
    assert (Hm : 0 <= Z.of_nat (List.length pages) * cells)
      by (apply Z.mul_nonneg_nonneg; lia).
    rewrite advance_index_add in Hcount2 |- * by assumption.
    replace (Z.of_nat (List.length (page :: pages)) * cells)
      with (cells + Z.of_nat (List.length pages) * cells)
      by (cbn [List.length]; lia).
    split; [reflexivity|].
    assert (Hpre_stamp : count_op is_stamp prefix = 0).
    { unfold prefix. rewrite !count_op_app.
      rewrite !count_op_map_none by reflexivity.
      destruct (0 <? page); reflexivity. }
    assert (Hpre_break :
      count_op is_showPage prefix = if 0 <? page then 1 else 0).
    { unfold prefix. rewrite !count_op_app.
      rewrite !count_op_map_none by reflexivity.
      destruct (0 <? page); reflexivity. }
    assert (Hpre_dash : count_op is_dash_on prefix = 1).
    { unfold prefix. rewrite !count_op_app.
      rewrite !count_op_map_none by reflexivity.
      destruct (0 <? page); reflexivity. }
    rewrite !count_op_app, Hpre_stamp, Hpre_break, Hpre_dash.
    rewrite (count_op_none is_showPage card_op ops1 card_op_no_showPage Hops1).
    rewrite (count_op_none is_dash_on card_op ops1 card_op_no_dash Hops1).
    rewrite Hcount1, Hcount2, Hbreaks2, Hdash2.
    split; [lia|]. split.
    + unfold count_breaks. cbn [filter].
      destruct (0 <? page); cbn [List.length]; lia.
    + cbn [List.length]. lia.
Qed.
End Pagination.

Lemma range_length (n : Z) : 0 <= n -> Z.of_nat (List.length (range n)) = n.
Proof. intros H. unfold range. rewrite length_map, length_seq. lia. Qed.

Lemma count_breaks_range (n : Z) : 1 <= n -> count_breaks (range n) = n - 1.
Proof.
  intros H. unfold count_breaks, range.
  destruct (Z.to_nat n) as [|m] eqn:Hm; [lia|].
  cbn [seq map filter]. cbn [Z.of_nat Z.ltb Z.compare].
  assert (Hall : forall k l,
            (1 <= k)%nat ->
            filter (fun page => 0 <? page) (map Z.of_nat (seq k l)) =
            map Z.of_nat (seq k l)).
  { intros k l. revert k. induction l as [|l IH]; intros k Hk; [reflexivity|].
    cbn [seq map filter].
    destruct (Z.ltb_spec 0 (Z.of_nat k)); [|lia].
    rewrite IH by lia. reflexivity. }
  rewrite Hall by lia. rewrite length_map, length_seq. lia.
Qed.

Lemma ceiling_pages (quantity cards_per_page : Z) :
  0 < cards_per_page ->
  let pages := (quantity + cards_per_page - 1) / cards_per_page in
  (pages - 1) * cards_per_page < quantity <= pages * cards_per_page.
Proof.
  intros Hpos pages.
  pose proof (Z.div_mod (quantity + cards_per_page - 1) cards_per_page
                ltac:(lia)) as Hdiv.
  pose proof (Z.mod_pos_bound (quantity + cards_per_page - 1) cards_per_page
                Hpos) as Hmod.
  fold pages in Hdiv. nia.
Qed.

(** C2: for each of the three layouts, every quantity above zero and every
    well-formed routine, generation succeeds; the page count it uses is the
    ceiling of quantity over cards per page ([cols * rows]); the running
    card counter ends at exactly [quantity]; the document holds exactly
    [quantity] cards (each card sends one version stamp), one set of cut
    guides per page and one page break between consecutive pages, so
    exactly that many pages, the last one keeping its unused cells blank;
    and the summary reports the same counts. *)
Theorem pages_and_cards_exact :
  forall (routine : Routine) (name : string) (layout_config : LayoutConfig)
         (quantity : Z) (output_path : option string),
  LAYOUTS name = Some layout_config ->
  0 < quantity ->
  well_formed routine ->
  let cards_per_page := cols layout_config * rows layout_config in
  let pages := (quantity + cards_per_page - 1) / cards_per_page in
  (pages - 1) * cards_per_page < quantity <= pages * cards_per_page /\
  (forall cv, exists g,
     draw_pages routine layout_config quantity pages (mkGen cv 0)
       = (Ok tt, g) /\
     card_index g = quantity) /\
  exists result cv,
    generate_pdf routine name quantity output_path = (Ok result, Some cv) /\
    count_op is_stamp (code cv) = quantity /\
    count_op is_showPage (code cv) + 1 = pages /\
    count_op is_dash_on (code cv) = pages /\
    result =
      if negb (truthy output_path) then PdfBytes (code cv)
      else Summary name cards_per_page pages quantity.
Proof.
  intros routine name layout_config quantity output_path Hlayout Hq Hwf
    cards_per_page pages.
  destruct (LAYOUTS_grid _ _ Hlayout) as [Hcols Hrows].
  assert (Hcpp : 0 < cards_per_page) by (unfold cards_per_page; nia).
  pose proof (ceiling_pages quantity cards_per_page Hcpp) as Hceil.
  cbv zeta in Hceil. fold pages in Hceil.
  assert (Hpages : 1 <= pages) by nia.
  assert (Hrun : forall cv, exists ops,
            draw_pages routine layout_config quantity pages (mkGen cv 0) =
              (Ok tt, mkGen (emits ops cv) quantity) /\
            count_op is_stamp ops = quantity /\
            count_op is_showPage ops = pages - 1 /\
            count_op is_dash_on ops = pages).
  { intros cv.
    destruct (draw_pages_list_run routine layout_config quantity Hwf
                (range pages) (mkGen cv 0))
      as (ops & Hrun & Hstamps & Hbreaks & Hdash).
    cbn [gen_c card_index] in *.
    rewrite !range_length in * by lia.
    rewrite count_breaks_range in Hbreaks by lia.
    replace (advance_index 0
               (pages * (rows layout_config * cols layout_config)) quantity)
      with quantity in * by (unfold advance_index, cards_per_page in *; nia).
    exists ops. unfold draw_pages. rewrite Hrun.
    repeat split; try assumption. lia. }
  split; [exact Hceil|]. split.
  - intros cv. destruct (Hrun cv) as (ops & Hops & _).
    eexists. split; [exact Hops|reflexivity].
  - unfold generate_pdf. rewrite Hlayout. fold cards_per_page. fold pages.
    cbv zeta. rewrite bind_run.
    match goal with
    | |- context [mkGen ?c 0] => destruct (Hrun c) as (ops & -> & Hs & Hb & Hd)
    end.
    unfold on_canvas, cv_call, modify. cbn [gen_c card_index].
    rewrite emit_emits, emits_emits.
    destruct (truthy output_path); cbn [negb];
      (eexists; eexists; split; [reflexivity|]);
      cbn [code emits new_canvas app]; rewrite !count_op_app, Hs, Hb, Hd;
      cbn; repeat split; lia.
Qed.

Lemma pages_and_cards_exact_witness :
  exists result cv,
    generate_pdf twelve_checkboxes "quarter" 5 (Some "cards.pdf")
      = (Ok result, Some cv) /\
    count_op is_stamp (code cv) = 5 /\
    count_op is_showPage (code cv) + 1 = 2 /\
    result = Summary "quarter" 4 2 5.
Proof.
  destruct (pages_and_cards_exact twelve_checkboxes "quarter"
              (mkLayout 2 2 306 396) 5 (Some "cards.pdf"))
    as (_ & _ & result & cv & Hgen & Hstamps & Hpages & _ & Hresult).
  - reflexivity.
  - reflexivity.
  - split; [discriminate|]. repeat constructor.
  - exists result, cv. repeat split; assumption.
Defined.

(** ** Items only append to the canvas *)

Lemma draw_seq_appends (cx cw : Z) (l : list Item) (self self' : CardRenderer)
    (r : Res unit) :
  draw_seq cx cw l self = (r, self') ->
  exists ops, self_c self' = emits ops (self_c self).
Proof.
  assert (Hem : Emitting set_c body_op (draw_seq cx cw l)).
  { unfold draw_seq. apply Emitting_for_each. intros item.
    apply draw_item_emitting. }
  destruct (Hem self) as (r0 & ops & s' & _ & Hrun).
  intros H. exists ops.
  specialize (Hrun (self_c self)).
  replace (set_c (self_c self) self) with self in Hrun by (destruct self; reflexivity).
  rewrite Hrun in H. apply (f_equal snd) in H. cbn [snd] in H. subst self'.
  destruct s'; reflexivity.
Qed.

(** ** Missing fields *)

Lemma item_advance_nonneg (item : Item) : 0 <= item_advance item.
Proof.
  unfold item_advance. destruct (item_type item) as [t|]; [|lia].
  kind_cases t; try lia. destruct (truthy_bool _); lia.
Qed.

(** When every item before [item] is well formed and they fit above the
    floor, the loop reaches [item]; if [item] has no [type] the loop ends
    there with [KeyError], the earlier items drawn. *)
Lemma for_in_items_reach_untyped (cx cw min_y : Z) (item : Item)
    (post : list Item) (pre : list Item) :
  item_type item = None ->
  Forall (fun it => well_formed_item it = true) pre ->
  forall self : CardRenderer,
  total_advance pre <= self_current_y self - min_y ->
  exists self',
    for_in (pre ++ item :: post) (_draw_items_body cx cw min_y) self =
      (Raise (KeyError "type"), self') /\
    draw_seq cx cw pre self = (Ok tt, self').
Proof.
  intros Htype. induction 1 as [|a pre Ha _ IH]; intros self Hroom.
  - exists self. cbn [app for_in total_advance fold_right] in *.
    rewrite bind_run. unfold _draw_items_body. rewrite bind_run.
    unfold gets at 1.
    destruct (Z.ltb_spec (self_current_y self) min_y); [lia|].
    rewrite bind_run, (draw_item_untyped _ _ _ _ Htype).
    split; reflexivity.
  - cbn [total_advance fold_right] in Hroom.
    fold (total_advance pre) in Hroom.
    pose proof (item_advance_nonneg a) as Ha0.
    assert (Hpre0 : 0 <= total_advance pre).
    { clear. induction pre as [|b pre IHp]; cbn; [lia|].
      pose proof (item_advance_nonneg b). unfold total_advance in IHp. lia. }
    destruct (draw_item_advance cx cw a self Ha) as (s1 & Hrun & Hy & _).
    destruct (IH s1 ltac:(lia)) as (self' & Hloop & Hseq).
    exists self'.
    cbn [app for_in]. rewrite bind_run. unfold _draw_items_body at 1.
    rewrite bind_run. unfold gets at 1.
    destruct (Z.ltb_spec (self_current_y self) min_y); [lia|].
    rewrite bind_run, Hrun. cbn [ret]. split; [exact Hloop|].
    unfold draw_seq, for_each in *. cbn [for_in].
    rewrite bind_run, bind_run, Hrun. cbn [ret]. exact Hseq.
Qed.

Lemma range_first (n : Z) : 1 <= n -> exists l, range n = 0 :: l.
Proof.
  intros H. unfold range. destruct (Z.to_nat n) as [|m] eqn:Hm; [lia|].
  eexists. reflexivity.
Qed.

Lemma card_run_untyped (x y width height : Z) (routine : Routine)
    (version : Z) (name : string) (pre post : list Item) (item : Item) :
  routine_name routine = Some name ->
  sorted order_key (get_default (routine_items routine) [])
    = pre ++ item :: post ->
  item_type item = None ->
  Forall (fun it => well_formed_item it = true) pre ->
  total_advance pre <= height - 95 ->
  exists self',
    draw_seq (x + MARGIN + MARKER_RADIUS * 2)
      (width - (2 * MARGIN) - (MARKER_RADIUS * 4)) pre
      (below_header x y width height routine version) = (Ok tt, self') /\
    card_run x y width height routine version =
    (Raise (KeyError "type"),
     marker_ops x y width height ++ header_ops x y width height name
     ++ code (self_c self')).
Proof.
  intros Hname Hsorted Htype Hpre Hroom.
  assert (Hem : Emitting set_c body_op
                  (draw_seq (x + MARGIN + MARKER_RADIUS * 2)
                     (width - (2 * MARGIN) - (MARKER_RADIUS * 4)) pre)).
  { unfold draw_seq. apply Emitting_for_each. intros it.
    apply draw_item_emitting. }
  destruct (Hem (below_header x y width height routine version))
    as (r & ops & s' & _ & Hrun).
  unfold card_run, draw, CardRenderer_init.
  rewrite bind_run, _draw_alignment_markers_run.
  rewrite bind_run, _draw_header_run.
  cbn [CardRenderer_init self_routine self_c self_x self_y self_width
       self_height self_current_y set_c set_current_y].
  rewrite Hname. cbv zeta. rewrite bind_run, _draw_items_loop.
  unfold items_of, content_x_of, content_width_of.
  cbn [self_routine self_x self_width set_current_y set_c]. rewrite Hsorted.
  match goal with
  | |- context [for_in _ (_draw_items_body ?cx ?cw ?my) ?st] =>
      destruct (for_in_items_reach_untyped cx cw my item post pre Htype Hpre
                  st) as (self1 & Hloop & Hseq);
      [unfold min_y_of; cbn [self_current_y self_y set_current_y set_c];
       points; lia|];
      rewrite Hloop;
      pose proof (Hrun (self_c st)) as Hreal
  end.
  cbn [self_c set_c set_current_y] in Hreal.
  unfold below_header, set_c in Hreal, Hrun.
  cbn [self_x self_y self_width self_height self_routine self_version
       self_current_y] in Hreal, Hrun.
  unfold set_current_y, set_c in Hseq.
  cbn [self_c self_x self_y self_width self_height self_routine self_version
       self_current_y] in Hseq.
  rewrite Hreal in Hseq.
  specialize (Hrun (new_canvas ToBuffer)).
  unfold below_header.
  assert (Hr : r = Ok tt) by congruence. subst r.
  eexists. split; [exact Hrun|].
  apply (f_equal snd) in Hseq. cbn [snd] in Hseq. subst self1.
  destruct s' as [cv' x' y' w' h' r' v' cy'].
  cbn [self_c code emits new_canvas app].
  unfold marker_ops, header_ops. cbv zeta. cbn [app].
  reflexivity.
Qed.

(** C7, as the code has it: an input without the routine's [name], or with
    the name but without [items], fails with [KeyError] before any drawing
    call: no canvas has even been created.  An item's [type] is not checked
    beforehand.  A missing one raises [KeyError] when the item loop of the
    first card reaches the item (the well-formed items before it fit above
    the floor), and by then the canvas holds, in this order, the cut guides
    of the first page, the four markers and the header of the first card,
    and all that drawing the earlier items one after the other under the
    header sends; nothing has been saved. *)
Theorem missing_field_errors :
  (forall args data,
     data_name data = None ->
     main args data = (Raise (KeyError "name"), None)) /\
  (forall args data,
     data_name data <> None -> data_items data = None ->
     main args data = (Raise (KeyError "items"), None)) /\
  (forall routine layout layout_config quantity output_path name pre item post,
     LAYOUTS layout = Some layout_config ->
     1 <= quantity ->
     routine_name routine = Some name ->
     sorted order_key (get_default (routine_items routine) [])
       = pre ++ item :: post ->
     item_type item = None ->
     Forall (fun it => well_formed_item it = true) pre ->
     total_advance pre <= lc_height layout_config - 95 ->
     let x := 0 in
     let y := PAGE_HEIGHT - lc_height layout_config in
     let width := lc_width layout_config in
     let height := lc_height layout_config in
     exists cv self',
       generate_pdf routine layout quantity output_path
         = (Raise (KeyError "type"), Some cv) /\
       draw_seq (x + MARGIN + MARKER_RADIUS * 2)
         (width - (2 * MARGIN) - (MARKER_RADIUS * 4)) pre
         (below_header x y width height routine
            (get_default (routine_version routine) 1)) = (Ok tt, self') /\
       code cv =
         guide_ops layout_config ++ marker_ops x y width height
         ++ header_ops x y width height name ++ code (self_c self') /\
       code cv <> []).
Proof.
  split; [|split].
  - intros args data Hname. unfold main. rewrite Hname. reflexivity.
  - intros args data Hname Hitems. unfold main.
    destruct (data_name data); [|congruence].
    rewrite Hitems. reflexivity.
  - intros routine layout layout_config quantity output_path name pre item
      post Hlayout Hq Hname Hsorted Htype Hpre Hroom x y width height.
    destruct (LAYOUTS_grid _ _ Hlayout) as [Hcols Hrows].
    unfold generate_pdf. rewrite Hlayout. cbv zeta.
    set (cards_per_page := cols layout_config * rows layout_config).
    assert (Hcpp : 0 < cards_per_page) by (unfold cards_per_page; nia).
    pose proof (ceiling_pages quantity cards_per_page Hcpp) as Hceil.
    cbv zeta in Hceil.
    destruct (range_first ((quantity + cards_per_page - 1) / cards_per_page)
                ltac:(nia)) as (pages & Hpages).
    destruct (range_first (rows layout_config) Hrows) as (rws & Hrws).
    destruct (range_first (cols layout_config) Hcols) as (cls & Hcls).
    rewrite bind_run. unfold draw_pages. rewrite Hpages.
    unfold for_each at 1. cbn [for_in].
    rewrite bind_run, bind_run, draw_page_run.
    unfold draw_cards, for_each at 1. rewrite Hrws, Hcls. cbn [for_in].
    rewrite bind_run, bind_run, bind_run.
    unfold draw_cell at 1. rewrite bind_run. unfold gets at 1.
    cbn [card_index set_gen_c].
    destruct (Z.leb_spec quantity 0); [lia|].
    cbv zeta. rewrite bind_run, render_card_run. cbv zeta.
    replace (0 * lc_width layout_config) with x by (unfold x; lia).
    replace (PAGE_HEIGHT - (0 + 1) * lc_height layout_config) with y
      by (unfold y; lia).
    destruct (card_run_untyped x y width height routine
                (get_default (routine_version routine) 1) name pre post item
                Hname Hsorted Htype Hpre Hroom) as (self' & Hseq & Hcard).
    fold width height. rewrite Hcard. cbn [fst snd].
    eexists. exists self'. split; [reflexivity|].
    split; [exact Hseq|].
    cbn [gen_c set_gen_c]. rewrite emits_emits.
    split.
    + destruct (truthy output_path);
        cbn [code emits new_canvas]; unfold guide_ops;
        change (0 <? 0) with false; cbv iota;
        rewrite <- !app_assoc; reflexivity.
    + destruct (truthy output_path); cbn; discriminate.
Qed.

Lemma missing_field_errors_witness :
  main (mkArgs "out.pdf" "auto") (mkData None (Some [untyped_item]) None None)
    = (Raise (KeyError "name"), None) /\
  main (mkArgs "out.pdf" "auto") (mkData (Some "Day") None None None)
    = (Raise (KeyError "items"), None) /\
  exists cv,
    generate_pdf day_with_untyped "quarter" 1 None
      = (Raise (KeyError "type"), Some cv) /\
    code cv =
      [ setStrokeColor GRAY; setLineWidth (1 # 2); setDash [6; 3];
        line 306 0 306 792; line 0 396 612 396; setDash [];
        setFillColor black; circle 18 774 4 false true;
        circle 288 774 4 false true; circle 18 414 4 false true;
        circle 288 414 4 false true;
        setFont "Helvetica-Bold" 14; setFillColor black;
        drawString 26 760 "Day"; setFont "Helvetica" 10;
        drawString 208 762 "___/___/___"; setStrokeColor GRAY;
        setLineWidth (1 # 2); line 26 750 280 750; setStrokeColor black;
        setStrokeColor black; setLineWidth (3 # 2);
        rect 26 721 18 18 true false; setFont "Helvetica" 11;
        setFillColor black; drawString 52 727 "Stretch" ].
Proof.
  split; [apply (proj1 missing_field_errors); reflexivity|].
  split; [apply (proj1 (proj2 missing_field_errors));
          [discriminate|reflexivity]|].
  destruct (proj2 (proj2 missing_field_errors) day_with_untyped "quarter"
              (mkLayout 2 2 306 396) 1 None "Day"
              [checkbox_item "Stretch" 0]
              (mkItem None (Some "Pushups") (Some 1) None None) [])
    as (cv & self' & Hrun & Hseq & Hcode & _).
  - reflexivity.
  - lia.
  - reflexivity.
  - reflexivity.
  - reflexivity.
  - repeat constructor.
  - vm_compute. discriminate.
  - exists cv. split; [exact Hrun|].
    apply (f_equal snd) in Hseq. cbn [snd] in Hseq. subst self'.
    rewrite Hcode. reflexivity.
Defined.

(** C7 as stated fails for an item's [type]: with one item that has no
    [type], generation does raise [KeyError], but only after it has drawn
    the cut guides, the four markers and the header of the first card. *)
Lemma missing_type_raises_after_drawing :
  data_items untyped_input = Some [untyped_item] /\
  item_type untyped_item = None /\
  exists cv,
    main (mkArgs "out.pdf" "auto") untyped_input
      = (Raise (KeyError "type"), Some cv) /\
    In (circle 18 774 4 false true) (code cv) /\
    In (drawString 26 760 "Day") (code cv).
Proof.
  split; [reflexivity|]. split; [reflexivity|].
  eexists. split; [vm_compute; reflexivity|].
  split; cbn; tauto.
Qed.

(** * Further properties of the code *)

(** ** The frame of a card: markers and version stamp *)

Lemma same_card_refl (s : CardRenderer) : same_card s s.
Proof. repeat split. Qed.

Lemma same_card_trans (s1 s2 s3 : CardRenderer) :
  same_card s1 s2 -> same_card s2 s3 -> same_card s1 s3.
Proof. unfold same_card. intuition congruence. Qed.

Lemma Framed_ret {A} (a : A) : Framed (ret a).
Proof.
  intros s r s' H. apply (f_equal snd) in H. cbn in H. subst.
  apply same_card_refl.
Qed.

Lemma Framed_raise {A} (e : Exn) : Framed (@raise CardRenderer A e).
Proof.
  intros s r s' H. apply (f_equal snd) in H. cbn in H. subst.
  apply same_card_refl.
Qed.

Lemma Framed_gets {A} (f : CardRenderer -> A) : Framed (gets f).
Proof.
  intros s r s' H. apply (f_equal snd) in H. cbn in H. subst.
  apply same_card_refl.
Qed.

Lemma Framed_getitem {A} (key : string) (v : option A) :
  Framed (getitem key v).
Proof. destruct v; [apply Framed_ret|apply Framed_raise]. Qed.

Lemma Framed_c_call (op : Op) : Framed (c_call op).
Proof.
  intros s r s' H. apply (f_equal snd) in H. cbn in H. subst.
  repeat split.
Qed.

Lemma Framed_current_y_sub (d : Z) : Framed (current_y_sub d).
Proof.
  intros s r s' H. apply (f_equal snd) in H. cbn in H. subst.
  repeat split.
Qed.

Lemma Framed_bind {A B} (m : M CardRenderer A) (f : A -> M CardRenderer B) :
  Framed m -> (forall a, Framed (f a)) -> Framed (bind m f).
Proof.
  intros Hm Hf s r s' H. rewrite bind_run in H.
  destruct (m s) as [[a|e] s1] eqn:Hrun.
  - eapply same_card_trans; [eapply Hm, Hrun|eapply Hf, H].
  - apply (f_equal snd) in H. cbn in H. subst. eapply Hm, Hrun.
Qed.

Lemma Framed_for_in {A} (l : list A) (body : A -> M CardRenderer LoopCtl) :
  (forall a, Framed (body a)) -> Framed (for_in l body).
Proof.
  intros Hbody. induction l as [|a l IH]; cbn [for_in].
  - apply Framed_ret.
  - apply Framed_bind; [apply Hbody|].
    intros [|]; [exact IH|apply Framed_ret].
Qed.

Lemma Framed_for_each {A} (l : list A) (body : A -> M CardRenderer unit) :
  (forall a, Framed (body a)) -> Framed (for_each l body).
Proof.
  intros Hbody. apply Framed_for_in. intros a.
  apply Framed_bind; [apply Hbody|intros _; apply Framed_ret].
Qed.

Ltac framed :=
  repeat first
    [ apply Framed_bind; [|intros ?]
    | apply Framed_ret
    | apply Framed_raise
    | apply Framed_getitem
    | apply Framed_c_call
    | apply Framed_current_y_sub
    | apply Framed_gets
    | apply Framed_for_each; intros ?
    | apply Framed_for_in; intros ?
    | match goal with
      | |- Framed (if ?b then _ else _) => destruct b
      | |- Framed (let '(_, _) := ?p in _) => destruct p
      end
    | progress cbv zeta ].

Lemma draw_item_framed (cx cw : Z) (item : Item) : Framed (draw_item cx cw item).
Proof.
  unfold draw_item, _draw_checkbox_item, _draw_number_item, _draw_scale_item,
    _draw_text_item.
  framed.
Qed.

Lemma _draw_items_framed : Framed _draw_items.
Proof.
  unfold _draw_items.
  do 4 (apply Framed_bind; [apply Framed_gets|intros ?]).
  cbv zeta. apply Framed_for_in. intros item. unfold _draw_items_body.
  apply Framed_bind; [apply Framed_gets|intros ?].
  destruct (_ <? _); [apply Framed_ret|].
  apply Framed_bind; [apply draw_item_framed|intros _; apply Framed_ret].
Qed.

Lemma card_body_framed :
  Framed (_draw_alignment_markers ;; _draw_header ;; _draw_items).
Proof.
  apply Framed_bind; [unfold _draw_alignment_markers; framed|intros _].
  apply Framed_bind; [unfold _draw_header; framed|intros _].
  apply _draw_items_framed.
Qed.

Lemma card_body_emitting :
  Emitting set_c body_op
    (_draw_alignment_markers ;; _draw_header ;; _draw_items).
Proof.
  apply Emitting_bind; [apply _draw_alignment_markers_emitting|intros _].
  apply Emitting_bind; [apply _draw_header_emitting|intros _].
  apply _draw_items_emitting.
Qed.

Lemma draw_body_then_version (self : CardRenderer) :
  draw self =
  match (_draw_alignment_markers ;; _draw_header ;; _draw_items) self with
  | (Ok _, s3) => _draw_version s3
  | (Raise e, s3) => (Raise e, s3)
  end.
Proof.
  unfold draw. rewrite !bind_run.
  destruct (_draw_alignment_markers self) as [[[]|e] s1]; [|reflexivity].
  rewrite !bind_run.
  destruct (_draw_header s1) as [[[]|e] s2]; [|reflexivity].
  rewrite !bind_run. reflexivity.
Qed.

(** A card is its markers, header and items, which send no right-aligned
    text, followed - when they raised nothing - by the four commands of the
    version stamp. *)
Lemma card_run_shape (x y width height : Z) (routine : Routine) (version : Z) :
  exists pre,
    Forall (fun op => body_op op = true) pre /\
    (card_run x y width height routine version =
       (Ok tt,
        pre ++ [setFont "Helvetica" 8; setFillColor GRAY;
                version_stamp x y width version; setFillColor black]) \/
     exists e, card_run x y width height routine version = (Raise e, pre)).
Proof.
  unfold card_run. rewrite draw_body_then_version.
  set (s0 := CardRenderer_init (new_canvas ToBuffer) x y width height routine
               version).
  destruct (card_body_emitting s0) as (r & pre & s3 & Hpre & Hrun).
  specialize (Hrun (new_canvas ToBuffer)).
  change (set_c (new_canvas ToBuffer) s0) with s0 in Hrun.
  pose proof (card_body_framed _ _ _ Hrun) as Hframe.
  rewrite Hrun. exists pre. split; [exact Hpre|].
  destruct r as [[]|e].
  - left. rewrite _draw_version_run.
    destruct s3 as [cv3 x3 y3 w3 h3 r3 v3 cy3].
    unfold same_card in Hframe. cbn in Hframe.
    destruct Hframe as (-> & -> & -> & _ & _ & ->).
    reflexivity.
  - right. exists e. destruct s3. reflexivity.
Qed.

(** X1: a card that is drawn to the end carries exactly one right-aligned
    text: its version stamp, the letter v followed by the version, at
    [(x + width - 26, y + 22)], whatever the routine holds.  A card whose
    drawing raised carries none. *)
Theorem card_version_stamp :
  forall (x y width height : Z) (routine : Routine) (version : Z),
  filter is_stamp (snd (card_run x y width height routine version)) =
  match fst (card_run x y width height routine version) with
  | Ok _ => [drawRightString (x + width - 26) (y + 22)
               (String.append "v" (str version))]
  | Raise _ => []
  end.
Proof.
  intros x y width height routine version.
  assert (Hnone : forall ops,
            Forall (fun op => body_op op = true) ops ->
            filter is_stamp ops = []).
  { induction 1 as [|op ops Hop _ IH]; [reflexivity|].
    cbn [filter]. rewrite (body_op_no_stamp _ Hop). exact IH. }
  destruct (card_run_shape x y width height routine version)
    as (pre & Hpre & [Hrun|[e Hrun]]); rewrite Hrun; cbn [fst snd].
  - rewrite filter_app, (Hnone _ Hpre). cbn [filter is_stamp version_stamp app].
    unfold version_stamp, MARGIN, MARKER_RADIUS. do 2 f_equal; lia.
  - apply Hnone, Hpre.
Qed.

Lemma card_rest_no_circle :
  Emitting set_c no_circle (_draw_header ;; _draw_items ;; _draw_version).
Proof.
  apply Emitting_bind; [unfold _draw_header; emitting|intros _].
  apply Emitting_bind; [|intros _; unfold _draw_version; emitting].
  unfold _draw_items.
  do 4 (apply Emitting_bind; [apply Emitting_gets; reflexivity|intros ?]).
  cbv zeta. apply Emitting_for_in. intros item. unfold _draw_items_body.
  apply Emitting_bind; [apply Emitting_gets; reflexivity|intros ?].
  destruct (_ <? _); [apply Emitting_ret|].
  apply Emitting_bind; [|intros _; apply Emitting_ret].
  unfold draw_item, _draw_checkbox_item, _draw_number_item, _draw_scale_item,
    _draw_text_item.
  emitting.
Qed.

(** X2: every card, whatever its routine and also when its drawing raises
    later on, has exactly four circles: the filled alignment dots of radius
    4, 18 points in from each corner of the card, in the order top left,
    top right, bottom left, bottom right. *)
Theorem card_has_four_corner_markers :
  forall (x y width height : Z) (routine : Routine) (version : Z),
  filter is_circle (snd (card_run x y width height routine version)) =
  [ circle (x + 18) (y + height - 18) 4 false true;
    circle (x + width - 18) (y + height - 18) 4 false true;
    circle (x + 18) (y + 18) 4 false true;
    circle (x + width - 18) (y + 18) 4 false true ].
Proof.
  intros x y width height routine version.
  unfold card_run, draw. rewrite bind_run, _draw_alignment_markers_run.
  cbn [CardRenderer_init self_c self_x self_y self_width self_height].
  match goal with
  | |- context [set_c ?cv ?s] =>
      destruct (card_rest_no_circle s) as (r & ops & s' & Hops & Hrun);
      rewrite (Hrun cv)
  end.
  destruct s' as [cv' x' y' w' h' r' v' cy'].
  cbn [snd self_c set_c code emits new_canvas app].
  assert (Hnone : filter is_circle ops = []).
  { clear -Hops. induction Hops as [|op ops Hop _ IH]; [reflexivity|].
    cbn [filter]. unfold no_circle in Hop.
    destruct (is_circle op); [discriminate|exact IH]. }
  cbn [filter is_circle]. rewrite Hnone. reflexivity.
Qed.

(** ** Items that fit *)

Lemma total_advance_nonneg (l : list Item) : 0 <= total_advance l.
Proof.
  unfold total_advance.
  induction l as [|item l IH]; cbn [fold_right]; [lia|].
  pose proof (item_advance_nonneg item). lia.
Qed.

Lemma total_advance_app (l1 l2 : list Item) :
  total_advance (l1 ++ l2) = total_advance l1 + total_advance l2.
Proof.
  unfold total_advance.
  induction l1 as [|item l1 IH]; cbn [app fold_right]; [reflexivity|].
  rewrite IH. lia.
Qed.

Lemma total_advance_firstn_mono (l : list Item) :
  forall k m : nat, (k <= m)%nat ->
  total_advance (firstn k l) <= total_advance (firstn m l).
Proof.
  unfold total_advance.
  induction l as [|item l IH]; intros k m Hkm.
  - rewrite !firstn_nil. lia.
  - destruct k as [|k]; destruct m as [|m]; cbn [firstn fold_right]; try lia.
    + pose proof (item_advance_nonneg item).
      pose proof (total_advance_nonneg (firstn m l)).
      unfold total_advance in *. lia.
    + specialize (IH k m ltac:(lia)). lia.
Qed.

Lemma total_advance_firstn_le (k : nat) (l : list Item) :
  (k < List.length l)%nat ->
  total_advance (firstn k l) <= total_advance (removelast l).
Proof.
  intros Hk. rewrite removelast_firstn_len.
  apply total_advance_firstn_mono. lia.
Qed.

(** X3: no item is dropped when all items but the last fit.  If the items
    are well formed and the advances of all of them but the last (in drawing
    order) add up to no more than the room between the cursor and the floor,
    the loop draws every item, in sorted order, and the cursor ends lower
    by the sum of all the advances. *)
Theorem items_that_fit_are_all_drawn : forall self : CardRenderer,
  let drawn := sorted order_key (items_of self) in
  Forall (fun item => well_formed_item item = true) (items_of self) ->
  total_advance (removelast drawn) <= self_current_y self - min_y_of self ->
  exists self',
    _draw_items self = (Ok tt, self') /\
    draw_seq (content_x_of self) (content_width_of self) drawn self
      = (Ok tt, self') /\
    self_current_y self' = self_current_y self - total_advance drawn.
Proof.
  intros self drawn Hwf Hroom.
  assert (Hwf' : Forall (fun item => well_formed_item item = true) drawn).
  { eapply Permutation_Forall; [apply sorted_perm|exact Hwf]. }
  destruct (for_in_items_truncate (content_x_of self) (content_width_of self)
              (min_y_of self) drawn Hwf' self)
    as (n & self' & Hn & Hloop & Hseq & Hy & _ & _ & Hgt).
  assert (Hall : n = List.length drawn).
  { destruct (Nat.lt_ge_cases n (List.length drawn)) as [Hlt|Hge]; [|lia].
    specialize (Hgt Hlt).
    pose proof (total_advance_firstn_le n drawn Hlt). lia. }
  subst n. rewrite firstn_all in Hseq, Hy.
  exists self'. rewrite _draw_items_loop. repeat split; assumption.
Qed.

Lemma items_that_fit_are_all_drawn_witness :
  exists self',
    _draw_items (quarter_card twelve_checkboxes) = (Ok tt, self') /\
    self_current_y self' = 774 - 312.
Proof.
  destruct (items_that_fit_are_all_drawn (quarter_card twelve_checkboxes))
    as (self' & Hrun & _ & Hy).
  - repeat constructor.
  - vm_compute. discriminate.
  - exists self'. split; [exact Hrun|exact Hy].
Defined.

Lemma item_advance_le_70 (item : Item) : item_advance item <= 70.
Proof.
  unfold item_advance. destruct (item_type item) as [t|]; [|lia].
  kind_cases t; try lia. destruct (truthy_bool _); lia.
Qed.

Lemma for_in_items_overshoot (cx cw min_y : Z) (l : list Item) :
  Forall (fun item => well_formed_item item = true) l ->
  forall self : CardRenderer,
  min_y - 70 <= self_current_y self ->
  exists self',
    for_in l (_draw_items_body cx cw min_y) self = (Ok tt, self') /\
    min_y - 70 <= self_current_y self' <= self_current_y self.
Proof.
  induction 1 as [|item l Hitem _ IH]; intros self Hstart.
  - exists self. split; [reflexivity|lia].
  - cbn [for_in]. rewrite bind_run. unfold _draw_items_body at 1.
    rewrite bind_run. unfold gets at 1.
    destruct (Z.ltb_spec (self_current_y self) min_y) as [Hlow|Hroom].
    + exists self. split; [reflexivity|lia].
    + destruct (draw_item_advance cx cw item self Hitem)
        as (s1 & Hrun & Hy & _).
      rewrite bind_run, Hrun. cbn [ret].
      pose proof (item_advance_le_70 item).
      pose proof (item_advance_nonneg item).
      destruct (IH s1 ltac:(lia)) as (self' & Hloop & Hbound).
      exists self'. split; [exact Hloop|lia].
Qed.

(** X4: the item loop never fails on well-formed items, and it overshoots
    the floor by less than one item: starting no lower than 70 points under
    the floor, the cursor only moves down and ends no lower than 70 points
    under the floor (70 points is the tallest item, a scale with notes). *)
Theorem items_overshoot_floor_by_one_item_at_most :
  forall self : CardRenderer,
  Forall (fun item => well_formed_item item = true) (items_of self) ->
  min_y_of self - 70 <= self_current_y self ->
  exists self',
    _draw_items self = (Ok tt, self') /\
    min_y_of self - 70 <= self_current_y self' <= self_current_y self.
Proof.
  intros self Hwf Hstart.
  rewrite _draw_items_loop. apply for_in_items_overshoot; [|exact Hstart].
  eapply Permutation_Forall; [apply sorted_perm|exact Hwf].
Qed.

Lemma items_overshoot_floor_by_one_item_at_most_witness :
  exists self',
    _draw_items short_card = (Ok tt, self') /\
    min_y_of short_card - 70 <= self_current_y self' <= 43.
Proof.
  destruct (items_overshoot_floor_by_one_item_at_most short_card)
    as (self' & Hrun & Hy).
  - repeat constructor.
  - vm_compute. discriminate.
  - exists self'. split; [exact Hrun|exact Hy].
Defined.

(** ** Input already in order *)

Lemma sorted_of_ascending {A : Type} (key : A -> Z) (l : list A) :
  StronglySorted (key_le key) l -> sorted key l = l.
Proof.
  induction 1 as [|a l Hs IH Ha]; cbn [sorted]; [reflexivity|].
  rewrite IH. apply insert_by_head, Ha.
Qed.

(** X5: items that come in order are drawn in the order they are listed.
    When the routine lists its items in ascending [order], or when no item
    has an [order] at all, the loop of [_draw_items] walks the list exactly
    as given. *)
Theorem items_in_order_are_drawn_in_input_order :
  forall self : CardRenderer,
  StronglySorted (fun a b => order_key a <= order_key b) (items_of self) \/
  Forall (fun item => item_order item = None) (items_of self) ->
  _draw_items self =
  for_in (items_of self)
    (_draw_items_body (content_x_of self) (content_width_of self)
       (min_y_of self)) self.
Proof.
  intros self Horder. rewrite _draw_items_loop.
  replace (sorted order_key (items_of self)) with (items_of self);
    [reflexivity|].
  symmetry. apply sorted_of_ascending.
  destruct Horder as [Hasc|Hnone]; [exact Hasc|].
  induction Hnone as [|item l Hitem Hl IH]; constructor; [exact IH|].
  eapply Forall_impl; [|exact Hl].
  intros b Hb. unfold key_le, order_key. rewrite Hitem, Hb. cbn. lia.
Qed.

Lemma items_in_order_are_drawn_in_input_order_witness :
  _draw_items short_card =
  for_in [checkbox_item "a" 0; checkbox_item "b" 1]
    (_draw_items_body (content_x_of short_card) (content_width_of short_card)
       (min_y_of short_card)) short_card.
Proof.
  apply (items_in_order_are_drawn_in_input_order short_card).
  left. repeat constructor; cbn; lia.
Defined.

(** ** A recognized item without a name *)

(** X6: a recognized item without a [name] stops the card with
    [KeyError "name"].  The cursor and the fields of the card are as
    before; a checkbox has already drawn its box by then, the other three
    kinds have drawn no box and no line. *)
Theorem nameless_item_raises :
  forall (cx cw : Z) (item : Item) (t : string) (self : CardRenderer),
  item_type item = Some t -> recognized_kind t = true ->
  item_name item = None ->
  exists self',
    draw_item cx cw item self = (Raise (KeyError "name"), self') /\
    self_current_y self' = self_current_y self /\
    same_card self self' /\
    filter (fun op => is_rect op || is_line op) (code (self_c self')) =
      filter (fun op => is_rect op || is_line op) (code (self_c self))
      ++ (if String.eqb t "checkbox"
          then [rect cx (self_current_y self - 14) 18 18 true false]
          else []).
Proof.
  intros cx cw item t self Ht Hrec Hname.
  rewrite (draw_item_typed _ _ _ _ Ht).
  destruct item as [ty n o u hn]. cbn in Hname. subst n.
  destruct self as [[d ops0] x y w h r v cy].
  unfold recognized_kind in Hrec.
  kind_cases t; try discriminate Hrec;
    (eexists; split; [run_card; reflexivity|]);
    cbn [self_current_y self_c code];
    (split; [reflexivity|]); (split; [repeat split|]);
    rewrite ?filter_app; cbn [filter is_rect is_line orb app];
    rewrite ?app_nil_r; try reflexivity.
  unfold CHECKBOX_SIZE. do 3 f_equal. lia.
Qed.

Lemma nameless_item_raises_witness :
  fst (draw_item 26 254 (mkItem (Some "text") None None None None) short_card)
  = Raise (KeyError "name").
Proof.
  destruct (nameless_item_raises 26 254
              (mkItem (Some "text") None None None None) "text" short_card
              eq_refl eq_refl eq_refl) as (self' & Hrun & _).
  rewrite Hrun. reflexivity.
Defined.

(** ** Whole runs *)

Lemma draw_pages_run (routine : Routine) (layout_config : LayoutConfig)
    (quantity : Z) (cv : Canvas) :
  well_formed routine ->
  1 <= cols layout_config -> 1 <= rows layout_config -> 1 <= quantity ->
  let cards_per_page := cols layout_config * rows layout_config in
  let pages := (quantity + cards_per_page - 1) / cards_per_page in
  exists ops,
    draw_pages routine layout_config quantity pages (mkGen cv 0) =
      (Ok tt, mkGen (emits ops cv) quantity) /\
    count_op is_stamp ops = quantity /\
    count_op is_showPage ops = pages - 1 /\
    count_op is_dash_on ops = pages.
Proof.
  intros Hwf Hcols Hrows Hq cards_per_page pages.
  assert (Hcpp : 0 < cards_per_page) by (unfold cards_per_page; nia).
  pose proof (ceiling_pages quantity cards_per_page Hcpp) as Hceil.
  cbv zeta in Hceil. fold pages in Hceil.
  assert (Hpages : 1 <= pages) by nia.
  destruct (draw_pages_list_run routine layout_config quantity Hwf
              (range pages) (mkGen cv 0))
    as (ops & Hrun & Hstamps & Hbreaks & Hdash).
  cbn [gen_c card_index] in *.
  rewrite !range_length in * by lia.
  rewrite count_breaks_range in Hbreaks by lia.
  replace (advance_index 0
             (pages * (rows layout_config * cols layout_config)) quantity)
    with quantity in * by (unfold advance_index, cards_per_page in *; nia).
  exists ops. unfold draw_pages. rewrite Hrun.
  repeat split; try assumption. lia.
Qed.

Lemma suggest_layout_in_table (n : Z) :
  exists layout_config,
    LAYOUTS (suggest_layout n) = Some layout_config /\
    1 <= cols layout_config /\ 1 <= rows layout_config.
Proof.
  unfold suggest_layout.
  destruct (n <=? 8); [|destruct (n <=? 15)];
    eexists; (split; [reflexivity|cbn; lia]).
Qed.

(** X7: the command-line run with the automatic layout succeeds on
    well-formed input.  With a non-empty output path, a name, well-formed
    items and a quantity of at least one (one when it is absent), [main]
    picks the layout from the number of items, finds it in the table,
    writes to the file of the output path, draws that many cards, and
    prints the summary with the layout, its cards per page, the page count
    (the ceiling of quantity over cards per page) and the quantity. *)
Theorem auto_layout_run_succeeds :
  forall (output name : string) (items : list Item)
         (version quantity : option Z),
  truthy (Some output) = true ->
  Forall (fun item => well_formed_item item = true) items ->
  1 <= get_default quantity 1 ->
  let layout := suggest_layout (Z.of_nat (List.length items)) in
  let n := get_default quantity 1 in
  exists layout_config cv,
    LAYOUTS layout = Some layout_config /\
    main (mkArgs output "auto") (mkData (Some name) (Some items) version quantity)
      = (Ok (Summary layout (cols layout_config * rows layout_config)
               ((n + cols layout_config * rows layout_config - 1)
                / (cols layout_config * rows layout_config)) n),
         Some cv) /\
    dest cv = ToFile output /\
    count_op is_stamp (code cv) = n.
Proof.
  intros output name items version quantity Hout Hitems Hq layout n.
  destruct (suggest_layout_in_table (Z.of_nat (List.length items)))
    as (layout_config & Hlayout & Hcols & Hrows).
  fold layout in Hlayout.
  exists layout_config.
  unfold main. cbn [data_name data_items data_version data_quantity
                    args_layout args_output].
  change (String.eqb "auto" "auto") with true. cbv iota zeta.
  fold layout. fold n.
  unfold generate_pdf. rewrite Hlayout, Hout. cbv zeta. cbn [negb get_default].
  rewrite bind_run.
  destruct (draw_pages_run
              (mkRoutine (Some name) (Some items)
                 (Some (get_default version 1)))
              layout_config n (new_canvas (ToFile output)))
    as (ops & Hrun & Hstamps & _); try assumption.
  { split; [discriminate|exact Hitems]. }
  cbv zeta in Hrun. rewrite Hrun.
  unfold on_canvas, cv_call, modify. cbn [gen_c card_index].
  eexists. split; [reflexivity|]. split; [reflexivity|].
  split; [reflexivity|].
  cbn [code emit emits new_canvas app]. rewrite count_op_app, Hstamps.
  cbn. lia.
Qed.

Lemma auto_layout_run_succeeds_witness :
  exists cv,
    main (mkArgs "out.pdf" "auto") workout
      = (Ok (Summary "quarter" 4 1 4), Some cv) /\
    count_op is_stamp (code cv) = 4.
Proof.
  destruct (auto_layout_run_succeeds "out.pdf" "Workout"
              [checkbox_item "Pushups" 0; weight_item] (Some 2) (Some 4))
    as (layout_config & cv & Hlayout & Hrun & _ & Hstamps).
  - reflexivity.
  - repeat constructor.
  - cbn. lia.
  - injection Hlayout as <-. exists cv. split; [exact Hrun|exact Hstamps].
Defined.

Lemma range_nonpositive (n : Z) : n <= 0 -> range n = [].
Proof.
  intros H. unfold range.
  replace (Z.to_nat n) with 0%nat by lia. reflexivity.
Qed.

(** X8: a quantity of zero or less is no error.  For a layout of the
    table and any routine (it is never looked at), generation succeeds and
    the document holds the [save] command only: no page break, no guide,
    no card.  The summary, when one is returned, reports a page count of
    zero or less. *)
Theorem nonpositive_quantity_draws_nothing :
  forall (routine : Routine) (layout : string) (layout_config : LayoutConfig)
         (quantity : Z) (output_path : option string),
  LAYOUTS layout = Some layout_config ->
  quantity <= 0 ->
  exists result cv,
    generate_pdf routine layout quantity output_path = (Ok result, Some cv) /\
    code cv = [save] /\
    (truthy output_path = true ->
     exists pages,
       pages <= 0 /\
       result = Summary layout (cols layout_config * rows layout_config)
                  pages quantity).
Proof.
  intros routine layout layout_config quantity output_path Hlayout Hq.
  destruct (LAYOUTS_grid _ _ Hlayout) as [Hcols Hrows].
  unfold generate_pdf. rewrite Hlayout. cbv zeta.
  set (cards_per_page := cols layout_config * rows layout_config).
  assert (Hcpp : 0 < cards_per_page) by (unfold cards_per_page; nia).
  assert (Hpages : (quantity + cards_per_page - 1) / cards_per_page <= 0).
  { apply Z.lt_succ_r. apply Z.div_lt_upper_bound; lia. }
  rewrite bind_run. unfold draw_pages.
  rewrite (range_nonpositive _ Hpages).
  unfold for_each. cbn [for_in ret].
  unfold on_canvas, cv_call, modify. cbn [gen_c card_index].
  destruct (truthy output_path); cbn [negb];
    (eexists; eexists; split; [reflexivity|]);
    (split; [reflexivity|]).
  - intros _. eexists. split; [exact Hpages|reflexivity].
  - discriminate.
Qed.

Lemma nonpositive_quantity_draws_nothing_witness :
  exists result cv,
    generate_pdf (mkRoutine None None None) "half" 0 (Some "out.pdf")
      = (Ok result, Some cv) /\
    code cv = [save].
Proof.
  destruct (nonpositive_quantity_draws_nothing (mkRoutine None None None)
              "half" (mkLayout 1 2 612 396) 0 (Some "out.pdf") eq_refl)
    as (result & cv & Hrun & Hcode & _).
  - lia.
  - exists result, cv. split; assumption.
Defined.

(** X9: a layout name outside the table makes [generate_pdf] raise
    [KeyError] with that name before any canvas exists; and this is the
    only way for it to end without a canvas: with one of the three names a
    canvas is created whatever happens next. *)
Theorem unknown_layout_is_the_only_early_failure :
  forall (routine : Routine) (layout : string) (quantity : Z)
         (output_path : option string),
  (layout <> "quarter" /\ layout <> "half" /\ layout <> "full" ->
   generate_pdf routine layout quantity output_path
     = (Raise (KeyError layout), None)) /\
  (snd (generate_pdf routine layout quantity output_path) = None ->
   layout <> "quarter" /\ layout <> "half" /\ layout <> "full").
Proof.
  intros routine layout quantity output_path.
  unfold generate_pdf, LAYOUTS.
  destruct (String.eqb_spec layout "quarter") as [->|H1].
  { split; [intros (H & _); congruence|].
    cbv zeta. destruct (_ ;; _) as [[?|?] ?]; cbn; try discriminate.
    destruct (negb _); discriminate. }
  destruct (String.eqb_spec layout "half") as [->|H2].
  { split; [intros (_ & H & _); congruence|].
    cbv zeta. destruct (_ ;; _) as [[?|?] ?]; cbn; try discriminate.
    destruct (negb _); discriminate. }
  destruct (String.eqb_spec layout "full") as [->|H3].
  { split; [intros (_ & _ & H); congruence|].
    cbv zeta. destruct (_ ;; _) as [[?|?] ?]; cbn; try discriminate.
    destruct (negb _); discriminate. }
  split; [reflexivity|]. intros _. repeat split; assumption.
Qed.

Lemma unknown_layout_is_the_only_early_failure_witness :
  generate_pdf twelve_checkboxes "letter" 3 None
    = (Raise (KeyError "letter"), None).
Proof.
  apply (proj1 (unknown_layout_is_the_only_early_failure twelve_checkboxes
                  "letter" 3 None)).
  repeat split; discriminate.
Defined.

(** X10: an empty output path makes the command-line run end in
    [TypeError], after all the work is done.  The empty string counts as no
    path, so the document is drawn in full into a memory buffer (all the
    cards, then [save]), bytes are returned, and printing them as JSON
    raises. *)
Theorem empty_output_path_ends_in_type_error :
  forall (layout name : string) (items : list Item)
         (version quantity : option Z) (layout_config : LayoutConfig),
  LAYOUTS (if String.eqb layout "auto"
           then suggest_layout (Z.of_nat (List.length items))
           else layout) = Some layout_config ->
  Forall (fun item => well_formed_item item = true) items ->
  1 <= get_default quantity 1 ->
  exists msg cv,
    main (mkArgs "" layout) (mkData (Some name) (Some items) version quantity)
      = (Raise (TypeError msg), Some cv) /\
    dest cv = ToBuffer /\
    count_op is_stamp (code cv) = get_default quantity 1 /\
    last (code cv) showPage = save.
Proof.
  intros layout name items version quantity layout_config Hlayout Hitems Hq.
  destruct (LAYOUTS_grid _ _ Hlayout) as [Hcols Hrows].
  unfold main. cbn [data_name data_items data_version data_quantity
                    args_layout args_output].
  cbv zeta. unfold generate_pdf. rewrite Hlayout.
  cbv zeta. cbn [truthy negb].
  change (String.eqb "" "") with true. cbn [negb].
  rewrite bind_run.
  destruct (draw_pages_run
              (mkRoutine (Some name) (Some items)
                 (Some (get_default version 1)))
              layout_config (get_default quantity 1) (new_canvas ToBuffer))
    as (ops & Hrun & Hstamps & _); try assumption.
  { split; [discriminate|exact Hitems]. }
  cbv zeta in Hrun. rewrite Hrun.
  unfold on_canvas, cv_call, modify. cbn [gen_c card_index].
  eexists. eexists. split; [reflexivity|]. split; [reflexivity|].
  cbn [code emit emits new_canvas app].
  split.
  - rewrite count_op_app, Hstamps. cbn. lia.
  - apply last_last.
Qed.

Lemma empty_output_path_ends_in_type_error_witness :
  exists msg cv,
    main (mkArgs "" "auto") workout = (Raise (TypeError msg), Some cv).
Proof.
  destruct (empty_output_path_ends_in_type_error "auto" "Workout"
              [checkbox_item "Pushups" 0; weight_item] (Some 2) (Some 4)
              (mkLayout 2 2 306 396))
    as (msg & cv & Hrun & _).
  - reflexivity.
  - repeat constructor.
  - cbn. lia.
  - exists msg, cv. exact Hrun.
Defined.

(** ** Saving *)

Lemma draw_pages_no_save (routine : Routine) (layout_config : LayoutConfig)
    (quantity total_pages : Z) :
  Emitting set_gen_c no_save
    (draw_pages routine layout_config quantity total_pages).
Proof.
  unfold draw_pages. apply Emitting_for_each. intros page.
  unfold draw_page.
  apply Emitting_bind.
  - destruct (0 <? page); [|apply Emitting_ret].
    apply Emitting_on_canvas, Emitting_cv_call. reflexivity.
  - intros _. apply Emitting_bind.
    + apply Emitting_on_canvas. unfold draw_cut_guides. emitting.
    + intros _. apply draw_cards_emitting.
      intros op. destruct op; cbn; congruence.
Qed.

(** X11: the document is saved exactly once, as its last command, when
    generation succeeds, and not at all when it raises: what was drawn
    before an error stays on the canvas, but the canvas is never saved. *)
Theorem document_saved_once_and_only_on_success :
  forall (routine : Routine) (layout : string) (quantity : Z)
         (output_path : option string) (r : Res GenResult) (cv : Canvas),
  generate_pdf routine layout quantity output_path = (r, Some cv) ->
  match r with
  | Ok _ =>
      exists ops, code cv = ops ++ [save] /\ count_op is_save ops = 0
  | Raise _ => count_op is_save (code cv) = 0
  end.
Proof.
  intros routine layout quantity output_path r cv.
  unfold generate_pdf.
  destruct (LAYOUTS layout) as [layout_config|]; [|discriminate].
  cbv zeta. rewrite bind_run.
  match goal with
  | |- context [draw_pages ?a ?b ?c ?d (mkGen ?c0 0)] =>
      destruct (draw_pages_no_save a b c d (mkGen c0 0))
        as (r0 & ops & g' & Hops & Hrun);
      specialize (Hrun c0);
      change (set_gen_c c0 (mkGen c0 0)) with (mkGen c0 0) in Hrun;
      rewrite Hrun
  end.
  assert (Hnone : count_op is_save ops = 0).
  { apply (count_op_none is_save no_save); [|exact Hops].
    intros op. unfold no_save. destruct (is_save op); [discriminate|reflexivity]. }
  destruct r0 as [[]|e].
  - unfold on_canvas, cv_call, modify. cbn [gen_c card_index set_gen_c].
    destruct (negb (truthy output_path)); intros H; injection H as <- <-;
      exists ops; (split; [|exact Hnone]);
      destruct (truthy output_path); reflexivity.
  - intros H. injection H as <- <-. cbn [gen_c set_gen_c code emits].
    destruct (truthy output_path); cbn [code new_canvas app]; exact Hnone.
Qed.

Lemma document_saved_once_and_only_on_success_witness :
  exists cv,
    snd (generate_pdf (mkRoutine None None None) "full" 2 None) = Some cv /\
    count_op is_save (code cv) = 0.
Proof.
  eexists. split; [vm_compute; reflexivity|].
  match goal with
  | |- count_op is_save (code ?c) = 0 =>
      exact (document_saved_once_and_only_on_success
               (mkRoutine None None None) "full" 2 None
               (Raise (KeyError "name")) c eq_refl)
  end.
Defined.

(** ** The document, page by page *)

Lemma range2_empty (a b : Z) : b <= a -> range2 a b = [].
Proof.
  intros H. unfold range2. replace (Z.to_nat (b - a)) with 0%nat by lia.
  reflexivity.
Qed.

Lemma range2_cons (a b : Z) : a < b -> range2 a b = a :: range2 (a + 1) b.
Proof.
  intros H. unfold range2.
  replace (Z.to_nat (b - a)) with (S (Z.to_nat (b - (a + 1)))) by lia.
  cbn [seq map]. f_equal; [lia|].
  rewrite <- seq_shift, map_map. apply map_ext. intros k. lia.
Qed.

Lemma range2_app (a b c : Z) :
  a <= b -> b <= c -> range2 a c = range2 a b ++ range2 b c.
Proof.
  intros Hab Hbc.
  remember (Z.to_nat (b - a)) as n eqn:Hn. revert a Hab Hn.
  induction n as [|n IH]; intros a Hab Hn.
  - replace a with b by lia. rewrite (range2_empty b b) by lia. reflexivity.
  - rewrite (range2_cons a c), (range2_cons a b) by lia.
    cbn [app]. f_equal. apply IH; lia.
Qed.

Lemma card_ops_run (routine : Routine) (layout_config : LayoutConfig)
    (k : Z) :
  snd (card_run (cell_x layout_config k) (cell_y layout_config k)
         (lc_width layout_config) (lc_height layout_config) routine
         (get_default (routine_version routine) 1))
  = card_ops routine layout_config k.
Proof. unfold card_ops. reflexivity. Qed.

Section Document.
Variables (routine : Routine) (layout_config : LayoutConfig) (quantity : Z).
Hypothesis routine_ok : well_formed routine.
Hypothesis cols_pos : 1 <= cols layout_config.
Hypothesis rows_pos : 1 <= rows layout_config.
Hypothesis quantity_nonneg : 0 <= quantity.

Lemma draw_row_cells (m : Z) (r : Z) :
  0 <= m -> m mod rows layout_config = r ->
  forall (len a : nat) (cv : Canvas),
  (Z.of_nat a + Z.of_nat len <= cols layout_config) ->
  let start := m * cols layout_config + Z.of_nat a in
  for_in (map Z.of_nat (seq a len))
    (draw_cell routine layout_config quantity r)
    (mkGen cv (Z.min quantity start)) =
  (Ok tt,
   mkGen (emits (flat_map (card_ops routine layout_config)
                   (range2 (Z.min quantity start)
                      (Z.min quantity (start + Z.of_nat len)))) cv)
     (Z.min quantity (start + Z.of_nat len))).
Proof.
  intros Hm Hr len. induction len as [|len IH]; intros a cv Hfit start.
  - cbn [seq map for_in ret]. rewrite Z.add_0_r.
    rewrite range2_empty by lia. cbn [flat_map]. rewrite emits_nil.
    reflexivity.
  - cbn [seq map for_in]. rewrite bind_run. unfold draw_cell at 1.
    rewrite bind_run. unfold gets at 1. cbn [card_index].
    destruct (Z.leb_spec quantity (Z.min quantity start)) as [Hdone|Hmore].
    + cbn [ret].
      replace (Z.min quantity (start + Z.of_nat (S len)))
        with (Z.min quantity start) by lia.
      rewrite range2_empty by lia. cbn [flat_map]. rewrite emits_nil.
      reflexivity.
    + assert (Hstart : Z.min quantity start = start) by lia.
      cbv zeta. rewrite bind_run, render_card_run. cbv zeta.
      assert (Hx : Z.of_nat a * lc_width layout_config
                   = cell_x layout_config start).
      { unfold cell_x, start. f_equal.
        rewrite Z.add_comm, Z.mod_add by lia.
        symmetry. apply Z.mod_small. lia. }
      assert (Hy : PAGE_HEIGHT - (r + 1) * lc_height layout_config
                   = cell_y layout_config start).
      { unfold cell_y, start. do 3 f_equal.
        rewrite Z.div_add_l by lia.
        rewrite (Z.div_small (Z.of_nat a)) by lia.
        rewrite Z.add_0_r. symmetry. exact Hr. }
      rewrite Hx, Hy.
      destruct (card_run_well_formed (cell_x layout_config start)
                  (cell_y layout_config start)
                  (lc_width layout_config) (lc_height layout_config)
                  routine (get_default (routine_version routine) 1)
                  routine_ok) as [Hok _].
      rewrite Hok, card_ops_run. cbv beta iota.
      rewrite bind_run. unfold modify at 1. cbn [gen_c card_index ret].
      rewrite Hstart.
      replace (start + 1)
        with (Z.min quantity (m * cols layout_config + Z.of_nat (S a)))
        by (unfold start in *; lia).
      rewrite (IH (S a)) by lia.
      rewrite emits_emits.
      replace (m * cols layout_config + Z.of_nat (S a) + Z.of_nat len)
        with (start + Z.of_nat (S len)) by (unfold start; lia).
      rewrite (range2_cons start) by lia.
      cbn [flat_map].
      replace (Z.min quantity (m * cols layout_config + Z.of_nat (S a)))
        with (start + 1) by (unfold start in *; lia).
      reflexivity.
Qed.

Lemma range_seq (n : Z) : range n = map Z.of_nat (seq 0 (Z.to_nat n)).
Proof. reflexivity. Qed.

Lemma draw_rows_cells (p : Z) :
  0 <= p ->
  forall (len r0 : nat) (cv : Canvas),
  (Z.of_nat r0 + Z.of_nat len <= rows layout_config) ->
  let first := (p * rows layout_config + Z.of_nat r0) * cols layout_config in
  let next :=
    (p * rows layout_config + Z.of_nat r0 + Z.of_nat len)
    * cols layout_config in
  for_in (map Z.of_nat (seq r0 len))
    (fun row =>
       for_in (range (cols layout_config))
         (draw_cell routine layout_config quantity row) ;;
       ret Next)
    (mkGen cv (Z.min quantity first)) =
  (Ok tt,
   mkGen (emits (flat_map (card_ops routine layout_config)
                   (range2 (Z.min quantity first) (Z.min quantity next))) cv)
     (Z.min quantity next)).
Proof.
  intros Hp len. induction len as [|len IH]; intros r0 cv Hfit first next.
  - cbn [seq map for_in ret]. unfold next, first. rewrite Z.add_0_r.
    rewrite range2_empty by lia. cbn [flat_map]. rewrite emits_nil.
    reflexivity.
  - cbn [seq map for_in]. rewrite bind_run, bind_run.
    pose proof (draw_row_cells (p * rows layout_config + Z.of_nat r0)
                  (Z.of_nat r0) ltac:(nia)) as Hrow.
    rewrite Z.add_comm, Z.mod_add, Z.mod_small in Hrow by lia.
    specialize (Hrow eq_refl (Z.to_nat (cols layout_config)) 0%nat cv
                  ltac:(lia)).
    cbv zeta in Hrow. rewrite Z.add_0_r in Hrow.
    rewrite <- (range_seq (cols layout_config)) in Hrow.
    rewrite (Z.add_comm (Z.of_nat r0)) in Hrow.
    fold first in Hrow. rewrite Hrow. cbn [ret].
    set (mid := (p * rows layout_config + Z.of_nat (S r0))
                * cols layout_config).
    replace (first + Z.of_nat (Z.to_nat (cols layout_config))) with mid
      by (unfold mid, first; nia).
    pose proof (IH (S r0) (emits (flat_map (card_ops routine layout_config)
                                    (range2 (Z.min quantity first)
                                       (Z.min quantity mid))) cv)
                  ltac:(lia)) as Hrest.
    cbv zeta in Hrest. fold mid in Hrest.
    replace ((p * rows layout_config + Z.of_nat (S r0) + Z.of_nat len)
             * cols layout_config) with next in Hrest
      by (unfold next; nia).
    rewrite Hrest, emits_emits, <- flat_map_app.
    rewrite <- range2_app; [reflexivity| |]; unfold mid, first, next; nia.
Qed.

Lemma draw_pages_cells :
  forall (len p0 : nat) (cv : Canvas),
  let cards_per_page := cols layout_config * rows layout_config in
  for_in (map Z.of_nat (seq p0 len))
    (fun page =>
       draw_page routine layout_config quantity page ;; ret Next)
    (mkGen cv (Z.min quantity (Z.of_nat p0 * cards_per_page))) =
  (Ok tt,
   mkGen (emits (flat_map (page_ops routine layout_config quantity)
                   (map Z.of_nat (seq p0 len))) cv)
     (Z.min quantity ((Z.of_nat p0 + Z.of_nat len) * cards_per_page))).
Proof.
  intros len. induction len as [|len IH]; intros p0 cv cards_per_page.
  - cbn [seq map for_in ret flat_map]. rewrite Z.add_0_r, emits_nil.
    reflexivity.
  - cbn [seq map for_in flat_map]. rewrite bind_run, bind_run, draw_page_run.
    unfold draw_cards, for_each at 1, set_gen_c.
    cbn [gen_c card_index].
    pose proof (draw_rows_cells (Z.of_nat p0) ltac:(lia)
                  (Z.to_nat (rows layout_config)) 0%nat) as Hrows.
    cbv zeta in Hrows. rewrite !Z.add_0_r in Hrows.
    rewrite <- (range_seq (rows layout_config)) in Hrows.
    replace (Z.of_nat p0 * rows layout_config * cols layout_config)
      with (Z.of_nat p0 * cards_per_page) in Hrows
      by (unfold cards_per_page; ring).
    replace ((Z.of_nat p0 * rows layout_config
              + Z.of_nat (Z.to_nat (rows layout_config)))
             * cols layout_config)
      with ((Z.of_nat p0 + 1) * cards_per_page) in Hrows
      by (unfold cards_per_page; nia).
    rewrite Hrows by lia. cbn [ret].
    replace ((Z.of_nat p0 + 1) * cards_per_page)
      with (Z.of_nat (S p0) * cards_per_page) by lia.
    rewrite IH, !emits_emits.
    fold cards_per_page. f_equal. f_equal.
    + f_equal. unfold page_ops, guide_ops. fold cards_per_page.
      replace (Z.of_nat (S p0) * cards_per_page)
        with ((Z.of_nat p0 + 1) * cards_per_page) by lia.
      rewrite <- !app_assoc. reflexivity.
    + f_equal. lia.
Qed.
End Document.

Lemma generate_pdf_document (routine : Routine) (layout : string)
    (layout_config : LayoutConfig) (quantity : Z)
    (output_path : option string) :
  well_formed routine ->
  LAYOUTS layout = Some layout_config ->
  0 <= quantity ->
  let cards_per_page := cols layout_config * rows layout_config in
  let pages := (quantity + cards_per_page - 1) / cards_per_page in
  exists result cv,
    generate_pdf routine layout quantity output_path = (Ok result, Some cv) /\
    code cv =
      flat_map (page_ops routine layout_config quantity) (range pages)
      ++ [save].
Proof.
  intros Hwf Hlayout Hq cards_per_page pages.
  destruct (LAYOUTS_grid _ _ Hlayout) as [Hcols Hrows].
  unfold generate_pdf. rewrite Hlayout. cbv zeta.
  fold cards_per_page. fold pages.
  rewrite bind_run. unfold draw_pages, for_each.
  rewrite (range_seq pages).
  match goal with
  | |- context [mkGen ?c 0] =>
      pose proof (draw_pages_cells routine layout_config quantity Hwf Hcols
                    Hrows Hq (Z.to_nat pages) 0%nat c) as Hrun
  end.
  cbv zeta in Hrun. replace (Z.min quantity (Z.of_nat 0 * _)) with 0 in Hrun
    by lia.
  rewrite Hrun.
  unfold on_canvas, cv_call, modify. cbn [gen_c card_index].
  rewrite emit_emits, emits_emits.
  destruct (truthy output_path); cbn [negb];
    (eexists; eexists; split; [reflexivity|]);
    cbn [code emits new_canvas app]; reflexivity.
Qed.

Lemma card_ops_stamp (routine : Routine) (layout_config : LayoutConfig)
    (k : Z) :
  well_formed routine ->
  filter is_stamp (card_ops routine layout_config k) =
  [version_stamp (cell_x layout_config k) (cell_y layout_config k)
     (lc_width layout_config) (get_default (routine_version routine) 1)].
Proof.
  intros Hwf. unfold card_ops.
  destruct (card_run_well_formed (cell_x layout_config k)
              (cell_y layout_config k) (lc_width layout_config)
              (lc_height layout_config) routine
              (get_default (routine_version routine) 1) Hwf) as [Hok _].
  destruct (card_run_shape (cell_x layout_config k)
              (cell_y layout_config k) (lc_width layout_config)
              (lc_height layout_config) routine
              (get_default (routine_version routine) 1))
    as (pre & Hpre & [Hrun|[e Hrun]]); rewrite Hrun in Hok |- *;
    [|discriminate].
  cbn [snd]. rewrite filter_app.
  replace (filter is_stamp pre) with (@nil Op).
  - reflexivity.
  - symmetry. clear -Hpre.
    induction Hpre as [|op ops Hop _ IH]; [reflexivity|].
    cbn [filter]. rewrite (body_op_no_stamp _ Hop). exact IH.
Qed.

Lemma page_ops_stamps (routine : Routine) (layout_config : LayoutConfig)
    (quantity page : Z) :
  well_formed routine ->
  let cards_per_page := cols layout_config * rows layout_config in
  filter is_stamp (page_ops routine layout_config quantity page) =
  map (fun k => version_stamp (cell_x layout_config k)
                  (cell_y layout_config k) (lc_width layout_config)
                  (get_default (routine_version routine) 1))
    (range2 (Z.min quantity (page * cards_per_page))
       (Z.min quantity ((page + 1) * cards_per_page))).
Proof.
  intros Hwf cards_per_page. unfold page_ops, guide_ops.
  fold cards_per_page.
  generalize (range2 (Z.min quantity (page * cards_per_page))
                (Z.min quantity ((page + 1) * cards_per_page))).
  intros cells.
  rewrite !filter_app.
  replace (filter is_stamp (if 0 <? page then [showPage] else []))
    with (@nil Op) by (destruct (0 <? page); reflexivity).
  replace (filter is_stamp
             (map (vertical_guide layout_config)
                (range2 1 (cols layout_config)))) with (@nil Op).
  2:{ induction (range2 1 (cols layout_config)); [reflexivity|assumption]. }
  replace (filter is_stamp
             (map (horizontal_guide layout_config)
                (range2 1 (rows layout_config)))) with (@nil Op).
  2:{ induction (range2 1 (rows layout_config)); [reflexivity|assumption]. }
  cbn [filter is_stamp app].
  induction cells as [|k cells IH]; [reflexivity|].
  cbn [flat_map map]. rewrite filter_app, IH, (card_ops_stamp _ _ _ Hwf).
  reflexivity.
Qed.

Lemma pages_stamps (routine : Routine) (layout_config : LayoutConfig)
    (quantity : Z) :
  well_formed routine ->
  1 <= cols layout_config -> 1 <= rows layout_config -> 0 <= quantity ->
  let cards_per_page := cols layout_config * rows layout_config in
  forall (len : nat),
  filter is_stamp
    (flat_map (page_ops routine layout_config quantity)
       (map Z.of_nat (seq 0 len))) =
  map (fun k => version_stamp (cell_x layout_config k)
                  (cell_y layout_config k) (lc_width layout_config)
                  (get_default (routine_version routine) 1))
    (range2 0 (Z.min quantity (Z.of_nat len * cards_per_page))).
Proof.
  intros Hwf Hcols Hrows Hq cards_per_page len.
  assert (Hcpp : 0 < cards_per_page) by (unfold cards_per_page; nia).
  induction len as [|len IH].
  - cbn [seq map flat_map filter]. rewrite range2_empty by lia. reflexivity.
  - rewrite seq_S, map_app, flat_map_app, filter_app, IH.
    cbn [map flat_map plus]. rewrite app_nil_r.
    rewrite (page_ops_stamps _ _ _ _ Hwf). fold cards_per_page.
    rewrite <- map_app.
    replace ((Z.of_nat len + 1) * cards_per_page)
      with (Z.of_nat (S len) * cards_per_page) by lia.
    rewrite <- range2_app by nia. reflexivity.
Qed.

(** X12: the cell of every card.  For a well-formed routine, a layout of the
    table and a quantity that is not negative, the document is, page after
    page, the page break (after the first page), the cut guides, and the
    cards [page * cards_per_page .. (page+1) * cards_per_page - 1] that are
    below the quantity, then [save]; card [k] (counted from 0) is drawn
    with its origin at column [k mod cols] and row [(k / cols) mod rows]
    from the top of its page, so cards fill a page row by row from the top
    left.  Its version stamp sits there, and the stamps come in card
    order. *)
Theorem cards_fill_pages_row_by_row :
  forall (routine : Routine) (layout : string) (layout_config : LayoutConfig)
         (quantity : Z) (output_path : option string),
  well_formed routine ->
  LAYOUTS layout = Some layout_config ->
  0 <= quantity ->
  let cards_per_page := cols layout_config * rows layout_config in
  let pages := (quantity + cards_per_page - 1) / cards_per_page in
  exists result cv,
    generate_pdf routine layout quantity output_path = (Ok result, Some cv) /\
    code cv =
      flat_map (page_ops routine layout_config quantity) (range pages)
      ++ [save] /\
    filter is_stamp (code cv) =
      map (fun k => version_stamp (cell_x layout_config k)
                      (cell_y layout_config k) (lc_width layout_config)
                      (get_default (routine_version routine) 1))
        (range2 0 quantity).
Proof.
  intros routine layout layout_config quantity output_path Hwf Hlayout Hq
    cards_per_page pages.
  destruct (LAYOUTS_grid _ _ Hlayout) as [Hcols Hrows].
  assert (Hcpp : 0 < cards_per_page) by (unfold cards_per_page; nia).
  destruct (generate_pdf_document routine layout layout_config quantity
              output_path Hwf Hlayout Hq) as (result & cv & Hrun & Hcode).
  exists result, cv. split; [exact Hrun|]. split; [exact Hcode|].
  rewrite Hcode, filter_app. cbn [filter is_stamp]. rewrite app_nil_r.
  fold cards_per_page. fold pages.
  rewrite (range_seq pages).
  rewrite (pages_stamps routine layout_config quantity Hwf Hcols Hrows Hq).
  fold cards_per_page.
  assert (Hpages : 0 <= pages).
  { unfold pages. apply Z.div_pos; lia. }
  rewrite Z2Nat.id by exact Hpages.
  assert (Hfit : quantity <= pages * cards_per_page).
  { unfold pages.
    pose proof (Z.mod_pos_bound (quantity + cards_per_page - 1)
                  cards_per_page Hcpp).
    pose proof (Z.div_mod (quantity + cards_per_page - 1) cards_per_page).
    nia. }
  rewrite Z.min_l by exact Hfit. reflexivity.
Qed.

Lemma cards_fill_pages_row_by_row_witness :
  exists result cv,
    generate_pdf (twelve_checkboxes) "quarter" 5 None = (Ok result, Some cv) /\
    filter is_stamp (code cv) =
      [drawRightString 280 418 "v1"; drawRightString 586 418 "v1";
       drawRightString 280 22 "v1"; drawRightString 586 22 "v1";
       drawRightString 280 418 "v1"].
Proof.
  destruct (cards_fill_pages_row_by_row twelve_checkboxes "quarter"
              (mkLayout 2 2 306 396) 5 None)
    as (result & cv & Hrun & _ & Hstamps).
  - split; [discriminate|]. cbn. repeat constructor.
  - reflexivity.
  - lia.
  - exists result, cv. split; [exact Hrun|]. rewrite Hstamps. reflexivity.
Defined.

Lemma dashed_lines_card (ops rest : list Op) :
  Forall (fun op => card_op op = true) ops ->
  dashed_lines [] (ops ++ rest) = dashed_lines [] rest.
Proof.
  induction 1 as [|op ops Hop _ IH]; [reflexivity|].
  destruct op; try discriminate Hop; cbn [app dashed_lines]; exact IH.
Qed.

Lemma card_ops_card_op (routine : Routine) (layout_config : LayoutConfig)
    (cells : list Z) :
  Forall (fun op => card_op op = true)
    (flat_map (card_ops routine layout_config) cells).
Proof.
  induction cells as [|k cells IH]; [constructor|].
  cbn [flat_map]. apply Forall_app. split; [|exact IH].
  unfold card_ops. apply card_run_card_op.
Qed.

Lemma dashed_lines_page (routine : Routine) (layout_config : LayoutConfig)
    (quantity page : Z) (dash : list Z) (rest : list Op) :
  dashed_lines dash (page_ops routine layout_config quantity page ++ rest) =
  map (vertical_guide layout_config) (range2 1 (cols layout_config)) ++
  map (horizontal_guide layout_config) (range2 1 (rows layout_config)) ++
  dashed_lines [] rest.
Proof.
  unfold page_ops, guide_ops. cbv zeta.
  rewrite <- !app_assoc.
  replace (dashed_lines dash
             ((if 0 <? page then [showPage] else []) ++
              [setStrokeColor GRAY; setLineWidth (1 # 2); setDash [6; 3]] ++
              map (vertical_guide layout_config)
                (range2 1 (cols layout_config)) ++
              map (horizontal_guide layout_config)
                (range2 1 (rows layout_config)) ++
              [setDash []] ++
              flat_map (card_ops routine layout_config)
                (range2
                   (Z.min quantity
                      (page * (cols layout_config * rows layout_config)))
                   (Z.min quantity
                      ((page + 1) *
                       (cols layout_config * rows layout_config)))) ++
              rest))
    with (dashed_lines [6; 3]
            (map (vertical_guide layout_config)
               (range2 1 (cols layout_config)) ++
             map (horizontal_guide layout_config)
               (range2 1 (rows layout_config)) ++
             [setDash []] ++
             flat_map (card_ops routine layout_config)
               (range2
                  (Z.min quantity
                     (page * (cols layout_config * rows layout_config)))
                  (Z.min quantity
                     ((page + 1) *
                      (cols layout_config * rows layout_config)))) ++
             rest))
    by (destruct (0 <? page); reflexivity).
  rewrite dashed_lines_guides by reflexivity.
  rewrite dashed_lines_guides by reflexivity.
  cbn [app dashed_lines].
  rewrite dashed_lines_card by apply card_ops_card_op.
  reflexivity.
Qed.

(** X13: in the whole document the only lines drawn under a dash pattern are
    the cut guides, one set per page: no line of any card (the rule under
    the header, the underline of a number or text item) is dashed, whatever
    was drawn before it. *)
Theorem only_cut_guides_are_dashed :
  forall (routine : Routine) (layout : string) (layout_config : LayoutConfig)
         (quantity : Z) (output_path : option string),
  well_formed routine ->
  LAYOUTS layout = Some layout_config ->
  0 <= quantity ->
  let cards_per_page := cols layout_config * rows layout_config in
  let pages := (quantity + cards_per_page - 1) / cards_per_page in
  exists result cv,
    generate_pdf routine layout quantity output_path = (Ok result, Some cv) /\
    dashed_lines [] (code cv) =
      flat_map (fun _ : Z =>
                  map (vertical_guide layout_config)
                    (range2 1 (cols layout_config)) ++
                  map (horizontal_guide layout_config)
                    (range2 1 (rows layout_config)))
        (range pages).
Proof.
  intros routine layout layout_config quantity output_path Hwf Hlayout Hq
    cards_per_page pages.
  destruct (generate_pdf_document routine layout layout_config quantity
              output_path Hwf Hlayout Hq) as (result & cv & Hrun & Hcode).
  exists result, cv. split; [exact Hrun|].
  rewrite Hcode. fold cards_per_page. fold pages.
  generalize (@nil Z) as dash.
  induction (range pages) as [|page l IH]; intros dash; [reflexivity|].
  cbn [flat_map]. rewrite <- !app_assoc, dashed_lines_page.
  rewrite IH. reflexivity.
Qed.

Lemma only_cut_guides_are_dashed_witness :
  exists result cv,
    generate_pdf twelve_checkboxes "quarter" 5 None = (Ok result, Some cv) /\
    dashed_lines [] (code cv) =
      [line 306 0 306 792; line 0 396 612 396;
       line 306 0 306 792; line 0 396 612 396].
Proof.
  destruct (only_cut_guides_are_dashed twelve_checkboxes "quarter"
              (mkLayout 2 2 306 396) 5 None)
    as (result & cv & Hrun & Hdash).
  - split; [discriminate|]. cbn. repeat constructor.
  - reflexivity.
  - lia.
  - exists result, cv. split; [exact Hrun|]. rewrite Hdash. reflexivity.
Defined.

(** X14: every cell lies on the page and the cells of a page do not coincide.
    For a layout of the table, the cell of card [k] (where the document
    draws it) is inside the letter page on all four sides, and two
    different cards of the same page have different cells. *)
Theorem cells_on_page_and_distinct :
  forall (layout : string) (layout_config : LayoutConfig) (k1 k2 : Z),
  LAYOUTS layout = Some layout_config ->
  let cards_per_page := cols layout_config * rows layout_config in
  (0 <= cell_x layout_config k1 /\
   cell_x layout_config k1 + lc_width layout_config <= PAGE_WIDTH /\
   0 <= cell_y layout_config k1 /\
   cell_y layout_config k1 + lc_height layout_config <= PAGE_HEIGHT) /\
  (k1 / cards_per_page = k2 / cards_per_page ->
   cell_x layout_config k1 = cell_x layout_config k2 ->
   cell_y layout_config k1 = cell_y layout_config k2 ->
   k1 = k2).
Proof.
  intros layout layout_config k1 k2 Hlayout.
  unfold LAYOUTS in Hlayout.
  repeat match type of Hlayout with
         | (if ?b then _ else _) = _ => destruct b
         end;
    inversion Hlayout; subst; clear Hlayout;
    cbv [cell_x cell_y cols rows lc_width lc_height]; cbv zeta;
    change PAGE_WIDTH with 612; change PAGE_HEIGHT with 792;
    try change (1224 / 4) with 306; try change (1224 / 2) with 612;
    try change (792 / 2) with 396;
    (split; [|intros Hp Hx Hy]); Z.div_mod_to_equations; lia.
Qed.

Lemma cells_on_page_and_distinct_witness :
  0 <= cell_x (mkLayout 2 2 306 396) 7 /\
  cell_y (mkLayout 2 2 306 396) 7 + 396 <= PAGE_HEIGHT.
Proof.
  destruct (cells_on_page_and_distinct "quarter" (mkLayout 2 2 306 396) 7 7)
    as [(Hx & _ & _ & Hy) _].
  - reflexivity.
  - split; [exact Hx|exact Hy].
Defined.

(** ** A card is the same drawing in every cell *)

Section Translation.
Variables dx dy : Z.

Lemma Shifts_ret {A} (a : A) : Shifts dx dy (ret a) (ret a).
Proof. intros self. reflexivity. Qed.

Lemma Shifts_raise {A} (e : Exn) : Shifts dx dy (@raise _ A e) (raise e).
Proof. intros self. reflexivity. Qed.

Lemma Shifts_bind {A B} (m m' : M CardRenderer A)
    (k k' : A -> M CardRenderer B) :
  Shifts dx dy m m' -> (forall a, Shifts dx dy (k a) (k' a)) ->
  Shifts dx dy (bind m k) (bind m' k').
Proof.
  intros Hm Hk self. rewrite !bind_run, Hm.
  destruct (m self) as [[a|e] self1]; cbn [fst snd]; [apply Hk|reflexivity].
Qed.

Lemma Shifts_getitem {A B} (key : string) (v : option A)
    (k k' : A -> M CardRenderer B) :
  (forall a, Shifts dx dy (k a) (k' a)) ->
  Shifts dx dy (bind (getitem key v) k) (bind (getitem key v) k').
Proof.
  intros Hk. apply Shifts_bind; [|exact Hk].
  destruct v; intros self; reflexivity.
Qed.

Lemma Shifts_gets_x {B} (k k' : Z -> M CardRenderer B) :
  (forall x, Shifts dx dy (k x) (k' (x + dx))) ->
  Shifts dx dy (bind (gets self_x) k) (bind (gets self_x) k').
Proof. intros Hk self. rewrite !bind_run. apply Hk. Qed.

Lemma Shifts_gets_y {B} (k k' : Z -> M CardRenderer B) :
  (forall y, Shifts dx dy (k y) (k' (y + dy))) ->
  Shifts dx dy (bind (gets self_y) k) (bind (gets self_y) k').
Proof. intros Hk self. rewrite !bind_run. apply Hk. Qed.

Lemma Shifts_gets_current_y {B} (k k' : Z -> M CardRenderer B) :
  (forall current_y, Shifts dx dy (k current_y) (k' (current_y + dy))) ->
  Shifts dx dy (bind (gets self_current_y) k) (bind (gets self_current_y) k').
Proof. intros Hk self. rewrite !bind_run. apply Hk. Qed.

Lemma Shifts_gets_width {B} (k k' : Z -> M CardRenderer B) :
  (forall width, Shifts dx dy (k width) (k' width)) ->
  Shifts dx dy (bind (gets self_width) k) (bind (gets self_width) k').
Proof. intros Hk self. rewrite !bind_run. apply Hk. Qed.

Lemma Shifts_gets_height {B} (k k' : Z -> M CardRenderer B) :
  (forall height, Shifts dx dy (k height) (k' height)) ->
  Shifts dx dy (bind (gets self_height) k) (bind (gets self_height) k').
Proof. intros Hk self. rewrite !bind_run. apply Hk. Qed.

Lemma Shifts_gets_routine {B} (k k' : Routine -> M CardRenderer B) :
  (forall routine, Shifts dx dy (k routine) (k' routine)) ->
  Shifts dx dy (bind (gets self_routine) k) (bind (gets self_routine) k').
Proof. intros Hk self. rewrite !bind_run. apply Hk. Qed.

Lemma Shifts_gets_version {B} (k k' : Z -> M CardRenderer B) :
  (forall version, Shifts dx dy (k version) (k' version)) ->
  Shifts dx dy (bind (gets self_version) k) (bind (gets self_version) k').
Proof. intros Hk self. rewrite !bind_run. apply Hk. Qed.

Lemma Shifts_c_call (op op' : Op) :
  op' = shift_op dx dy op -> Shifts dx dy (c_call op) (c_call op').
Proof.
  intros -> self. unfold c_call, modify, set_c, emit, shift_card.
  cbn [fst snd self_c self_x self_y self_width self_height self_routine
       self_version self_current_y dest code].
  rewrite map_app. reflexivity.
Qed.

Lemma Shifts_current_y_sub (d : Z) :
  Shifts dx dy (current_y_sub d) (current_y_sub d).
Proof.
  intros self. unfold current_y_sub, modify, set_current_y, shift_card.
  cbn [fst snd self_c self_x self_y self_width self_height self_routine
       self_version self_current_y dest code].
  do 2 f_equal. lia.
Qed.

Lemma Shifts_for_in {A} (l : list A) (body body' : A -> M CardRenderer LoopCtl) :
  (forall a, Shifts dx dy (body a) (body' a)) ->
  Shifts dx dy (for_in l body) (for_in l body').
Proof.
  intros Hbody. induction l as [|a l IH]; cbn [for_in].
  - apply Shifts_ret.
  - apply Shifts_bind; [apply Hbody|].
    intros [|]; [exact IH|apply Shifts_ret].
Qed.

Lemma Shifts_for_each {A} (l : list A) (body body' : A -> M CardRenderer unit) :
  (forall a, Shifts dx dy (body a) (body' a)) ->
  Shifts dx dy (for_each l body) (for_each l body').
Proof.
  intros Hbody. unfold for_each. apply Shifts_for_in.
  intros a. apply Shifts_bind; [apply Hbody|]. intros _. apply Shifts_ret.
Qed.

Ltac shifts_step :=
  cbv beta zeta;
  match goal with
  | |- Shifts _ _ (ret _) (ret _) => apply Shifts_ret
  | |- Shifts _ _ (c_call _) (c_call _) =>
      apply Shifts_c_call; cbn [shift_op]; first [reflexivity|f_equal; lia]
  | |- Shifts _ _ (current_y_sub _) (current_y_sub _) =>
      apply Shifts_current_y_sub
  | |- Shifts _ _ (bind (gets self_x) _) _ => apply Shifts_gets_x; intros ?
  | |- Shifts _ _ (bind (gets self_y) _) _ => apply Shifts_gets_y; intros ?
  | |- Shifts _ _ (bind (gets self_current_y) _) _ =>
      apply Shifts_gets_current_y; intros ?
  | |- Shifts _ _ (bind (gets self_width) _) _ =>
      apply Shifts_gets_width; intros ?
  | |- Shifts _ _ (bind (gets self_height) _) _ =>
      apply Shifts_gets_height; intros ?
  | |- Shifts _ _ (bind (gets self_routine) _) _ =>
      apply Shifts_gets_routine; intros ?
  | |- Shifts _ _ (bind (gets self_version) _) _ =>
      apply Shifts_gets_version; intros ?
  | |- Shifts _ _ (bind (getitem _ _) _) _ => apply Shifts_getitem; intros ?
  | |- Shifts _ _ (bind _ _) (bind _ _) => apply Shifts_bind; [|intros ?]
  | |- Shifts _ _ (for_each _ _) (for_each _ _) =>
      apply Shifts_for_each; intros ?
  | |- Shifts _ _ (if ?b then _ else _) (if ?b then _ else _) => destruct b
  end.

Ltac shifts := repeat shifts_step.

Lemma _draw_alignment_markers_shifts :
  Shifts dx dy _draw_alignment_markers _draw_alignment_markers.
Proof.
  unfold _draw_alignment_markers. do 5 shifts_step.
  cbv beta zeta. cbn [for_each for_in]. shifts.
Qed.

Lemma _draw_header_shifts : Shifts dx dy _draw_header _draw_header.
Proof. unfold _draw_header. shifts. Qed.

Lemma _draw_checkbox_item_shifts (x x' : Z) (item : Item) :
  x' = x + dx ->
  Shifts dx dy (_draw_checkbox_item x item) (_draw_checkbox_item x' item).
Proof. intros ->. unfold _draw_checkbox_item. shifts. Qed.

Lemma _draw_number_item_shifts (x x' : Z) (item : Item) :
  x' = x + dx ->
  Shifts dx dy (_draw_number_item x item) (_draw_number_item x' item).
Proof. intros ->. unfold _draw_number_item. shifts. Qed.

Lemma _draw_scale_item_shifts (x x' content_width : Z) (item : Item) :
  x' = x + dx ->
  Shifts dx dy (_draw_scale_item x content_width item)
    (_draw_scale_item x' content_width item).
Proof. intros ->. unfold _draw_scale_item. shifts. Qed.

Lemma _draw_text_item_shifts (x x' content_width : Z) (item : Item) :
  x' = x + dx ->
  Shifts dx dy (_draw_text_item x content_width item)
    (_draw_text_item x' content_width item).
Proof. intros ->. unfold _draw_text_item. shifts. Qed.

Lemma draw_item_shifts (content_x content_x' content_width : Z)
    (item : Item) :
  content_x' = content_x + dx ->
  Shifts dx dy (draw_item content_x content_width item)
    (draw_item content_x' content_width item).
Proof.
  intros Hx. unfold draw_item. apply Shifts_getitem. intros t.
  destruct (String.eqb t "checkbox");
    [apply _draw_checkbox_item_shifts; exact Hx|].
  destruct (String.eqb t "number");
    [apply _draw_number_item_shifts; exact Hx|].
  destruct (String.eqb t "scale");
    [apply _draw_scale_item_shifts; exact Hx|].
  destruct (String.eqb t "text");
    [apply _draw_text_item_shifts; exact Hx|].
  apply Shifts_ret.
Qed.

Lemma _draw_items_body_shifts (content_x content_x' content_width min_y
    min_y' : Z) (item : Item) :
  content_x' = content_x + dx -> min_y' = min_y + dy ->
  Shifts dx dy (_draw_items_body content_x content_width min_y item)
    (_draw_items_body content_x' content_width min_y' item).
Proof.
  intros Hx ->. unfold _draw_items_body.
  apply Shifts_gets_current_y. intros current_y.
  replace (current_y + dy <? min_y + dy) with (current_y <? min_y)
    by (destruct (Z.ltb_spec current_y min_y);
        destruct (Z.ltb_spec (current_y + dy) (min_y + dy)); lia).
  destruct (current_y <? min_y); [apply Shifts_ret|].
  apply Shifts_bind; [apply draw_item_shifts; exact Hx|].
  intros _. apply Shifts_ret.
Qed.

Lemma _draw_items_shifts : Shifts dx dy _draw_items _draw_items.
Proof.
  unfold _draw_items. do 4 shifts_step. cbv beta zeta.
  apply Shifts_for_in. intros item.
  apply _draw_items_body_shifts; lia.
Qed.

Lemma _draw_version_shifts : Shifts dx dy _draw_version _draw_version.
Proof. unfold _draw_version. shifts. Qed.

Lemma draw_shifts : Shifts dx dy draw draw.
Proof.
  unfold draw.
  apply Shifts_bind; [apply _draw_alignment_markers_shifts|intros _].
  apply Shifts_bind; [apply _draw_header_shifts|intros _].
  apply Shifts_bind; [apply _draw_items_shifts|intros _].
  apply _draw_version_shifts.
Qed.

End Translation.

(** X15: a card is the same drawing wherever it is placed.  Drawing a card
    with its origin moved by [(dx, dy)] has the same outcome (it succeeds,
    or raises the same error), and sends the same commands with every
    coordinate moved by [(dx, dy)]: sizes, texts, colours, fonts and the
    place where the items stop are those of the card at the origin. *)
Theorem card_moves_with_its_origin :
  forall (x y dx dy width height : Z) (routine : Routine) (version : Z),
  card_run (x + dx) (y + dy) width height routine version =
  (fst (card_run x y width height routine version),
   map (shift_op dx dy) (snd (card_run x y width height routine version))).
Proof.
  intros x y dx dy width height routine version. unfold card_run.
  replace (CardRenderer_init (new_canvas ToBuffer) (x + dx) (y + dy) width
             height routine version)
    with (shift_card dx dy
            (CardRenderer_init (new_canvas ToBuffer) x y width height routine
               version))
    by (unfold shift_card, CardRenderer_init, new_canvas;
        cbn [self_c self_x self_y self_width self_height self_routine
             self_version self_current_y dest code map];
        f_equal; lia).
  rewrite (draw_shifts dx dy).
  destruct (draw _) as [r self']. reflexivity.
Qed.

(** ** Nothing is drawn across the sides of a card *)

Lemma Emitting_for_each_In {A} (okop : Op -> bool) (l : list A)
    (body : A -> M CardRenderer unit) :
  (forall a, In a l -> Emitting set_c okop (body a)) ->
  Emitting set_c okop (for_each l body).
Proof.
  unfold for_each. induction l as [|a l IH]; intros Hbody; cbn [for_in].
  - apply Emitting_ret.
  - apply Emitting_bind.
    + apply Emitting_bind; [apply Hbody; left; reflexivity|].
      intros _. apply Emitting_ret.
    + intros [|]; [|apply Emitting_ret].
      apply IH. intros b Hb. apply Hbody. right. exact Hb.
Qed.

Ltac span_arith :=
  cbn [in_span];
  unfold CHECKBOX_SIZE, NUMBER_BOX_WIDTH, NUMBER_BOX_HEIGHT, SCALE_BOX_SIZE,
    MARGIN, MARKER_RADIUS in *;
  rewrite ?andb_true_iff, ?Z.leb_le;
  first [reflexivity | repeat split; lia].

Ltac spanning :=
  repeat (cbv zeta;
    match goal with
    | |- Emitting _ _ (bind (getitem _ _) _) =>
        apply Emitting_bind; [apply Emitting_getitem|intros ?]
    | |- Emitting _ _ (bind (gets _) _) =>
        apply Emitting_bind; [apply Emitting_gets; reflexivity|intros ?]
    | |- Emitting _ _ (bind _ _) => apply Emitting_bind; [|intros _]
    | |- Emitting _ _ (ret _) => apply Emitting_ret
    | |- Emitting _ _ (c_call _) => apply Emitting_c_call; span_arith
    | |- Emitting _ _ (current_y_sub _) => apply Emitting_current_y_sub
    | |- Emitting _ _ (if ?b then _ else _) => destruct b
    end).

Lemma draw_item_in_span (lo hi content_x content_width : Z) (item : Item) :
  lo <= content_x -> content_x + 144 <= hi ->
  35 <= content_width -> content_x + content_width <= hi ->
  Emitting set_c (in_span lo hi) (draw_item content_x content_width item).
Proof.
  intros Hlo Hboxes Hnotes Hhi.
  unfold draw_item. apply Emitting_bind; [apply Emitting_getitem|intros t].
  destruct (String.eqb t "checkbox");
    [unfold _draw_checkbox_item; spanning|].
  destruct (String.eqb t "number"); [unfold _draw_number_item; spanning|].
  destruct (String.eqb t "scale").
  { unfold _draw_scale_item. spanning.
    apply Emitting_for_each_In. intros i Hi. rewrite range_5 in Hi.
    assert (0 <= i <= 4) by (cbn [In] in Hi; lia).
    change (SCALE_BOX_SIZE / 2) with 12.
    spanning. }
  destruct (String.eqb t "text"); [|apply Emitting_ret].
  unfold _draw_text_item. spanning.
  apply Emitting_for_each. intros _. spanning.
Qed.

Lemma _draw_items_in_span (self : CardRenderer) :
  170 <= self_width self ->
  exists r ops self',
    Forall (fun op => in_span (self_x self) (self_x self + self_width self) op
                      = true) ops /\
    _draw_items self = (r, set_c (emits ops (self_c self)) self') /\
    same_card self self'.
Proof.
  intros Hwidth.
  assert (Hloop : Emitting set_c
                    (in_span (self_x self) (self_x self + self_width self))
                    (for_in (sorted order_key (items_of self))
                       (_draw_items_body (content_x_of self)
                          (content_width_of self) (min_y_of self)))).
  { apply Emitting_for_in. intros item. unfold _draw_items_body.
    apply Emitting_bind; [apply Emitting_gets; reflexivity|intros cy].
    destruct (cy <? min_y_of self); [apply Emitting_ret|].
    apply Emitting_bind; [|intros _; apply Emitting_ret].
    apply draw_item_in_span;
      unfold content_x_of, content_width_of, MARGIN, MARKER_RADIUS; lia. }
  destruct (Hloop self) as (r & ops & self' & Hops & Hrun).
  specialize (Hrun (self_c self)).
  replace (set_c (self_c self) self) with self in Hrun
    by (destruct self; reflexivity).
  exists r, ops, self'. split; [exact Hops|].
  rewrite _draw_items_loop. split; [exact Hrun|].
  pose proof (_draw_items_framed self _ _
                (eq_trans (_draw_items_loop self) Hrun)) as Hframe.
  destruct self'. exact Hframe.
Qed.

Lemma card_run_in_span (x y width height : Z) (routine : Routine)
    (version : Z) :
  170 <= width ->
  Forall (fun op => in_span x (x + width) op = true)
    (snd (card_run x y width height routine version)).
Proof.
  intros Hwidth.
  assert (Hmarkers : Forall (fun op => in_span x (x + width) op = true)
            [ setFillColor black;
              circle (x + MARGIN) (y + height - MARGIN) MARKER_RADIUS false
                true;
              circle (x + width - MARGIN) (y + height - MARGIN) MARKER_RADIUS
                false true;
              circle (x + MARGIN) (y + MARGIN) MARKER_RADIUS false true;
              circle (x + width - MARGIN) (y + MARGIN) MARKER_RADIUS false
                true ]).
  { repeat constructor; span_arith. }
  unfold card_run, draw.
  rewrite bind_run, _draw_alignment_markers_run.
  cbn [CardRenderer_init self_c self_x self_y self_width self_height
       set_c].
  rewrite bind_run, _draw_header_run. cbv zeta.
  cbn [CardRenderer_init self_c self_x self_y self_width self_height
       self_routine self_current_y set_c set_current_y].
  destruct (routine_name routine) as [name|].
  2:{ cbn [snd self_c code emits new_canvas app].
      repeat constructor; span_arith. }
  rewrite bind_run.
  match goal with
  | |- context [_draw_items ?s] =>
      destruct (_draw_items_in_span s Hwidth)
        as (r & ops & self' & Hops & Hrun & Hframe);
      rewrite Hrun
  end.
  cbn [self_c self_x self_width set_current_y set_c CardRenderer_init]
    in Hops.
  destruct self' as [cv' x' y' w' h' r' v' cy'].
  unfold same_card in Hframe.
  cbn [self_x self_y self_width self_height self_routine self_version
       set_current_y set_c CardRenderer_init] in Hframe.
  destruct Hframe as (-> & -> & -> & -> & -> & ->).
  destruct r as [[]|e]; [rewrite _draw_version_run|];
    cbn [snd self_c self_x self_y self_width self_version set_c code emits
         new_canvas app];
    repeat (apply Forall_app; split); try exact Hops; try exact Hmarkers;
    repeat constructor; span_arith.
Qed.

(** X16: nothing is drawn across the sides of a card.  On a card at least
    170 points wide, whatever its routine, every dot, box and rule lies
    between the left and the right side of the card, and every text is
    anchored between them; this holds also for what is drawn before an
    error.  (Where a text ends depends on its length and font, which the
    renderer never measures.) *)
Theorem card_stays_between_its_sides :
  forall (x y width height : Z) (routine : Routine) (version : Z),
  170 <= width ->
  Forall (fun op => in_span x (x + width) op = true)
    (snd (card_run x y width height routine version)).
Proof.
  intros x y width height routine version Hwidth.
  apply card_run_in_span. exact Hwidth.
Qed.

Lemma card_stays_between_its_sides_witness :
  Forall (fun op => in_span 306 612 op = true)
    (snd (card_run 306 396 306 396 twelve_checkboxes 1)).
Proof.
  apply (card_stays_between_its_sides 306 396 306 396 twelve_checkboxes 1).
  lia.
Defined.

Lemma in_span_weaken (lo hi lo' hi' : Z) (op : Op) :
  lo' <= lo -> hi <= hi' ->
  in_span lo hi op = true -> in_span lo' hi' op = true.
Proof.
  intros Hlo Hhi. destruct op; cbn [in_span]; try reflexivity;
    rewrite ?andb_true_iff, ?Z.leb_le; lia.
Qed.

Lemma LAYOUTS_columns (layout : string) (layout_config : LayoutConfig)
    (k : Z) :
  LAYOUTS layout = Some layout_config ->
  170 <= lc_width layout_config /\
  0 <= cell_x layout_config k /\
  cell_x layout_config k + lc_width layout_config <= PAGE_WIDTH /\
  Forall (fun op => in_span 0 PAGE_WIDTH op = true) (guide_ops layout_config).
Proof.
  intros Hlayout. unfold LAYOUTS in Hlayout.
  repeat match type of Hlayout with
         | (if ?b then _ else _) = _ => destruct b
         end;
    inversion Hlayout; subst; clear Hlayout;
    cbv [cell_x cols rows lc_width lc_height]; cbv zeta;
    change PAGE_WIDTH with 612;
    try change (1224 / 4) with 306; try change (1224 / 2) with 612;
    (split; [lia|]);
    (split; [Z.div_mod_to_equations; lia|]);
    (split; [Z.div_mod_to_equations; lia|]);
    vm_compute; repeat constructor.
Qed.

Lemma card_ops_on_page (routine : Routine) (layout : string)
    (layout_config : LayoutConfig) (k : Z) :
  LAYOUTS layout = Some layout_config ->
  Forall (fun op => in_span 0 PAGE_WIDTH op = true)
    (card_ops routine layout_config k).
Proof.
  intros Hlayout.
  destruct (LAYOUTS_columns layout layout_config k Hlayout)
    as (Hwidth & Hleft & Hright & _).
  unfold card_ops.
  eapply Forall_impl; [|apply card_run_in_span; exact Hwidth].
  intros op. apply in_span_weaken; assumption.
Qed.

(** X17: nothing is drawn off the page sideways.  For a well-formed
    routine, a layout of the table and a quantity of zero or more, every
    dot, box and rule of the document - guides and cards, on every page -
    lies between the left and the right edge of the letter page, and every
    text is anchored between them. *)
Theorem document_stays_on_page_sideways :
  forall (routine : Routine) (layout : string) (layout_config : LayoutConfig)
         (quantity : Z) (output_path : option string),
  well_formed routine ->
  LAYOUTS layout = Some layout_config ->
  0 <= quantity ->
  exists result cv,
    generate_pdf routine layout quantity output_path = (Ok result, Some cv) /\
    Forall (fun op => in_span 0 PAGE_WIDTH op = true) (code cv).
Proof.
  intros routine layout layout_config quantity output_path Hwf Hlayout Hq.
  destruct (generate_pdf_document routine layout layout_config quantity
              output_path Hwf Hlayout Hq) as (result & cv & Hrun & Hcode).
  exists result, cv. split; [exact Hrun|].
  rewrite Hcode. apply Forall_app. split; [|repeat constructor].
  apply Forall_flat_map. apply Forall_forall. intros page _.
  unfold page_ops. cbv zeta.
  apply Forall_app. split; [destruct (0 <? page); repeat constructor|].
  apply Forall_app. split.
  - apply (LAYOUTS_columns layout layout_config 0 Hlayout).
  - apply Forall_flat_map. apply Forall_forall. intros k _.
    apply (card_ops_on_page routine layout layout_config k Hlayout).
Qed.

Lemma document_stays_on_page_sideways_witness :
  exists result cv,
    generate_pdf twelve_checkboxes "half" 3 None = (Ok result, Some cv) /\
    Forall (fun op => in_span 0 612 op = true) (code cv).
Proof.
  apply (document_stays_on_page_sideways twelve_checkboxes "half"
           (mkLayout 1 2 612 396) 3 None).
  - split; [discriminate|]. cbn. repeat constructor.
  - reflexivity.
  - lia.
Defined.

(** ** Items draw between the cursors *)

Lemma in_band_weaken (lo hi lo' hi' : Z) (op : Op) :
  lo' <= lo -> hi <= hi' ->
  in_band lo hi op = true -> in_band lo' hi' op = true.
Proof.
  intros Hlo Hhi. destruct op; cbn [in_band]; try reflexivity;
    rewrite ?andb_true_iff, ?Z.leb_le; lia.
Qed.

Ltac band_arith :=
  cbn [in_band]; points;
  rewrite ?andb_true_iff, ?Z.leb_le;
  first [reflexivity | repeat split; lia].

Ltac item_ops :=
  unfold emits; cbn [self_c dest code]; rewrite <- !app_assoc; reflexivity.

(** A well-formed item draws all its marks between the cursor it leaves
    and four points above the cursor it found. *)
Lemma draw_item_in_band (content_x content_width : Z) (item : Item)
    (self : CardRenderer) :
  well_formed_item item = true ->
  exists ops self',
    draw_item content_x content_width item self = (Ok tt, self') /\
    self_c self' = emits ops (self_c self) /\
    self_current_y self' = self_current_y self - item_advance item /\
    Forall (fun op => in_band (self_current_y self')
                        (self_current_y self + 4) op = true) ops.
Proof.
  unfold well_formed_item, item_advance.
  destruct item as [[t|] [n|] o u hn]; cbn; try discriminate. intros _.
  destruct self as [cv x y w h r v cy].
  kind_cases t.
  - eexists; eexists; split; [run_card; reflexivity|].
    split; [item_ops|]. cbn [self_current_y app].
    split; [points; lia|repeat constructor; band_arith].
  - destruct (truthy u) eqn:Hu;
      (eexists; eexists; split; [run_card; rewrite Hu; reflexivity|]);
      (split; [item_ops|]); cbn [self_current_y app];
      (split; [points; lia|repeat constructor; band_arith]).
  - destruct (truthy_bool hn) eqn:Hn;
      (eexists; eexists; split; [run_card; rewrite ?Hn; reflexivity|]);
      (split; [item_ops|]); cbn [self_current_y app];
      (split; [points; lia|repeat constructor; band_arith]).
  - eexists; eexists; split; [run_card; reflexivity|].
    split; [item_ops|]. cbn [self_current_y app].
    split; [points; lia|repeat constructor; band_arith].
  - exists [], (mkCardRenderer cv x y w h r v cy).
    split; [reflexivity|].
    split; [cbn [self_c]; rewrite emits_nil; reflexivity|].
    cbn. split; [lia|constructor].
Qed.

Lemma total_advance_perm (l l' : list Item) :
  Permutation l l' -> total_advance l = total_advance l'.
Proof.
  unfold total_advance.
  induction 1; cbn [fold_right]; lia.
Qed.

Lemma for_in_items_in_band (cx cw min_y : Z) (l : list Item) :
  Forall (fun item => well_formed_item item = true) l ->
  forall self : CardRenderer,
  exists ops self',
    for_in l (_draw_items_body cx cw min_y) self = (Ok tt, self') /\
    self_c self' = emits ops (self_c self) /\
    same_card self self' /\
    self_current_y self - total_advance l <= self_current_y self'
      <= self_current_y self /\
    Forall (fun op => in_band (self_current_y self')
                        (self_current_y self + 4) op = true) ops.
Proof.
  induction 1 as [|item l Hitem Hl IH]; intros self.
  - exists [], self. split; [reflexivity|].
    split; [rewrite emits_nil; reflexivity|].
    split; [apply same_card_refl|].
    split; [unfold total_advance; cbn; lia|constructor].
  - pose proof (item_advance_nonneg item) as Hitem0.
    pose proof (total_advance_nonneg l) as Hl0.
    change (total_advance (item :: l))
      with (item_advance item + total_advance l).
    cbn [for_in]. rewrite bind_run. unfold _draw_items_body at 1.
    rewrite bind_run. unfold gets at 1.
    destruct (Z.ltb_spec (self_current_y self) min_y) as [Hlow|Hroom].
    + exists [], self. split; [reflexivity|].
      split; [rewrite emits_nil; reflexivity|].
      split; [apply same_card_refl|].
      split; [lia|constructor].
    + destruct (draw_item_in_band cx cw item self Hitem)
        as (ops1 & s1 & Hrun & Hc1 & Hy1 & Hband1).
      pose proof (draw_item_framed cx cw item self _ _ Hrun) as Hsame1.
      rewrite bind_run, Hrun. cbn [ret].
      destruct (IH s1) as (ops2 & self' & Hloop & Hc2 & Hsame2 & Hy2 & Hband2).
      exists (ops1 ++ ops2), self'. split; [exact Hloop|].
      split; [rewrite Hc2, Hc1, emits_emits; reflexivity|].
      split; [eapply same_card_trans; eassumption|].
      split; [lia|].
      apply Forall_app. split.
      * eapply Forall_impl; [|exact Hband1].
        intros op. apply in_band_weaken; lia.
      * eapply Forall_impl; [|exact Hband2].
        intros op. apply in_band_weaken; lia.
Qed.

(** X18: the items are drawn between the cursors.  On well-formed items
    the item loop succeeds, and every mark it draws lies between the cursor
    it ends at and four points above the cursor it started at (the top of a
    checkbox); the cursor ends no lower than the start minus the advances
    of all the items.  So nothing an item draws is ever below the final
    cursor. *)
Theorem items_draw_between_the_cursors :
  forall self : CardRenderer,
  Forall (fun item => well_formed_item item = true) (items_of self) ->
  exists ops self',
    _draw_items self = (Ok tt, self') /\
    self_c self' = emits ops (self_c self) /\
    self_current_y self - total_advance (items_of self)
      <= self_current_y self' <= self_current_y self /\
    Forall (fun op => in_band (self_current_y self')
                        (self_current_y self + 4) op = true) ops.
Proof.
  intros self Hwf.
  assert (Hwf' : Forall (fun item => well_formed_item item = true)
                   (sorted order_key (items_of self))).
  { eapply Permutation_Forall; [apply sorted_perm|exact Hwf]. }
  destruct (for_in_items_in_band (content_x_of self) (content_width_of self)
              (min_y_of self) _ Hwf' self)
    as (ops & self' & Hrun & Hc & _ & Hy & Hband).
  exists ops, self'. rewrite _draw_items_loop.
  rewrite (total_advance_perm _ _ (sorted_perm order_key (items_of self))).
  repeat split; try assumption; lia.
Qed.

Lemma items_draw_between_the_cursors_witness :
  exists ops self',
    _draw_items short_card = (Ok tt, self') /\
    Forall (fun op => in_band (self_current_y self') 47 op = true) ops.
Proof.
  destruct (items_draw_between_the_cursors short_card)
    as (ops & self' & Hrun & _ & _ & Hband).
  - repeat constructor.
  - exists ops, self'. split; [exact Hrun|exact Hband].
Defined.

(** ** A card whose items fit stays in its cell *)

(** X19: a card whose items fit stays between its top and its bottom.  For
    a well-formed routine whose items' advances add up to no more than the
    height of the card less 57 points (what markers and header take), the
    card is drawn without error and every dot, box, rule and text baseline
    lies between the bottom and the top of the card. *)
Theorem card_that_fits_stays_between_top_and_bottom :
  forall (x y width height : Z) (routine : Routine) (version : Z),
  well_formed routine ->
  total_advance (get_default (routine_items routine) []) <= height - 57 ->
  fst (card_run x y width height routine version) = Ok tt /\
  Forall (fun op => in_band y (y + height) op = true)
    (snd (card_run x y width height routine version)).
Proof.
  intros x y width height routine version [Hname Hitems] Hfit.
  pose proof (total_advance_nonneg (get_default (routine_items routine) []))
    as Htotal.
  unfold card_run, draw.
  rewrite bind_run, _draw_alignment_markers_run.
  cbn [CardRenderer_init self_c self_x self_y self_width self_height
       set_c].
  rewrite bind_run, _draw_header_run. cbv zeta.
  cbn [CardRenderer_init self_c self_x self_y self_width self_height
       self_routine self_current_y set_c set_current_y].
  destruct (routine_name routine) as [name|]; [clear Hname|congruence].
  rewrite bind_run.
  match goal with
  | |- context [_draw_items ?s] =>
      destruct (for_in_items_in_band (content_x_of s) (content_width_of s)
                  (min_y_of s) (sorted order_key (items_of s))
                  ltac:(eapply Permutation_Forall;
                        [apply sorted_perm|exact Hitems]) s)
        as (ops & self' & Hrun & Hc & Hframe & Hy & Hband);
      rewrite (_draw_items_loop s), Hrun
  end.
  rewrite <- (total_advance_perm _ _ (sorted_perm order_key _)) in Hy.
  clear Hrun. unfold items_of in Hy.
  cbn [self_routine self_c self_current_y set_current_y set_c
       CardRenderer_init] in Hc, Hy, Hband.
  destruct self' as [cv' x' y' w' h' r' v' cy'].
  unfold same_card in Hframe.
  cbn [self_x self_y self_width self_height self_routine self_version
       set_current_y set_c CardRenderer_init] in Hframe.
  destruct Hframe as (-> & -> & -> & -> & -> & ->).
  cbn [self_c self_current_y] in Hc, Hy, Hband. subst cv'.
  rewrite _draw_version_run.
  cbn [fst snd self_c self_x self_y self_width self_version set_c code emits
       new_canvas app].
  split; [reflexivity|].
  repeat (apply Forall_cons; [band_arith|]).
  apply Forall_app. split.
  - eapply Forall_impl; [|exact Hband].
    intros op. apply in_band_weaken; points; lia.
  - repeat constructor; band_arith.
Qed.

Lemma card_that_fits_stays_between_top_and_bottom_witness :
  Forall (fun op => in_band 396 792 op = true)
    (snd (card_run 0 396 306 396 twelve_checkboxes 1)).
Proof.
  apply (card_that_fits_stays_between_top_and_bottom 0 396 306 396
           twelve_checkboxes 1).
  - split; [discriminate|]. cbn. repeat constructor.
  - vm_compute. discriminate.
Defined.

(** * The order of the items *)

Lemma draw_item_names (content_x content_width : Z) (item : Item)
    (self : CardRenderer) :
  well_formed_item item = true ->
  exists ops self',
    draw_item content_x content_width item self = (Ok tt, self') /\
    self_c self' = emits ops (self_c self) /\
    forall size, exists size', forall rest,
      names_written size (ops ++ rest) =
      item_names [item] ++ names_written size' rest.
Proof.
  unfold well_formed_item, item_names, recognized_kind.
  destruct item as [[t|] [n|] o u hn]; cbn; try discriminate.
  intros _. destruct self as [cv x y w h r v cy].
  kind_cases t; cbn [orb app].
  - eexists; eexists; split; [run_card; reflexivity|].
    split; [item_ops|]. intros size. eexists. intros rest. reflexivity.
  - destruct (truthy u) eqn:Hu;
      (eexists; eexists; split; [run_card; rewrite Hu; reflexivity|]);
      (split; [item_ops|]); intros size; eexists; intros rest; reflexivity.
  - destruct (truthy_bool hn) eqn:Hn;
      (eexists; eexists; split; [run_card; rewrite ?Hn; reflexivity|]);
      (split; [item_ops|]); intros size; eexists; intros rest; reflexivity.
  - eexists; eexists; split; [run_card; reflexivity|].
    split; [item_ops|]. intros size. eexists. intros rest. reflexivity.
  - exists [], (mkCardRenderer cv x y w h r v cy).
    split; [reflexivity|].
    split; [cbn [self_c]; rewrite emits_nil; reflexivity|].
    intros size. exists size. intros rest. reflexivity.
Qed.

Lemma item_names_app (l1 l2 : list Item) :
  item_names (l1 ++ l2) = item_names l1 ++ item_names l2.
Proof. unfold item_names. apply flat_map_app. Qed.

Lemma Forall_prefix {A} (P : A -> Prop) (n : nat) (l : list A) :
  Forall P l -> Forall P (firstn n l).
Proof.
  intros H. revert n. induction H as [|a l Ha _ IH]; intros [|n];
    cbn [firstn]; constructor; [exact Ha|apply IH].
Qed.

Lemma draw_seq_names (cx cw : Z) (l : list Item) :
  Forall (fun item => well_formed_item item = true) l ->
  forall self : CardRenderer,
  exists ops self',
    draw_seq cx cw l self = (Ok tt, self') /\
    self_c self' = emits ops (self_c self) /\
    forall size, exists size', forall rest,
      names_written size (ops ++ rest) =
      item_names l ++ names_written size' rest.
Proof.
  induction 1 as [|item l Hitem _ IH]; intros self.
  - exists [], self. split; [reflexivity|].
    split; [rewrite emits_nil; reflexivity|].
    intros size. exists size. intros rest. reflexivity.
  - destruct (draw_item_names cx cw item self Hitem)
      as (ops1 & s1 & Hrun & Hc1 & Hnames1).
    destruct (IH s1) as (ops2 & self' & Hseq & Hc2 & Hnames2).
    exists (ops1 ++ ops2), self'.
    split.
    { unfold draw_seq, for_each in *. cbn [for_in].
      rewrite bind_run, bind_run, Hrun. cbn [ret]. exact Hseq. }
    split; [rewrite Hc2, Hc1, emits_emits; reflexivity|].
    intros size.
    destruct (Hnames1 size) as (size1 & H1).
    destruct (Hnames2 size1) as (size2 & H2).
    exists size2. intros rest.
    rewrite <- app_assoc, H1, H2.
    change (item :: l) with ([item] ++ l).
    rewrite item_names_app, <- app_assoc. reflexivity.
Qed.

(** C3: the item loop of the card renderer walks the routine's items in the
    order of a stable ascending sort on [order], a missing [order] counting
    as 0.  The sequence it walks is a rearrangement of the input items, is
    ascending in [order] whatever the input order was, and keeps items of
    equal [order] in their input order; when no two items share an [order],
    it is the same sequence for every arrangement of the input.  The loop
    is the loop over that sequence, and what it draws is an initial segment
    of it, item by item.  On well-formed items the segment is fixed by the
    room above the floor: it ends at the first position where the items
    before it have already used more than the room, and the names the loop
    writes on the canvas are the names of the segment's items (of the four
    kinds), in ascending [order], equal [order]s in input order.  When all
    items but the last fit, the segment is the whole sequence. *)
Theorem draw_items_ascending_stable : forall self : CardRenderer,
  let items := items_of self in
  let drawn := sorted order_key items in
  let room := self_current_y self - min_y_of self in
  Permutation items drawn /\
  StronglySorted (fun a b => order_key a <= order_key b) drawn /\
  (forall k : Z,
     filter (fun item => order_key item =? k) drawn =
     filter (fun item => order_key item =? k) items) /\
  (forall item, item_order item = None -> order_key item = 0) /\
  (forall items',
     Permutation items items' -> NoDup (map order_key items) ->
     sorted order_key items' = drawn) /\
  _draw_items self =
    for_in drawn
      (_draw_items_body (content_x_of self) (content_width_of self)
         (min_y_of self)) self /\
  (exists n, (n <= List.length drawn)%nat /\
     _draw_items self =
     draw_seq (content_x_of self) (content_width_of self) (firstn n drawn)
       self) /\
  (Forall (fun item => well_formed_item item = true) items ->
   exists n ops self',
     (n <= List.length drawn)%nat /\
     (forall m, (m < n)%nat -> total_advance (firstn m drawn) <= room) /\
     ((n < List.length drawn)%nat ->
      total_advance (firstn n drawn) > room) /\
     (total_advance (removelast drawn) <= room -> n = List.length drawn) /\
     _draw_items self = (Ok tt, self') /\
     draw_seq (content_x_of self) (content_width_of self) (firstn n drawn)
       self = (Ok tt, self') /\
     self_c self' = emits ops (self_c self) /\
     forall size, names_written size ops = item_names (firstn n drawn)).
Proof.
  intros self items drawn room.
  split; [apply sorted_perm|].
  split; [apply (sorted_ascending order_key)|].
  split; [intros k; apply sorted_stable|].
  split; [intros item H; unfold order_key; rewrite H; reflexivity|].
  split; [intros items'; apply sorted_input_order_irrelevant|].
  split; [apply _draw_items_loop|].
  split; [rewrite _draw_items_loop; apply for_in_items_prefix|].
  intros Hwf.
  assert (Hwf' : Forall (fun item => well_formed_item item = true) drawn).
  { eapply Permutation_Forall; [apply sorted_perm|exact Hwf]. }
  destruct (for_in_items_truncate (content_x_of self) (content_width_of self)
              (min_y_of self) drawn Hwf' self)
    as (n & self' & Hn & Hloop & Hseq & _ & _ & Hle & Hgt).
  destruct (draw_seq_names (content_x_of self) (content_width_of self)
              (firstn n drawn) (Forall_prefix _ n _ Hwf') self)
    as (ops & self'' & Hseq' & Hc & Hnames).
  rewrite Hseq in Hseq'.
  assert (self'' = self') by congruence. subst self''.
  exists n, ops, self'.
  split; [exact Hn|]. split; [exact Hle|]. split; [exact Hgt|].
  split.
  { intros Hfit.
    destruct (Nat.lt_ge_cases n (List.length drawn)) as [Hlt|Hge]; [|lia].
    specialize (Hgt Hlt).
    pose proof (total_advance_firstn_le n drawn Hlt). fold room in Hgt. lia. }
  split; [rewrite _draw_items_loop; exact Hloop|].
  split; [exact Hseq|]. split; [exact Hc|].
  intros size. destruct (Hnames size) as (size' & H).
  specialize (H []). rewrite !app_nil_r in H. exact H.
Qed.

Lemma draw_items_ascending_stable_witness :
  sorted order_key (items_of (quarter_card shuffled_chores)) =
    [ checkbox_item "a" 0; mkItem (Some "number") (Some "d") None None None;
      checkbox_item "b" 1; checkbox_item "c" 1 ] /\
  exists ops self',
    _draw_items (quarter_card shuffled_chores) = (Ok tt, self') /\
    self_c self' = emits ops (self_c (quarter_card shuffled_chores)) /\
    names_written 10 ops = ["a"; "d"; "b"; "c"].
Proof.
  split; [reflexivity|].
  destruct (draw_items_ascending_stable (quarter_card shuffled_chores))
    as (_ & _ & _ & _ & _ & _ & _ & Hdrawn).
  destruct Hdrawn as (n & ops & self' & _ & _ & _ & Hall & Hrun & _ & Hc
                      & Hnames).
  - repeat constructor.
  - exists ops, self'. split; [exact Hrun|]. split; [exact Hc|].
    rewrite (Hnames 10), Hall; [reflexivity|].
    vm_compute. discriminate.
Defined.
